(** * Wingman MCP client core: a shallow embedding and its verified properties

    The development follows the layout of [src/wingman/mcp]: one module per
    source file that a property talks about.  Python objects that are mutated
    in place are threaded through a state-and-exception monad; an exception
    leaves the object as it was at the [raise].  Clock readings, server
    replies and scheduler decisions are inputs of the functions that consume
    them. *)

From stdpp Require Import gmap strings list fin_maps pretty.
From Stdlib Require Import ZArith QArith Lia Ascii.
From Stdlib Require DecimalString DecimalZ.

Set Warnings "-register-all".
Local Open Scope Z_scope.

(* ===================================================================== *)
(** ** Python values, exceptions and effects                              *)
(* ===================================================================== *)

(** JSON-shaped Python values ([Any] in the annotations).  Dictionaries are
    finite maps: Python compares them without regard to insertion order. *)
Inductive pyval : Type :=
  | VNone
  | VBool (b : bool)
  | VInt (z : Z)
  | VFloat (q : Q)
  | VStr (s : string)
  | VList (l : list pyval)
  | VDict (d : gmap string pyval).

Abbreviation pydict := (gmap string pyval).

(** [x is None] *)
Definition is_None (v : pyval) : bool :=
  match v with VNone => true | _ => false end.

(** [d.get(k)]: the value, or [None] when the key is absent. *)
Definition dict_get (d : pydict) (k : string) : pyval :=
  default VNone (d !! k).

(** [k in d] *)
Definition dict_has (d : pydict) (k : string) : bool :=
  bool_decide (is_Some (d !! k)).

(** A timezone-aware [datetime]: microseconds since the epoch. *)
Definition datetime := Z.

(** tasks/state.py, [class TaskState(Enum)] *)
Inductive TaskState := PENDING | RUNNING | COMPLETED | FAILED | CANCELLED.

(** protocol/state.py, [class ProtocolState(Enum)] *)
Inductive ProtocolState :=
  DISCONNECTED | CONNECTING | INITIALIZING | READY | CLOSING | CLOSED.

#[global] Instance TaskState_eq_dec : EqDecision TaskState.
Proof. solve_decision. Defined.
#[global] Instance ProtocolState_eq_dec : EqDecision ProtocolState.
Proof. solve_decision. Defined.

(** protocol/errors.py: the error codes. *)
Definition PARSE_ERROR : Z := -32700.
Definition INVALID_REQUEST : Z := -32600.
Definition METHOD_NOT_FOUND : Z := -32601.
Definition INVALID_PARAMS : Z := -32602.
Definition INTERNAL_ERROR : Z := -32603.
Definition REQUEST_TIMEOUT : Z := -32001.
Definition REQUEST_CANCELLED : Z := -32002.

(** transport/base.py: [TransportError] and its three subclasses. *)
Inductive transport_error_kind :=
  TransportErrorBase | TransportConnectionError | TransportTimeoutError
  | SessionError.

(** The exception classes that the modelled code raises or lets through.
    [MCPError] keeps its three dataclass fields; the fields of an error that
    was decoded from a server reply hold whatever the reply held.
    [IllTyped] is not a Python exception: a decoder of the model returns it
    where Python would build an object whose field does not have the
    annotated type, an object the typed records below cannot express. *)
Inductive exn : Type :=
  | InvalidTaskTransition (task_id : pyval) (from_state to_state : TaskState)
  | InvalidStateTransition (from_state to_state : ProtocolState)
  | MCPError (code message data : pyval)
  | CancellationError (msg : string)
  | IncompatibleProtocolError (server_version : pyval)
  | TransportError (kind : transport_error_kind) (msg : string)
  | TooManyTasksError
  | ValueError (msg : string)
  | KeyError (key : string)
  | AttributeError
  | TypeError
  | AsyncioTimeoutError
  | AsyncioCancelledError
  | OtherException (msg : string)
  | IllTyped (field : string).

(** [asyncio.CancelledError] derives from [BaseException], every other class
    above from [Exception]; [except Exception] does not catch the former. *)
Definition is_Exception (e : exn) : bool :=
  match e with AsyncioCancelledError => false | _ => true end.

(** How a call ends. *)
Inductive pyres (A : Type) : Type :=
  | Ok (a : A)
  | Raised (e : exn).
Arguments Ok {A} a.
Arguments Raised {A} e.

(** A method of an object of type [S]: it may update the object and either
    returns or raises.  The object that comes back with [Raised] is the
    object as it stood when the exception left the method. *)
Definition Py (S A : Type) : Type := S → pyres A * S.

Definition py_ret {S A} (a : A) : Py S A := λ s, (Ok a, s).
Definition py_bind {S A B} (m : Py S A) (k : A → Py S B) : Py S B :=
  λ s, match m s with
       | (Ok a, s') => k a s'
       | (Raised e, s') => (Raised e, s')
       end.
Definition py_raise {S A} (e : exn) : Py S A := λ s, (Raised e, s).
Definition py_lift {S A} (r : pyres A) : Py S A := λ s, (r, s).
Definition py_get {S} : Py S S := λ s, (Ok s, s).
Definition py_modify {S} (f : S → S) : Py S unit := λ s, (Ok tt, f s).
(** [try: m  except <classes selected by catches>: h] *)
Definition py_try {S A} (m : Py S A) (catches : exn → bool)
    (h : exn → Py S A) : Py S A :=
  λ s, match m s with
       | (Ok a, s') => (Ok a, s')
       | (Raised e, s') => if catches e then h e s' else (Raised e, s')
       end.
(** [try: m  finally: f] *)
Definition py_finally {S A} (m : Py S A) (f : Py S unit) : Py S A :=
  λ s, match m s with
       | (r, s') => match f s' with
                    | (Ok _, s'') => (r, s'')
                    | (Raised e, s'') => (Raised e, s'')
                    end
       end.

(** The same sequencing for code without an object to update. *)
Definition res_bind {A B} (r : pyres A) (k : A → pyres B) : pyres B :=
  match r with Ok a => k a | Raised e => Raised e end.

Declare Scope py_scope.
Delimit Scope py_scope with py.
Notation "x ←ₚ m ; k" := (py_bind m (λ x, k))
  (at level 100, m at next level, right associativity,
   format "x  ←ₚ  m ; '/' k") : py_scope.
Notation "m ;ₚ k" := (py_bind m (λ _, k))
  (at level 100, right associativity, format "m ;ₚ '/' k") : py_scope.

Notation "x ←ᵣ r ; k" := (res_bind r (λ x, k))
  (at level 100, r at next level, right associativity,
   format "x  ←ᵣ  r ; '/' k") : py_scope.

(** [d[k]]: raises [KeyError] when the key is absent. *)
Definition dict_item (d : pydict) (k : string) : pyres pyval :=
  match d !! k with Some v => Ok v | None => Raised (KeyError k) end.

(** [not d] for a dictionary [d] *)
Definition dict_is_empty (d : pydict) : bool :=
  match map_to_list d with [] => true | _ => false end.

(** [sub in s] for two strings. *)
Fixpoint str_contains (sub s : string) : bool :=
  String.prefix sub s ||
  match s with
  | EmptyString => false
  | String _ s' => str_contains sub s'
  end.

(** [key in container] for a string [key]: key membership on a dictionary,
    element membership on a list, substring test on a string, [TypeError] on
    a value that is not a container. *)
Definition py_contains (container : pyval) (key : string) : pyres bool :=
  match container with
  | VDict d => Ok (dict_has d key)
  | VList l =>
      Ok (existsb (λ v, match v with VStr s => String.eqb s key | _ => false end) l)
  | VStr s => Ok (str_contains key s)
  | _ => Raised TypeError
  end.

(** An optional assignment [if c: d[k] = v]. *)
Definition dict_set_if (c : bool) (k : string) (v : pyval) (d : pydict)
    : pydict :=
  if c then <[k := v]> d else d.

(** An assignment made when an optional field is there:
    [if self.x is not None: d[k] = f(self.x)]. *)
Definition dict_set_opt (k : string) (v : option pyval) (d : pydict) : pydict :=
  match v with Some x => <[k := x]> d | None => d end.

(** [bool(v)]: the truth value of a value, as [if v:] and [not v] take
    it. *)
Definition py_truthy (v : pyval) : bool :=
  match v with
  | VNone => false
  | VBool b => b
  | VInt z => negb (z =? 0)%Z
  | VFloat q => negb (Qeq_bool q 0)
  | VStr s => negb (String.eqb s "")
  | VList l => match l with [] => false | _ => true end
  | VDict d => negb (dict_is_empty d)
  end.

(* ===================================================================== *)
(** ** tasks/state.py                                                     *)
(* ===================================================================== *)

Module TaskProgress.
Record t := mk {
  current : pyval;
  total : pyval;
  message : pyval
}.

(** [TaskProgress.to_dict] *)
Definition to_dict (self : t) : pydict :=
  dict_set_if (negb (is_None (message self))) "message" (message self)
    (dict_set_if (negb (is_None (total self))) "total" (total self)
       {[ "current" := current self ]}).
End TaskProgress.

Module TaskError.
Record t := mk {
  code : pyval;
  message : pyval;
  data : pyval
}.

(** [TaskError.to_dict] *)
Definition to_dict (self : t) : pydict :=
  dict_set_if (negb (is_None (data self))) "data" (data self)
    (<["message" := message self]> {[ "code" := code self ]}).
End TaskError.

Module Task.

(** The dataclass [Task].  [VALID_TRANSITIONS] is a field filled by a
    default factory that nothing in the repository reassigns; it is the
    constant table below.  [id], [type] and the fields of [TaskProgress] and
    [TaskError] are stored and emitted as they come, so they are kept as
    Python values; [result] is [VNone] for [None]. *)
Record t := mk {
  id : pyval;
  type : pyval;
  state : TaskState;
  progress : option TaskProgress.t;
  result : pyval;
  error : option TaskError.t;
  created_at : datetime;
  updated_at : datetime;
  started_at : option datetime;
  completed_at : option datetime;
  metadata : pydict
}.

Definition VALID_TRANSITIONS (s : TaskState) : list TaskState :=
  match s with
  | PENDING => [RUNNING; CANCELLED]
  | RUNNING => [COMPLETED; FAILED; CANCELLED]
  | COMPLETED => []
  | FAILED => []
  | CANCELLED => []
  end.

Definition set_state (v : TaskState) (x : t) : t :=
  mk (id x) (type x) v (progress x) (result x) (error x) (created_at x)
     (updated_at x) (started_at x) (completed_at x) (metadata x).
Definition set_progress (v : option TaskProgress.t) (x : t) : t :=
  mk (id x) (type x) (state x) v (result x) (error x) (created_at x)
     (updated_at x) (started_at x) (completed_at x) (metadata x).
Definition set_result (v : pyval) (x : t) : t :=
  mk (id x) (type x) (state x) (progress x) v (error x) (created_at x)
     (updated_at x) (started_at x) (completed_at x) (metadata x).
Definition set_error (v : option TaskError.t) (x : t) : t :=
  mk (id x) (type x) (state x) (progress x) (result x) v (created_at x)
     (updated_at x) (started_at x) (completed_at x) (metadata x).
Definition set_created_at (v : datetime) (x : t) : t :=
  mk (id x) (type x) (state x) (progress x) (result x) (error x) v
     (updated_at x) (started_at x) (completed_at x) (metadata x).
Definition set_updated_at (v : datetime) (x : t) : t :=
  mk (id x) (type x) (state x) (progress x) (result x) (error x)
     (created_at x) v (started_at x) (completed_at x) (metadata x).
Definition set_started_at (v : option datetime) (x : t) : t :=
  mk (id x) (type x) (state x) (progress x) (result x) (error x)
     (created_at x) (updated_at x) v (completed_at x) (metadata x).
Definition set_completed_at (v : option datetime) (x : t) : t :=
  mk (id x) (type x) (state x) (progress x) (result x) (error x)
     (created_at x) (updated_at x) (started_at x) v (metadata x).
Definition set_metadata (v : pydict) (x : t) : t :=
  mk (id x) (type x) (state x) (progress x) (result x) (error x)
     (created_at x) (updated_at x) (started_at x) (completed_at x) v.

(** [state in (COMPLETED, FAILED, CANCELLED)] *)
Definition terminal_state (s : TaskState) : bool :=
  match s with COMPLETED | FAILED | CANCELLED => true | _ => false end.

Definition is_terminal (x : t) : bool := terminal_state (state x).

Definition is_active (x : t) : bool :=
  match state x with PENDING | RUNNING => true | _ => false end.

(** [Task.transition].  The method reads the clock twice: [now_updated] is
    the reading stored in [updated_at], [now_stamp] the later one stored in
    [started_at] or [completed_at]. *)
Definition transition (new_state : TaskState)
    (now_updated now_stamp : datetime) : Py t unit :=
  (self ←ₚ py_get;
   if negb (bool_decide (new_state ∈ VALID_TRANSITIONS (state self)))
   then py_raise (InvalidTaskTransition (id self) (state self) new_state)
   else
     py_modify (set_state new_state) ;ₚ
     py_modify (set_updated_at now_updated) ;ₚ
     if bool_decide (new_state = RUNNING)
     then py_modify (set_started_at (Some now_stamp))
     else if terminal_state new_state
     then py_modify (set_completed_at (Some now_stamp))
     else py_ret tt)%py.

(** [Task.update_progress] *)
Definition update_progress (current total message : pyval)
    (now : datetime) : Py t unit :=
  (py_modify (set_progress (Some (TaskProgress.mk current total message))) ;ₚ
   py_modify (set_updated_at now))%py.

(** [TaskState.value] and the lookup [TaskState(value)]. *)
Definition value (s : TaskState) : string :=
  match s with
  | PENDING => "pending"
  | RUNNING => "running"
  | COMPLETED => "completed"
  | FAILED => "failed"
  | CANCELLED => "cancelled"
  end.

Definition of_value (v : pyval) : pyres TaskState :=
  match v with
  | VStr s =>
      if String.eqb s "pending" then Ok PENDING
      else if String.eqb s "running" then Ok RUNNING
      else if String.eqb s "completed" then Ok COMPLETED
      else if String.eqb s "failed" then Ok FAILED
      else if String.eqb s "cancelled" then Ok CANCELLED
      else Raised (ValueError "not a valid TaskState")
  | _ => Raised (ValueError "not a valid TaskState")
  end.

Section Wire.

(** [datetime.isoformat] and [datetime.fromisoformat] of the Python library;
    the latter answers [None] where Python raises [ValueError]. *)
Variable isoformat : datetime → string.
Variable fromisoformat : string → option datetime.

Definition parse_datetime (v : pyval) : pyres datetime :=
  match v with
  | VStr s =>
      match fromisoformat s with
      | Some d => Ok d
      | None => Raised (ValueError "Invalid isoformat string")
      end
  | _ => Raised TypeError
  end.

(** [Task.to_dict].  A [TaskProgress], a [TaskError] and a [datetime] are
    always truthy, so [if self.progress:] and the like test for [None]. *)
Definition to_dict (self : t) : pydict :=
  let result0 : pydict :=
    <["updatedAt" := VStr (isoformat (updated_at self))]>
    (<["createdAt" := VStr (isoformat (created_at self))]>
    (<["state" := VStr (value (state self))]>
    (<["type" := type self]>
    {[ "id" := id self ]}))) in
  let result1 :=
    dict_set_opt "progress"
      ((λ p, VDict (TaskProgress.to_dict p)) <$> progress self) result0 in
  let result2 :=
    dict_set_if (negb (is_None (result self))) "result" (result self) result1 in
  let result3 :=
    dict_set_opt "error"
      ((λ e, VDict (TaskError.to_dict e)) <$> error self) result2 in
  let result4 :=
    dict_set_opt "startedAt"
      ((λ d, VStr (isoformat d)) <$> started_at self) result3 in
  let result5 :=
    dict_set_opt "completedAt"
      ((λ d, VStr (isoformat d)) <$> completed_at self) result4 in
  dict_set_if (negb (dict_is_empty (metadata self))) "_meta"
    (VDict (metadata self)) result5.

(** [Task.from_dict].  The constructor call stamps [created_at] and
    [updated_at] with two clock readings, which the wire values then
    replace. *)
Definition from_dict (now_created now_updated : datetime) (data : pydict)
    : pyres t :=
  (vid ←ᵣ dict_item data "id";
   vstate ←ᵣ dict_item data "state";
   st ←ᵣ of_value vstate;
   md ←ᵣ match data !! "_meta" with
          | None => Ok ∅
          | Some (VDict d) => Ok d
          | Some _ => Raised (IllTyped "metadata")
          end;
   let task :=
     mk vid (default (VStr "tools/call") (data !! "type")) st None VNone None
        now_created now_updated None None md in
   task ←ᵣ match data !! "createdAt" with
            | Some v => d ←ᵣ parse_datetime v; Ok (set_created_at d task)
            | None => Ok task
            end;
   task ←ᵣ match data !! "updatedAt" with
            | Some v => d ←ᵣ parse_datetime v; Ok (set_updated_at d task)
            | None => Ok task
            end;
   task ←ᵣ match data !! "startedAt" with
            | Some v => d ←ᵣ parse_datetime v; Ok (set_started_at (Some d) task)
            | None => Ok task
            end;
   task ←ᵣ match data !! "completedAt" with
            | Some v => d ←ᵣ parse_datetime v; Ok (set_completed_at (Some d) task)
            | None => Ok task
            end;
   task ←ᵣ match data !! "progress" with
            | Some (VDict p) =>
                cur ←ᵣ dict_item p "current";
                Ok (set_progress
                      (Some (TaskProgress.mk cur (dict_get p "total")
                               (dict_get p "message"))) task)
            | Some _ => Raised TypeError
            | None => Ok task
            end;
   task ←ᵣ match data !! "error" with
            | Some (VDict e) =>
                c ←ᵣ dict_item e "code";
                m ←ᵣ dict_item e "message";
                Ok (set_error (Some (TaskError.mk c m (dict_get e "data"))) task)
            | Some _ => Raised TypeError
            | None => Ok task
            end;
   match data !! "result" with
   | Some v => Ok (set_result v task)
   | None => Ok task
   end)%py.

End Wire.


(** [Task(id=..., type=..., metadata=...)]: the object the dataclass
    defaults build, with the two clock readings of [created_at] and
    [updated_at]. *)
Definition init (id type : pyval) (metadata : pydict)
    (now_created now_updated : datetime) : t :=
  mk id type PENDING None VNone None now_created now_updated None None
     metadata.

(** A call of one of the two mutating methods, with the clock readings it
    makes. *)
Inductive call :=
  | call_transition (new_state : TaskState) (now_updated now_stamp : datetime)
  | call_update_progress (current total message : pyval) (now : datetime).

Definition run_call (c : call) : Py t unit :=
  match c with
  | call_transition new_state now_updated now_stamp =>
      transition new_state now_updated now_stamp
  | call_update_progress current total message now =>
      update_progress current total message now
  end.

(** A caller that makes the calls one after the other on the same object
    and goes on after an [InvalidTaskTransition]. *)
Definition run_calls (cs : list call) (x : t) : t :=
  fold_left (λ x c, snd (run_call c x)) cs x.

(** The number of [transition] calls of the sequence that returned. *)
Fixpoint accepted_transitions (cs : list call) (x : t) : nat :=
  match cs with
  | [] => 0%nat
  | c :: rest =>
      match c, run_call c x with
      | call_transition _ _ _, (Ok _, x') => S (accepted_transitions rest x')
      | _, (_, x') => accepted_transitions rest x'
      end
  end.

(** The number of transitions a task in state [s] can still make. *)
Definition transitions_left (s : TaskState) : nat :=
  match s with PENDING => 2%nat | RUNNING => 1%nat | _ => 0%nat end.

End Task.

(* ===================================================================== *)
(** ** protocol/state.py                                                  *)
(* ===================================================================== *)

Module ProtocolStateMachine.

(** A registered callback, known by a name.  The machine swallows whatever
    a callback raises, so a callback is observed only through the record of
    its calls. *)
Definition listener := nat.

(** One call [listener(old_state, new_state)]. *)
Record call := mk_call {
  callee : listener;
  old_state : ProtocolState;
  new_state : ProtocolState
}.

Record t := mk {
  _state : ProtocolState;
  _listeners : list listener;
  (** every listener call made so far, oldest first *)
  calls : list call
}.

Definition init (initial_state : ProtocolState) : t := mk initial_state [] [].

Definition VALID_TRANSITIONS (s : ProtocolState) : list ProtocolState :=
  match s with
  | DISCONNECTED => [CONNECTING]
  | CONNECTING => [INITIALIZING; DISCONNECTED]
  | INITIALIZING => [READY; DISCONNECTED]
  | READY => [CLOSING; DISCONNECTED]
  | CLOSING => [CLOSED; DISCONNECTED]
  | CLOSED => []
  end.

Definition state (m : t) : ProtocolState := _state m.

Definition is_connected (m : t) : bool :=
  match _state m with INITIALIZING | READY => true | _ => false end.

Definition is_ready (m : t) : bool := bool_decide (_state m = READY).

Definition can_transition_to (m : t) (new : ProtocolState) : bool :=
  bool_decide (new ∈ VALID_TRANSITIONS (_state m)).

(** [for listener in self._listeners: listener(old, new)] *)
Definition notify_listeners (old new : ProtocolState) : Py t unit :=
  py_modify (λ m, mk (_state m) (_listeners m)
    (calls m ++ map (λ l, mk_call l old new) (_listeners m))).

Definition set_state (new : ProtocolState) : Py t unit :=
  py_modify (λ m, mk new (_listeners m) (calls m)).

(** [ProtocolStateMachine.transition] *)
Definition transition (new : ProtocolState) : Py t unit :=
  (self ←ₚ py_get;
   if negb (can_transition_to self new)
   then py_raise (InvalidStateTransition (_state self) new)
   else
     let old := _state self in
     set_state new ;ₚ
     notify_listeners old new)%py.

(** [ProtocolStateMachine.force_state] *)
Definition force_state (new : ProtocolState) : Py t unit :=
  (self ←ₚ py_get;
   let old := _state self in
   set_state new ;ₚ
   notify_listeners old new)%py.

(** [ProtocolStateMachine.on_transition] *)
Definition on_transition (callback : listener) : Py t unit :=
  py_modify (λ m, mk (_state m) (_listeners m ++ [callback]) (calls m)).


Definition is_closed (m : t) : bool :=
  match _state m with CLOSED | DISCONNECTED => true | _ => false end.

(** [list.remove(x)]: drops the first element equal to [x]; [None] where
    Python raises [ValueError]. *)
Fixpoint list_remove (x : listener) (l : list listener)
    : option (list listener) :=
  match l with
  | [] => None
  | y :: rest =>
      if decide (y = x) then Some rest
      else cons y <$> list_remove x rest
  end.

(** [ProtocolStateMachine.remove_listener] *)
Definition remove_listener (callback : listener) : Py t unit :=
  py_modify (λ m,
    match list_remove callback (_listeners m) with
    | Some l => mk (_state m) l (calls m)
    | None => m
    end).

(** [ProtocolStateMachine.reset] *)
Definition reset : Py t unit :=
  (self ←ₚ py_get;
   let old := _state self in
   set_state DISCONNECTED ;ₚ
   notify_listeners old DISCONNECTED)%py.

(** The calls a user of the machine makes. *)
Inductive op :=
  | op_transition (new : ProtocolState)
  | op_force_state (new : ProtocolState)
  | op_reset
  | op_on_transition (callback : listener)
  | op_remove_listener (callback : listener).

Definition run_op (o : op) : Py t unit :=
  match o with
  | op_transition new => transition new
  | op_force_state new => force_state new
  | op_reset => reset
  | op_on_transition callback => on_transition callback
  | op_remove_listener callback => remove_listener callback
  end.

(** A user that makes the calls one after the other and goes on after an
    [InvalidStateTransition]. *)
Definition run_ops (os : list op) (m : t) : t :=
  fold_left (λ m o, snd (run_op o m)) os m.

(** The calls that go through the transition table. *)
Definition validated (o : op) : bool :=
  match o with op_force_state _ | op_reset => false | _ => true end.

End ProtocolStateMachine.

(* ===================================================================== *)
(** ** tasks/manager.py                                                   *)
(* ===================================================================== *)

Module TaskManager.

Record TaskConfig := mk_config {
  default_timeout : Q;
  completed_ttl : Q;
  max_concurrent : Z;
  cleanup_interval : Q;
  persistence_enabled : bool
}.

(** One call [on_state_change(task, old_state, new_state)]. *)
Record state_change := mk_change {
  changed_task : pyval;
  old_state : TaskState;
  new_state : TaskState
}.

(** A [Task] object is shared by [_tasks] and by the background coroutine
    that runs it: the object lives in [_tasks] and is reached through its
    key.  [_executors] holds the keys that have a background handle.
    [_on_state_change] tells whether a callback is registered; the manager
    logs and drops whatever the callback raises, so the callback is observed
    through [state_changes], the record of its calls. *)
Record t := mk {
  config : TaskConfig;
  _on_state_change : bool;
  _tasks : gmap string Task.t;
  _executors : gset string;
  state_changes : list state_change
}.

Definition set_tasks (v : gmap string Task.t) (m : t) : t :=
  mk (config m) (_on_state_change m) v (_executors m) (state_changes m).
Definition set_executors (v : gset string) (m : t) : t :=
  mk (config m) (_on_state_change m) (_tasks m) v (state_changes m).
Definition log_state_change (c : state_change) (m : t) : t :=
  mk (config m) (_on_state_change m) (_tasks m) (_executors m)
     (state_changes m ++ [c]).

(** [sum(1 for t in self._tasks.values() if t.is_active)] *)
Definition active_task_count (m : t) : Z :=
  Z.of_nat (length (List.filter Task.is_active (snd <$> map_to_list (_tasks m)))).

(** Runs a method of the task object stored under [tid].  The object is
    updated in place, also when the method raises.  The methods below are
    run for keys of [_tasks] only; for another key the model answers
    [KeyError]. *)
Definition on_task {A} (tid : string) (m : Py Task.t A) : Py t A :=
  λ mgr,
    match _tasks mgr !! tid with
    | Some task =>
        match m task with
        | (r, task') => (r, set_tasks (<[tid := task']> (_tasks mgr)) mgr)
        end
    | None => (Raised (KeyError tid), mgr)
    end.

(** [TaskManager._transition_task] *)
Definition _transition_task (tid : string) (new : TaskState)
    (now_updated now_stamp : datetime) : Py t unit :=
  (task ←ₚ on_task tid py_get;
   let old := Task.state task in
   on_task tid (Task.transition new now_updated now_stamp) ;ₚ
   self ←ₚ py_get;
   if _on_state_change self
   then py_modify (log_state_change (mk_change (Task.id task) old new))
   else py_ret tt)%py.

(** [TaskManager.create_task].  [new_id] is the UUID drawn for the task,
    [now_created] and [now_updated] are the two clock readings of the
    dataclass defaults.  The background coroutine is registered, not run: it
    runs later, as [_execute_task]. *)
Definition create_task (new_id : string) (task_type : pyval)
    (metadata : option pydict) (now_created now_updated : datetime)
    : Py t Task.t :=
  (self ←ₚ py_get;
   if (max_concurrent (config self) <=? active_task_count self)%Z
   then py_raise TooManyTasksError
   else
     let md := match metadata with
               | Some d => if dict_is_empty d then ∅ else d
               | None => ∅
               end in
     let task :=
       Task.mk (VStr new_id) task_type PENDING None VNone None
               now_created now_updated None None md in
     py_modify (λ m, set_tasks (<[new_id := task]> (_tasks m)) m) ;ₚ
     py_modify (λ m, set_executors ({[new_id]} ∪ _executors m) m) ;ₚ
     py_ret task)%py.


(** How [await asyncio.wait_for(executor(task), timeout=timeout)] goes.
    Either the coroutine [executor(task)] comes to its end, by returning or
    by raising, and [wait_for] passes that on: [run] is what the coroutine
    does to the task object and how it ends.  Or the deadline passes while
    the coroutine runs: [wait_for] cancels the coroutine, which has done
    [partial] to the task by the time it is cancelled, and raises
    [asyncio.TimeoutError].  Which of the two happens is decided by the
    clock and the event loop.  A coroutine that outlives its cancellation
    and returns or raises counts as coming to its end. *)
Inductive execution :=
  | Ends (run : Py Task.t pyval)
  | DeadlinePasses (partial : Task.t → Task.t).

Definition wait_for (executor : execution) : Py Task.t pyval :=
  match executor with
  | Ends run => run
  | DeadlinePasses partial =>
      (py_modify partial ;ₚ py_raise AsyncioTimeoutError)%py
  end.

Section Execute.

(** [str(e)] of an exception and the text of a float in an f-string. *)
Variable str_of_exn : exn → string.
Variable float_str : Q → string.

(** The [except] clauses of [_execute_task], in source order. *)
Definition _execute_task_handler (tid : string) (timeout : Q)
    (now_updated now_stamp : datetime) (e : exn) : Py t unit :=
  match e with
  | AsyncioTimeoutError =>
      (on_task tid (py_modify (Task.set_error (Some
         (TaskError.mk (VInt (-32001))
            (VStr ("Task timed out after " +:+ float_str timeout +:+ "s"))
            VNone)))) ;ₚ
       _transition_task tid FAILED now_updated now_stamp)%py
  | AsyncioCancelledError =>
      (py_try (_transition_task tid CANCELLED now_updated now_stamp)
         (λ e', match e' with InvalidTaskTransition _ _ _ => true | _ => false end)
         (λ _, py_ret tt) ;ₚ
       py_raise e)%py
  | _ =>
      (on_task tid (py_modify (Task.set_error (Some
         (TaskError.mk (VInt (-32603)) (VStr (str_of_exn e)) VNone)))) ;ₚ
       _transition_task tid FAILED now_updated now_stamp)%py
  end.


End Execute.


(** [TaskManager.task_count] *)
Definition task_count (m : t) : Z := Z.of_nat (size (_tasks m)).

(** [TaskManager.get_task] *)
Definition get_task (tid : string) (m : t) : option Task.t := _tasks m !! tid.

(** [TaskManager.cancel_task].  [executor_end] is what [await executor]
    does after [executor.cancel()]: the rest of the background coroutine of
    the task, which runs on the manager and ends with an exception or
    without.  It is run only when [_executors] holds a handle for the
    task. *)
Definition cancel_task (tid : string) (reason : option string)
    (executor_end : Py t unit) (now_updated now_stamp : datetime)
    : Py t bool :=
  (self ←ₚ py_get;
   match _tasks self !! tid with
   | None => py_ret false
   | Some task =>
       if Task.is_terminal task then py_ret false
       else
         (if bool_decide (tid ∈ _executors self)
          then py_try executor_end
                 (λ e, match e with AsyncioCancelledError => true | _ => false end)
                 (λ _, py_ret tt)
          else py_ret tt) ;ₚ
         task ←ₚ on_task tid py_get;
         if bool_decide (Task.state task = CANCELLED) then py_ret true
         else
           py_try
             (_transition_task tid CANCELLED now_updated now_stamp ;ₚ
              match reason with
              | Some r =>
                  if String.eqb r "" then py_ret tt
                  else on_task tid (py_modify (λ x,
                         Task.set_metadata
                           (<["cancel_reason" := VStr r]> (Task.metadata x)) x))
              | None => py_ret tt
              end ;ₚ
              py_ret true)
             (λ e, match e with InvalidTaskTransition _ _ _ => true | _ => false end)
             (λ _, py_ret false)
   end)%py.

(** [TaskManager.update_progress] *)
Definition update_progress (tid : string) (current total message : pyval)
    (now : datetime) : Py t bool :=
  (self ←ₚ py_get;
   match _tasks self !! tid with
   | Some task =>
       if bool_decide (Task.state task = RUNNING)
       then on_task tid (Task.update_progress current total message now) ;ₚ
            py_ret true
       else py_ret false
   | None => py_ret false
   end)%py.

Section Cleanup.

(** [timedelta(seconds=...)], in microseconds. *)
Variable timedelta : Q → Z.

(** The test of [_cleanup_completed] on one task:
    [task.is_terminal and task.completed_at] and
    [(now - task.completed_at) > ttl]. *)
Definition expired (now : datetime) (ttl : Z) (task : Task.t) : bool :=
  Task.is_terminal task &&
  match Task.completed_at task with
  | Some c => (ttl <? now - c)%Z
  | None => false
  end.

(** [TaskManager._cleanup_completed]: the keys are collected first and then
    deleted. *)
Definition _cleanup_completed (now : datetime) : Py t unit :=
  py_modify (λ m,
    let ttl := timedelta (completed_ttl (config m)) in
    set_tasks
      (filter (λ kv, expired now ttl kv.2 = false) (_tasks m)) m).

End Cleanup.

Section Calls.

Variable timedelta : Q → Z.
Variable str_of_exn : exn → string.
Variable float_str : Q → string.

(** The background coroutine of a running task as [executor.cancel()] ends
    it: [asyncio.CancelledError] is raised at the [await] of
    [_execute_task], whose handlers and [finally] clause then run. *)
Definition interrupted_executor (tid : string) (timeout : Q)
    (now_updated now_stamp : datetime) : Py t unit :=
  py_finally
    (_execute_task_handler str_of_exn float_str tid timeout
       now_updated now_stamp AsyncioCancelledError)
    (py_modify (λ m, set_executors (_executors m ∖ {[tid]}) m)).

(** The background coroutine of a task when [executor.cancel()] comes
    before its first step: it ends with [asyncio.CancelledError] and none
    of its statements runs. *)
Definition unstarted_executor : Py t unit := py_raise AsyncioCancelledError.

(** The calls that reach a manager; [started] tells whether the
    background coroutine of a cancelled task had begun to run. *)
Inductive op :=
  | op_create_task (new_id : string) (task_type : pyval)
      (metadata : option pydict) (now_created now_updated : datetime)
  | op_transition_task (tid : string) (new : TaskState)
      (now_updated now_stamp : datetime)
  | op_cancel_task (tid : string) (reason : option string) (started : bool)
      (timeout : Q)
      (executor_updated executor_stamp now_updated now_stamp : datetime)
  | op_update_progress (tid : string) (current total message : pyval)
      (now : datetime)
  | op_cleanup_completed (now : datetime).

Definition run_op (o : op) (m : t) : t :=
  match o with
  | op_create_task new_id task_type metadata now_created now_updated =>
      snd (create_task new_id task_type metadata now_created now_updated m)
  | op_transition_task tid new now_updated now_stamp =>
      snd (_transition_task tid new now_updated now_stamp m)
  | op_cancel_task tid reason started timeout eu es now_updated now_stamp =>
      snd (cancel_task tid reason
             (if started then interrupted_executor tid timeout eu es
              else unstarted_executor)
             now_updated now_stamp m)
  | op_update_progress tid current total message now =>
      snd (update_progress tid current total message now m)
  | op_cleanup_completed now =>
      snd (_cleanup_completed timedelta now m)
  end.

Definition run_ops (os : list op) (m : t) : t :=
  fold_left (λ m o, run_op o m) os m.

End Calls.

(** A method that leaves the configuration alone and adds no active task,
    however it ends. *)
Definition adds_no_active_task {A} (p : Py t A) : Prop :=
  ∀ m, config (p m).2 = config m
       ∧ (active_task_count (p m).2 ≤ active_task_count m)%Z.

End TaskManager.

(* ===================================================================== *)
(** ** capabilities/client.py                                             *)
(* ===================================================================== *)

Module ClientCapabilities.

Record RootsCapability := mk_roots { list_changed : bool }.

Record ElicitationCapability := mk_elicitation { form : bool; url : bool }.

Record TasksCapability := mk_tasks {
  list : bool;
  cancel : bool;
  requests : pydict
}.

(** [sampling] is [Some tt] for a [SamplingCapability()], which has no
    fields. *)
Record t := mk {
  sampling : option unit;
  roots : option RootsCapability;
  elicitation : option ElicitationCapability;
  tasks : option TasksCapability;
  experimental : option pydict
}.

(** [ClientCapabilities.to_dict] *)
Definition to_dict (self : t) : pydict :=
  let caps0 : pydict := ∅ in
  let caps1 := dict_set_opt "sampling" ((λ _, VDict ∅) <$> sampling self) caps0 in
  let caps2 :=
    dict_set_opt "roots"
      ((λ r, VDict {[ "listChanged" := VBool (list_changed r) ]}) <$> roots self)
      caps1 in
  let caps3 :=
    dict_set_opt "elicitation"
      ((λ e, VDict (dict_set_if (url e) "url" (VDict ∅)
                      (dict_set_if (form e) "form" (VDict ∅) ∅)))
         <$> elicitation self)
      caps2 in
  let caps4 :=
    dict_set_opt "tasks"
      ((λ k, VDict (dict_set_if (negb (dict_is_empty (requests k))) "requests"
                      (VDict (requests k))
                      (dict_set_if (cancel k) "cancel" (VDict ∅)
                         (dict_set_if (list k) "list" (VDict ∅) ∅))))
         <$> tasks self)
      caps3 in
  dict_set_opt "experimental" (VDict <$> experimental self) caps4.

(** [ClientCapabilities.from_dict].  [.get] on a value that is not a
    dictionary raises [AttributeError]. *)
Definition from_dict (data : pydict) : pyres t :=
  (let sampling := if dict_has data "sampling" then Some tt else None in
   roots ←ᵣ match data !! "roots" with
             | None => Ok None
             | Some (VDict r) =>
                 match r !! "listChanged" with
                 | None => Ok (Some (mk_roots true))
                 | Some (VBool b) => Ok (Some (mk_roots b))
                 | Some _ => Raised (IllTyped "list_changed")
                 end
             | Some _ => Raised AttributeError
             end;
   elicitation ←ᵣ match data !! "elicitation" with
                   | None => Ok None
                   | Some e =>
                       f ←ᵣ py_contains e "form";
                       u ←ᵣ py_contains e "url";
                       Ok (Some (mk_elicitation f u))
                   end;
   tasks ←ᵣ match data !! "tasks" with
             | None => Ok None
             | Some k =>
                 l ←ᵣ py_contains k "list";
                 c ←ᵣ py_contains k "cancel";
                 match k with
                 | VDict kd =>
                     match kd !! "requests" with
                     | None => Ok (Some (mk_tasks l c ∅))
                     | Some (VDict rq) => Ok (Some (mk_tasks l c rq))
                     | Some _ => Raised (IllTyped "requests")
                     end
                 | _ => Raised AttributeError
                 end
             end;
   experimental ←ᵣ match data !! "experimental" with
                    | None | Some VNone => Ok None
                    | Some (VDict x) => Ok (Some x)
                    | Some _ => Raised (IllTyped "experimental")
                    end;
   Ok (mk sampling roots elicitation tasks experimental))%py.

End ClientCapabilities.

(* ===================================================================== *)
(** ** utilities/types.py and utilities/progress.py                       *)
(* ===================================================================== *)

(** A progress token, [str | int]. *)
Inductive token := TokStr (s : string) | TokInt (z : Z).

#[global] Instance token_eq_dec : EqDecision token.
Proof. solve_decision. Defined.

#[global] Instance token_countable : Countable token.
Proof.
  refine (inj_countable'
            (λ t, match t with TokStr s => inl s | TokInt z => inr z end)
            (λ x, match x with inl s => TokStr s | inr z => TokInt z end) _).
  intros []; reflexivity.
Defined.

Module ProgressInfo.

(** The dataclass [ProgressInfo].  The finite floats are the rationals they
    denote. *)
Record t := mk {
  progress_token : token;
  progress : Q;
  total : option Q;
  message : option string
}.

(** [ProgressInfo.is_complete] *)
Definition is_complete (self : t) : bool :=
  match total self with
  | Some tot => Qle_bool tot (progress self)
  | None => false
  end.

End ProgressInfo.

Module ProgressTracker.

Record t := mk {
  _active : gmap token ProgressInfo.t;
  _completed : gset token
}.

(** [ProgressTracker.__init__] *)
Definition init : t := mk ∅ ∅.

(** [ProgressTracker.start_tracking] *)
Definition start_tracking (tok : token) (self : t) : t :=
  mk (<[tok := ProgressInfo.mk tok 0 None None]> (_active self))
     (_completed self ∖ {[tok]}).

(** [ProgressTracker.update] *)
Definition update (info : ProgressInfo.t) (self : t) : t :=
  let active := <[ProgressInfo.progress_token info := info]> (_active self) in
  if ProgressInfo.is_complete info
  then mk active ({[ProgressInfo.progress_token info]} ∪ _completed self)
  else mk active (_completed self).

(** [ProgressTracker.is_complete] *)
Definition is_complete (tok : token) (self : t) : bool :=
  bool_decide (tok ∈ _completed self).

(** [ProgressTracker.get_progress] *)
Definition get_progress (tok : token) (self : t) : option ProgressInfo.t :=
  _active self !! tok.

(** [ProgressTracker.remove] *)
Definition remove (tok : token) (self : t) : t :=
  mk (delete tok (_active self)) (_completed self ∖ {[tok]}).

(** [ProgressTracker.clear] *)
Definition clear (self : t) : t := mk ∅ ∅.

End ProgressTracker.

Module ProgressHandler.

(** Everything that reaches the tracker of a [ProgressHandler]:
    [handle_progress] with the decoded notification ([None] when the
    parameters are missing or [ProgressInfo.from_dict] raises [KeyError] or
    [ValueError]), [on_progress], and the tracker's own methods through the
    [tracker] property. *)
Inductive call :=
  | handle_progress (params : option ProgressInfo.t)
  | on_progress (tok : token)
  | tracker_start_tracking (tok : token)
  | tracker_update (info : ProgressInfo.t)
  | tracker_remove (tok : token)
  | tracker_clear.

Definition step (c : call) (tr : ProgressTracker.t) : ProgressTracker.t :=
  match c with
  | handle_progress None => tr
  | handle_progress (Some info) => ProgressTracker.update info tr
  | on_progress tok => ProgressTracker.start_tracking tok tr
  | tracker_start_tracking tok => ProgressTracker.start_tracking tok tr
  | tracker_update info => ProgressTracker.update info tr
  | tracker_remove tok => ProgressTracker.remove tok tr
  | tracker_clear => ProgressTracker.clear tr
  end.

(** The tracker after a history of calls on a new handler, oldest first. *)
Definition run (history : list call) : ProgressTracker.t :=
  fold_left (λ tr c, step c tr) history ProgressTracker.init.

(** The progress infos a call hands to [ProgressTracker.update]. *)
Definition updates_of (c : call) : list ProgressInfo.t :=
  match c with
  | handle_progress (Some info) | tracker_update info => [info]
  | _ => []
  end.

End ProgressHandler.

(* ===================================================================== *)
(** ** transport/types.py                                                 *)
(* ===================================================================== *)

Module TransportConfig.

Record t := mk {
  url : string;
  timeout : Q;
  connect_timeout : Q;
  headers : gmap string string;
  keep_alive : bool;
  max_concurrent_requests : Z;
  verify_ssl : bool
}.

(** The dataclass defaults. *)
Definition with_url (u : string) : t :=
  mk u 30 10 ∅ true 10 true.

Section Validation.

(** [urlparse(url).hostname] of the Python library: the host in lower case,
    [None] when the URL has none; [urlparse] raises [ValueError] on a
    malformed bracketed host. *)
Variable hostname : string → pyres (option string).

(** [TransportConfig._is_localhost] *)
Definition _is_localhost (self : t) : pyres bool :=
  (parsed ←ᵣ hostname (url self);
   let host := default "" parsed in
   Ok (bool_decide (host ∈ ["localhost"; "127.0.0.1"; "::1"; "[::1]"])))%py.

(** [TransportConfig.__post_init__]: [Ok tt] when the object is
    constructed, the raised exception otherwise. *)
Definition __post_init__ (self : t) : pyres unit :=
  if String.eqb (url self) "" then Raised (ValueError "url is required")
  else
    (remote ←ᵣ (if String.prefix "http://" (url self)
                 then (local ←ᵣ _is_localhost self; Ok (negb local))
                 else Ok false);
     if (remote : bool)
     then Raised (ValueError "Remote connections must use https://")
     else if Qle_bool (timeout self) 0
     then Raised (ValueError "timeout must be positive")
     else if Qle_bool (connect_timeout self) 0
     then Raised (ValueError "connect_timeout must be positive")
     else if (max_concurrent_requests self <? 1)%Z
     then Raised (ValueError "max_concurrent_requests must be at least 1")
     else Ok tt)%py.

End Validation.

(** [str.lower] on the ASCII letters. *)
Definition lower_ascii (c : ascii) : ascii :=
  let n := nat_of_ascii c in
  if ((65 <=? n) && (n <=? 90))%nat then ascii_of_nat (n + 32) else c.

Fixpoint lower (s : string) : string :=
  match s with
  | EmptyString => EmptyString
  | String c s' => String (lower_ascii c) (lower s')
  end.

End TransportConfig.

(* ===================================================================== *)
(** ** transport/http.py                                                  *)
(* ===================================================================== *)

Module StreamableHTTPTransport.

Definition MCP_SESSION_HEADER : string := "Mcp-Session-Id".

(** The [httpx.Response] as [_send_internal] reads it: [session_header] is
    [response.headers["Mcp-Session-Id"]] when the header is present,
    [content_type] is [response.headers.get("Content-Type", "")], [json] is
    what [oj.loads(response.content)] returns or raises. *)
Record response := mk_response {
  status_code : Z;
  session_header : option string;
  content_type : string;
  json : pyres pyval
}.

(** How [self._client.post] ends. *)
Inductive post_outcome :=
  | PostTimeout
  | PostHTTPError
  | PostResponse (r : response).

(** What is seen on the wire: a POST with its request headers and the
    server's answer, or the end of the session at [disconnect]. *)
Inductive wire_event :=
  | Posted (headers : gmap string string) (body : pydict) (server : post_outcome)
  | SessionCleared.

(** [_client], [_sse_task] and [_sse_response] tell whether the object is
    there ([_sse_task]: there and not done).  [wire] records the wire events,
    oldest first.  Transport events go to observers only and are left
    out. *)
Record t := mk {
  _client : bool;
  _session_id : option string;
  _connected : bool;
  _sse_task : bool;
  _sse_response : bool;
  _closing : bool;
  wire : list wire_event
}.

(** [StreamableHTTPTransport.__init__] *)
Definition init : t := mk false None false false false false [].

Definition set_session_id (v : option string) (x : t) : t :=
  mk (_client x) v (_connected x) (_sse_task x) (_sse_response x)
     (_closing x) (wire x).
Definition log_wire (e : wire_event) (x : t) : t :=
  mk (_client x) (_session_id x) (_connected x) (_sse_task x)
     (_sse_response x) (_closing x) (wire x ++ [e]).

(** [StreamableHTTPTransport.connect] *)
Definition connect : Py t unit :=
  (self ←ₚ py_get;
   if _connected self then py_ret tt
   else py_modify (λ x, mk true (_session_id x) true (_sse_task x)
                           (_sse_response x) false (wire x)))%py.

(** [StreamableHTTPTransport.disconnect] *)
Definition disconnect : Py t unit :=
  (self ←ₚ py_get;
   if negb (_connected self) && negb (_client self) then py_ret tt
   else
     py_modify (λ x, mk false None false false false true (wire x)) ;ₚ
     py_modify (log_wire SessionCleared))%py.

(** [StreamableHTTPTransport._start_sse_stream] *)
Definition _start_sse_stream : Py t unit :=
  py_modify (λ x, mk (_client x) (_session_id x) (_connected x) true true
                     (_closing x) (wire x)).

(** [if self._session_id:] is true for a string that is not empty. *)
Definition session_truthy (sid : option string) : bool :=
  match sid with
  | Some s => negb (String.eqb s "")
  | None => false
  end.

(** The request headers built at the start of [_send_internal]. *)
Definition request_headers (self : t) : gmap string string :=
  let headers : gmap string string :=
    <["Accept" := "application/json, text/event-stream"]>
      {[ "Content-Type" := "application/json" ]} in
  match _session_id self with
  | Some s =>
      if session_truthy (Some s) then <[MCP_SESSION_HEADER := s]> headers
      else headers
  | None => headers
  end.

(** [StreamableHTTPTransport._send_internal] *)
Definition _send_internal (message : pydict) (server : post_outcome)
    : Py t (option pyval) :=
  (self ←ₚ py_get;
   py_modify (log_wire (Posted (request_headers self) message server)) ;ₚ
   match server with
   | PostTimeout =>
       py_raise (TransportError TransportTimeoutError "Request timed out")
   | PostHTTPError => py_raise (TransportError TransportErrorBase "HTTP error")
   | PostResponse r =>
       (match session_header r with
        | Some new_session =>
            if bool_decide (_session_id self = Some new_session)
            then py_ret tt
            else py_modify (set_session_id (Some new_session))
        | None => py_ret tt
        end) ;ₚ
       if (status_code r =? 202)%Z then py_ret None
       else if str_contains "text/event-stream" (content_type r)
       then (_start_sse_stream ;ₚ py_ret None)
       else if (400 <=? status_code r)%Z
       then py_raise (TransportError TransportErrorBase "HTTP error status")
       else if str_contains "application/json" (content_type r)
       then match json r with
            | Ok v => py_ret (Some v)
            | Raised _ =>
                py_raise (TransportError TransportErrorBase
                            "Failed to parse response")
            end
       else py_ret None
   end)%py.

(** [StreamableHTTPTransport.send].  The semaphore bounds the number of
    concurrent POSTs and does not change what one POST does. *)
Definition send (message : pydict) (server : post_outcome)
    : Py t (option pyval) :=
  (self ←ₚ py_get;
   if negb (_client self) || negb (_connected self)
   then py_raise (TransportError SessionError "Transport not connected")
   else if _closing self
   then py_raise (TransportError SessionError "Transport is closing")
   else _send_internal message server)%py.

(** A use of the transport, and the transport after a sequence of uses. *)
Inductive op :=
  | op_connect
  | op_disconnect
  | op_send (message : pydict) (server : post_outcome).

Definition step (o : op) (tr : t) : t :=
  match o with
  | op_connect => snd (connect tr)
  | op_disconnect => snd (disconnect tr)
  | op_send message server => snd (send message server tr)
  end.

Definition run (ops : list op) : t :=
  fold_left (λ tr o, step o tr) ops init.

End StreamableHTTPTransport.

(* ===================================================================== *)
(** ** protocol/messages.py                                               *)
(* ===================================================================== *)

Module JSONRPC.

(** [JSONRPCRequest.to_dict] *)
Definition request_to_dict (method : string) (params : option pydict)
    (id : string) : pydict :=
  let msg : pydict :=
    <["id" := VStr id]>
      (<["method" := VStr method]> {[ "jsonrpc" := VStr "2.0" ]}) in
  match params with
  | Some p => <["params" := VDict p]> msg
  | None => msg
  end.

(** [JSONRPCNotification.to_dict] *)
Definition notification_to_dict (method : string) (params : option pydict)
    : pydict :=
  let msg : pydict :=
    <["method" := VStr method]> {[ "jsonrpc" := VStr "2.0" ]} in
  match params with
  | Some p => <["params" := VDict p]> msg
  | None => msg
  end.

(** [JSONRPCError] *)
Record error := mk_error { code : pyval; message : pyval; data : pyval }.

(** [JSONRPCResponse] *)
Record response := mk_response {
  id : pyval;
  result : pyval;
  error_of : option error
}.

(** [JSONRPCError.from_dict]: [.get] needs a dictionary. *)
Definition error_from_dict (v : pyval) : pyres error :=
  match v with
  | VDict d =>
      Ok (mk_error (default (VInt (-32603)) (d !! "code"))
                   (default (VStr "Unknown error") (d !! "message"))
                   (dict_get d "data"))
  | _ => Raised AttributeError
  end.

(** [JSONRPCResponse.from_dict] *)
Definition response_from_dict (v : pyval) : pyres response :=
  (has_error ←ᵣ py_contains v "error";
   err ←ᵣ (if (has_error : bool)
            then match v with
                 | VDict d => e ←ᵣ error_from_dict (dict_get d "error"); Ok (Some e)
                 | _ => Raised TypeError
                 end
            else Ok None);
   match v with
   | VDict d => Ok (mk_response (dict_get d "id") (dict_get d "result") err)
   | _ => Raised AttributeError
   end)%py.

(** [is_response]: has an id and no method. *)
Definition is_response (d : pydict) : bool :=
  dict_has d "id" && negb (dict_has d "method").


(** [JSONRPCRequest]; the projections carry a prefix because [id] names
    the field of a response above. *)
Record request := mk_request {
  request_method : pyval;
  request_params : pyval;
  request_id : pyval
}.

(** [JSONRPCNotification] *)
Record notification := mk_notification {
  notification_method : pyval;
  notification_params : pyval
}.

(** [JSONRPCRequest.from_dict]; [new_id] is the UUID drawn for the default
    of [data.get("id", ...)]. *)
Definition request_from_dict (new_id : string) (data : pydict) : pyres request :=
  (method ←ᵣ dict_item data "method";
   Ok (mk_request method (dict_get data "params")
         (default (VStr new_id) (data !! "id"))))%py.

(** [JSONRPCNotification.from_dict] *)
Definition notification_from_dict (data : pydict) : pyres notification :=
  (method ←ᵣ dict_item data "method";
   Ok (mk_notification method (dict_get data "params")))%py.

(** [JSONRPCError.to_dict] *)
Definition error_to_dict (e : error) : pydict :=
  dict_set_if (negb (is_None (data e))) "data" (data e)
    (<["message" := message e]> {[ "code" := code e ]}).

(** [JSONRPCResponse.to_dict] *)
Definition response_to_dict (r : response) : pydict :=
  let msg : pydict := <["id" := id r]> {[ "jsonrpc" := VStr "2.0" ]} in
  match error_of r with
  | Some e => <["error" := VDict (error_to_dict e)]> msg
  | None => <["result" := result r]> msg
  end.

(** [JSONRPCResponse.success] and [JSONRPCResponse.error_response] *)
Definition success (id result : pyval) : response :=
  mk_response id result None.

Definition error_response (id code message data : pyval) : response :=
  mk_response id VNone (Some (mk_error code message data)).

(** [MCPError.to_dict] and [MCPError.from_dict], on the three fields of the
    exception. *)
Definition MCPError_to_dict (code message data : pyval) : pydict :=
  dict_set_if (negb (is_None data)) "data" data
    (<["message" := message]> {[ "code" := code ]}).

Definition MCPError_from_dict (error : pydict) : exn :=
  MCPError (default (VInt INTERNAL_ERROR) (error !! "code"))
           (default (VStr "Unknown error") (error !! "message"))
           (dict_get error "data").

(** [is_request] and [is_notification] *)
Definition is_request (d : pydict) : bool :=
  dict_has d "id" && dict_has d "method".

Definition is_notification (d : pydict) : bool :=
  dict_has d "method" && negb (dict_has d "id").

(** What [parse_message] returns. *)
Inductive parsed_message :=
  | Request (r : request)
  | Notification (n : notification)
  | Response (r : response).

(** [parse_message] *)
Definition parse_message (new_id : string) (data : pydict) : pyres parsed_message :=
  if negb (match dict_get data "jsonrpc" with
           | VStr v => String.eqb v "2.0"
           | _ => false
           end)
  then Raised (ValueError "Invalid JSON-RPC version")
  else
    let has_id := dict_has data "id" in
    let has_method := dict_has data "method" in
    let has_result := dict_has data "result" in
    let has_error := dict_has data "error" in
    if has_method && has_id
    then (r ←ᵣ request_from_dict new_id data; Ok (Request r))%py
    else if has_method && negb has_id
    then (n ←ᵣ notification_from_dict data; Ok (Notification n))%py
    else if (has_result || has_error) && has_id
    then (r ←ᵣ response_from_dict (VDict data); Ok (Response r))%py
    else Raised (ValueError "Cannot determine message type").

End JSONRPC.

(* ===================================================================== *)
(** ** protocol/client.py                                                 *)
(* ===================================================================== *)

Module MCPClient.

(** An [asyncio.Future]: pending, or done with a result or an exception (a
    cancelled future is done with [CancelledError]). *)
Inductive future := Pending | Done (r : pyres pyval).

(** How one [await self.transport.send(message)] ends: the transport raises,
    or returns the immediate response, or returns [None]. *)
Definition send_outcome := pyres (option pyval).

(** A future is an object shared by the pending table and by the [request]
    call that awaits it: futures live in [futures] under an address, and
    [_pending_requests] maps a request id to the address of its future.
    [sent] records every message handed to [transport.send], oldest first. *)
Record t := mk {
  request_timeout : Q;
  max_pending_requests : Z;
  _state : ProtocolStateMachine.t;
  _pending_requests : gmap string nat;
  futures : gmap nat future;
  _receive_task : bool;
  _closing : bool;
  sent : list pydict
}.

(** [MCPClient.__init__] over a transport that has not been used. *)
Definition init (request_timeout : Q) (max_pending_requests : Z) : t :=
  mk request_timeout max_pending_requests
     (ProtocolStateMachine.init DISCONNECTED) ∅ ∅ false false [].

Definition set_state (v : ProtocolStateMachine.t) (c : t) : t :=
  mk (request_timeout c) (max_pending_requests c) v (_pending_requests c)
     (futures c) (_receive_task c) (_closing c) (sent c).
Definition set_pending (v : gmap string nat) (c : t) : t :=
  mk (request_timeout c) (max_pending_requests c) (_state c) v
     (futures c) (_receive_task c) (_closing c) (sent c).
Definition set_futures (v : gmap nat future) (c : t) : t :=
  mk (request_timeout c) (max_pending_requests c) (_state c)
     (_pending_requests c) v (_receive_task c) (_closing c) (sent c).
Definition set_receive_task (v : bool) (c : t) : t :=
  mk (request_timeout c) (max_pending_requests c) (_state c)
     (_pending_requests c) (futures c) v (_closing c) (sent c).
Definition set_closing (v : bool) (c : t) : t :=
  mk (request_timeout c) (max_pending_requests c) (_state c)
     (_pending_requests c) (futures c) (_receive_task c) v (sent c).
Definition log_sent (m : pydict) (c : t) : t :=
  mk (request_timeout c) (max_pending_requests c) (_state c)
     (_pending_requests c) (futures c) (_receive_task c) (_closing c)
     (sent c ++ [m]).

Definition state (c : t) : ProtocolState := ProtocolStateMachine.state (_state c).
Definition is_connected (c : t) : bool :=
  ProtocolStateMachine.is_connected (_state c).

(** Runs a method of the state machine owned by the client. *)
Definition on_state {A} (m : Py ProtocolStateMachine.t A) : Py t A :=
  λ c, match m (_state c) with (r, s') => (r, set_state s' c) end.

(** [await self.transport.send(message)] *)
Definition transport_send (message : pydict) (outcome : send_outcome)
    : Py t (option pyval) :=
  (py_modify (log_sent message) ;ₚ py_lift outcome)%py.

(** [future.done()] *)
Definition future_done (c : t) (fut : nat) : bool :=
  match futures c !! fut with
  | Some (Done _) => true
  | _ => false
  end.

(** [future.set_result] and [future.set_exception] on a pending future. *)
Definition complete (fut : nat) (r : pyres pyval) : Py t unit :=
  py_modify (λ c, set_futures (<[fut := Done r]> (futures c)) c).

(** [self._pending_requests.pop(request_id, None)] *)
Definition pop_pending (request_id : string) : Py t (option nat) :=
  (self ←ₚ py_get;
   py_modify (λ c, set_pending (delete request_id (_pending_requests c)) c) ;ₚ
   py_ret (_pending_requests self !! request_id))%py.

(** [str(response.id)] for the ids that can name a pending request: a string
    is itself, an integer its decimal text.  The text of any other value is
    [True], [False], a float or a bracketed display, never a UUID: the model
    answers [None] and no pending request is found. *)
Definition id_text (v : pyval) : option string :=
  match v with
  | VStr s => Some s
  | VInt z => Some (pretty z)
  | _ => None
  end.

(** [MCPError.cancelled] *)
Definition MCPError_cancelled (reason : option string) : exn :=
  MCPError (VInt REQUEST_CANCELLED)
    (VStr (match reason with
           | Some r => if String.eqb r "" then "Request cancelled" else r
           | None => "Request cancelled"
           end))
    VNone.

(** [MCPClient._handle_response] *)
Definition _handle_response (message : pyval) : Py t unit :=
  (response ←ₚ py_lift (JSONRPC.response_from_dict message);
   if is_None (JSONRPC.id response) then py_ret tt
   else
     self ←ₚ py_get;
     match id_text (JSONRPC.id response) ≫= (λ rid, _pending_requests self !! rid) with
     | None => py_ret tt
     | Some fut =>
         if future_done self fut then py_ret tt
         else
           match JSONRPC.error_of response with
           | Some e =>
               complete fut (Raised (MCPError (JSONRPC.code e)
                                       (JSONRPC.message e) (JSONRPC.data e)))
           | None => complete fut (Ok (JSONRPC.result response))
           end
     end)%py.

(** [MCPClient._handle_message] for a response.  The [try] of the method
    logs and drops every [Exception].  Requests and notifications go to the
    handlers registered by the host, which are not part of the client and
    are left out. *)
Definition _handle_message (message : pyval) : Py t unit :=
  match message with
  | VDict d =>
      if JSONRPC.is_response d
      then py_try (_handle_response message) is_Exception (λ _, py_ret tt)
      else py_ret tt
  | _ => py_ret tt
  end.

(** [MCPClient.notify] *)
Definition notify (method : string) (params : option pydict)
    (outcome : send_outcome) : Py t unit :=
  (self ←ₚ py_get;
   if negb (is_connected self)
   then py_raise (MCPError (VInt INTERNAL_ERROR) (VStr "Client not connected") VNone)
   else
     transport_send (JSONRPC.notification_to_dict method params) outcome ;ₚ
     py_ret tt)%py.

Definition reason_value (reason : option string) : pyval :=
  match reason with Some r => VStr r | None => VNone end.

(** [MCPClient.cancel_request] *)
Definition cancel_request (request_id : string) (reason : option string)
    (outcome : send_outcome) : Py t unit :=
  (notify "notifications/cancelled"
     (Some (<["reason" := reason_value reason]>
              {[ "requestId" := VStr request_id ]}))
     outcome ;ₚ
   future ←ₚ pop_pending request_id;
   self ←ₚ py_get;
   match future with
   | Some fut =>
       if future_done self fut then py_ret tt
       else complete fut (Raised (MCPError (VInt REQUEST_CANCELLED)
              (VStr (match reason with
                     | Some r => if String.eqb r "" then "Request cancelled" else r
                     | None => "Request cancelled"
                     end))
              VNone))
   | None => py_ret tt
   end)%py.

(** [MCPClient.mark_ready] *)
Definition mark_ready : Py t unit :=
  (self ←ₚ py_get;
   if bool_decide (state self = INITIALIZING)
   then on_state (ProtocolStateMachine.transition READY)
   else py_ret tt)%py.

(** The loop of [close] over the pending futures. *)
Definition fail_pending (e : exn) (c : t) : t :=
  set_futures
    (map_fold (λ _ fut fs,
        match fs !! fut with
        | Some Pending => <[fut := Done (Raised e)]> fs
        | _ => fs
        end)
      (futures c) (_pending_requests c))
    c.

(** [MCPClient.close], over a transport whose [disconnect] returns. *)
Definition close : Py t unit :=
  (self ←ₚ py_get;
   if _closing self then py_ret tt
   else
     py_modify (set_closing true) ;ₚ
     (if bool_decide (state self = READY)
      then on_state (ProtocolStateMachine.transition CLOSING)
      else if bool_decide (state self = CLOSED) || bool_decide (state self = DISCONNECTED)
      then py_ret tt
      else on_state (ProtocolStateMachine.force_state CLOSING)) ;ₚ
     py_modify (set_receive_task false) ;ₚ
     py_modify (fail_pending (MCPError_cancelled (Some "Client closing"))) ;ₚ
     py_modify (set_pending ∅) ;ₚ
     py_try (on_state (ProtocolStateMachine.transition CLOSED)) is_Exception
       (λ _, on_state (ProtocolStateMachine.force_state CLOSED)))%py.

(** What can happen to the client while a [request] call is suspended in
    [asyncio.wait_for]: the receive loop handles a message, some caller
    cancels a request, some caller closes the client. *)
Inductive wait_event :=
  | Incoming (message : pyval)
  | CancelRequest (request_id : string) (reason : option string)
      (outcome : send_outcome)
  | Close.

(** How the wait ends if the future is never completed: the deadline passes,
    or the awaiting caller is cancelled. *)
Inductive wait_end := DeadlinePassed | CallerCancelled.

Definition apply_event (ev : wait_event) (c : t) : t :=
  match ev with
  | Incoming message => snd (_handle_message message c)
  | CancelRequest request_id reason outcome =>
      snd (cancel_request request_id reason outcome c)
  | Close => snd (close c)
  end.

(** [await asyncio.wait_for(future, timeout=effective_timeout)]: the events
    happen in order until the future is done; if it never is, [wait_for]
    cancels it and raises. *)
Fixpoint wait_for (fut : nat) (events : list wait_event) (ending : wait_end)
    (c : t) : pyres pyval * t :=
  match futures c !! fut with
  | Some (Done r) => (r, c)
  | _ =>
      match events with
      | ev :: events' => wait_for fut events' ending (apply_event ev c)
      | [] =>
          let c' := set_futures
                      (<[fut := Done (Raised AsyncioCancelledError)]> (futures c)) c in
          match ending with
          | DeadlinePassed => (Raised AsyncioTimeoutError, c')
          | CallerCancelled => (Raised AsyncioCancelledError, c')
          end
      end
  end.

Section Request.

(** The text of a float in an f-string. *)
Variable float_str : Q → string.

(** [MCPError.timeout] *)
Definition MCPError_timeout (timeout_seconds : Q) : exn :=
  MCPError (VInt REQUEST_TIMEOUT)
    (VStr ("Request timed out after " +:+ float_str timeout_seconds +:+ "s"))
    (VDict {[ "timeout" := VFloat timeout_seconds ]}).

(** [MCPClient.request].  [request_id] is the UUID drawn for the request,
    [fut] the address of the new future, [outcome] how the send ends,
    [events] and [ending] what happens during the wait. *)
Definition request (method : string) (params : option pydict)
    (timeout : option Q) (request_id : string) (fut : nat)
    (outcome : send_outcome) (events : list wait_event) (ending : wait_end)
    : Py t pyval :=
  (self ←ₚ py_get;
   if negb (is_connected self)
   then py_raise (MCPError (VInt INTERNAL_ERROR) (VStr "Client not connected") VNone)
   else if (max_pending_requests self <=? Z.of_nat (size (_pending_requests self)))%Z
   then py_raise (MCPError (VInt INTERNAL_ERROR) (VStr "Too many pending requests") VNone)
   else
     py_modify (λ c, set_futures (<[fut := Pending]> (futures c)) c) ;ₚ
     py_modify (λ c, set_pending (<[request_id := fut]> (_pending_requests c)) c) ;ₚ
     let effective_timeout := default (request_timeout self) timeout in
     py_finally
       (py_try
          (immediate_response ←ₚ
             transport_send (JSONRPC.request_to_dict method params request_id) outcome;
           match immediate_response with
           | Some m => _handle_response m
           | None => py_ret tt
           end ;ₚ
           wait_for fut events ending)
          (λ e, match e with
                | AsyncioTimeoutError | AsyncioCancelledError => true
                | _ => false
                end)
          (λ e, pop_pending request_id ;ₚ
                py_raise (match e with
                          | AsyncioTimeoutError => MCPError_timeout effective_timeout
                          | _ => MCPError_cancelled (Some "Request cancelled")
                          end)))
       (pop_pending request_id ;ₚ py_ret tt))%py.

End Request.


(** [MCPClient.is_ready] *)
Definition is_ready (c : t) : bool := ProtocolStateMachine.is_ready (_state c).

Section Lifecycle.

(** [str(e)] of an exception. *)
Variable str_of_exn : exn → string.

(** [MCPClient.connect].  [transport_connect] is how
    [await self.transport.connect()] ends. *)
Definition connect (transport_connect : pyres unit) : Py t unit :=
  (self ←ₚ py_get;
   if negb (bool_decide (state self = DISCONNECTED))
   then py_raise (MCPError (VInt INTERNAL_ERROR) (VStr "Client already connected") VNone)
   else
     py_modify (set_closing false) ;ₚ
     on_state (ProtocolStateMachine.transition CONNECTING) ;ₚ
     py_try
       (py_lift transport_connect ;ₚ
        py_modify (set_receive_task true) ;ₚ
        on_state (ProtocolStateMachine.transition INITIALIZING))
       is_Exception
       (λ e, on_state (ProtocolStateMachine.transition DISCONNECTED) ;ₚ
             py_raise (MCPError (VInt INTERNAL_ERROR)
                         (VStr ("Connection failed: " +:+ str_of_exn e)) VNone)))%py.

(** [str(v)] of a value, for the f-string of the method name. *)
Variable str_of_value : pyval → string.

(** A handler registered with [on_request]: a coroutine of the host, seen
    through how it ends for given parameters. *)
Definition request_handler := pyval → pyres pyval.

(** [self._request_handlers.get(method)] on the table filled by
    [on_request], whose keys are strings.  A list or a dictionary cannot be
    hashed: the lookup raises [TypeError].  Any other value that is not a
    string is hashed and equals no key. *)
Definition get_request_handler (handlers : gmap string request_handler)
    (method : pyval) : pyres (option request_handler) :=
  match method with
  | VStr s => Ok (handlers !! s)
  | VList _ | VDict _ => Raised TypeError
  | _ => Ok None
  end.

(** [MCPClient._handle_server_request].  [handlers] is
    [self._request_handlers], [new_id] the UUID drawn by
    [JSONRPCRequest.from_dict], [outcome] how the send of the response
    ends. *)
Definition _handle_server_request (handlers : gmap string request_handler)
    (message : pydict) (new_id : string) (outcome : send_outcome)
    : Py t unit :=
  (request ←ₚ py_lift (JSONRPC.request_from_dict new_id message);
   handler ←ₚ py_lift (get_request_handler handlers
                         (JSONRPC.request_method request));
   let rid := JSONRPC.request_id request in
   response ←ₚ
     match handler with
     | None =>
         py_ret (JSONRPC.error_response rid (VInt METHOD_NOT_FOUND)
                   (VStr ("Method not found: "
                          +:+ str_of_value (JSONRPC.request_method request)))
                   VNone)
     | Some h =>
         match h (JSONRPC.request_params request) with
         | Ok result => py_ret (JSONRPC.success rid result)
         | Raised (MCPError code message data) =>
             py_ret (JSONRPC.error_response rid code message data)
         | Raised e =>
             if is_Exception e
             then py_ret (JSONRPC.error_response rid (VInt INTERNAL_ERROR)
                            (VStr (str_of_exn e)) VNone)
             else py_raise e
         end
     end;
   transport_send (JSONRPC.response_to_dict response) outcome ;ₚ
   py_ret tt)%py.

End Lifecycle.

End MCPClient.

(* ===================================================================== *)
(** ** capabilities/server.py                                             *)
(* ===================================================================== *)

Module ServerCapabilities.

(** The flags read with [.get(key, False)] are stored as they come. *)
Record ServerTasksCapability := mk_tasks {
  list : bool;
  cancel : bool;
  requests : pyval
}.

Record t := mk {
  tools : option pyval;
  resources : option (pyval * pyval);
  prompts : option pyval;
  tasks : option ServerTasksCapability;
  logging : bool;
  completions : bool;
  experimental : pyval
}.

(** [data[key].get(flag, False)] *)
Definition flag_of (v : pyval) (flag : string) : pyres pyval :=
  match v with
  | VDict d => Ok (default (VBool false) (d !! flag))
  | _ => Raised AttributeError
  end.

(** [ServerCapabilities.from_dict] *)
Definition from_dict (data : pydict) : pyres t :=
  (tools ←ᵣ match data !! "tools" with
             | Some v => f ←ᵣ flag_of v "listChanged"; Ok (Some f)
             | None => Ok None
             end;
   resources ←ᵣ match data !! "resources" with
                 | Some v =>
                     s ←ᵣ flag_of v "subscribe";
                     l ←ᵣ flag_of v "listChanged";
                     Ok (Some (s, l))
                 | None => Ok None
                 end;
   prompts ←ᵣ match data !! "prompts" with
               | Some v => f ←ᵣ flag_of v "listChanged"; Ok (Some f)
               | None => Ok None
               end;
   tasks ←ᵣ match data !! "tasks" with
             | Some tasks_data =>
                 l ←ᵣ py_contains tasks_data "list";
                 c ←ᵣ py_contains tasks_data "cancel";
                 match tasks_data with
                 | VDict d => Ok (Some (mk_tasks l c (dict_get d "requests")))
                 | _ => Raised AttributeError
                 end
             | None => Ok None
             end;
   Ok (mk tools resources prompts tasks (dict_has data "logging")
         (dict_has data "completions") (dict_get data "experimental")))%py.


(** [ServerCapabilities.to_dict] *)
Definition to_dict (self : t) : pydict :=
  let caps : pydict :=
    dict_set_opt "tools"
      ((λ f, VDict {[ "listChanged" := f ]}) <$> tools self) ∅ in
  let caps :=
    dict_set_opt "resources"
      ((λ r, VDict (<["listChanged" := r.2]> {[ "subscribe" := r.1 ]}))
         <$> resources self) caps in
  let caps :=
    dict_set_opt "prompts"
      ((λ f, VDict {[ "listChanged" := f ]}) <$> prompts self) caps in
  let caps :=
    dict_set_opt "tasks"
      ((λ k, VDict
          (dict_set_if (py_truthy (requests k)) "requests" (requests k)
             (dict_set_if (cancel k) "cancel" (VDict ∅)
                (dict_set_if (list k) "list" (VDict ∅) ∅))))
         <$> tasks self) caps in
  let caps := dict_set_if (logging self) "logging" (VDict ∅) caps in
  let caps := dict_set_if (completions self) "completions" (VDict ∅) caps in
  dict_set_if (negb (is_None (experimental self))) "experimental"
    (experimental self) caps.

(** What [to_dict] keeps of a tasks capability: a [requests] value that is
    falsy is not written. *)
Definition written_tasks (k : ServerTasksCapability) : ServerTasksCapability :=
  mk_tasks (list k) (cancel k)
    (if py_truthy (requests k) then requests k else VNone).

End ServerCapabilities.

(* ===================================================================== *)
(** ** capabilities/negotiation.py                                        *)
(* ===================================================================== *)

Module ClientInfo.

Record t := mk { name : string; version : string }.

(** The dataclass defaults. *)
Definition init : t := mk "wingman" "0.5.0".

(** [ClientInfo.to_dict] *)
Definition to_dict (self : t) : pydict :=
  <["version" := VStr (version self)]> {[ "name" := VStr (name self) ]}.

End ClientInfo.

Module ServerInfo.

(** The two fields hold what the server sent. *)
Record t := mk { name : pyval; version : pyval }.

(** [ServerInfo.from_dict]: [.get] needs a dictionary. *)
Definition from_dict (data : pyval) : pyres t :=
  match data with
  | VDict d =>
      Ok (mk (default (VStr "unknown") (d !! "name"))
             (default (VStr "unknown") (d !! "version")))
  | _ => Raised AttributeError
  end.

End ServerInfo.

Module NegotiationResult.

Record t := mk {
  protocol_version : pyval;
  server_info : ServerInfo.t;
  server_capabilities : ServerCapabilities.t;
  client_capabilities : ClientCapabilities.t
}.

End NegotiationResult.

Module CapabilityNegotiator.

Definition PROTOCOL_VERSION : string := "2025-11-25".
Definition SUPPORTED_VERSIONS : list string := ["2025-11-25"; "2024-11-05"].

Record t := mk {
  client : MCPClient.t;
  client_capabilities : ClientCapabilities.t;
  client_info : ClientInfo.t;
  _result : option NegotiationResult.t
}.

(** [DEFAULT_CLIENT_CAPABILITIES] of capabilities/client.py *)
Definition DEFAULT_CLIENT_CAPABILITIES : ClientCapabilities.t :=
  ClientCapabilities.mk (Some tt)
    (Some (ClientCapabilities.mk_roots true))
    (Some (ClientCapabilities.mk_elicitation true true))
    (Some (ClientCapabilities.mk_tasks true true ∅))
    None.

(** [CapabilityNegotiator.__init__] with the default arguments. *)
Definition init (c : MCPClient.t) : t :=
  mk c DEFAULT_CLIENT_CAPABILITIES ClientInfo.init None.

(** Runs a method of the client the negotiator holds. *)
Definition on_client {A} (m : Py MCPClient.t A) : Py t A :=
  λ n, match m (client n) with
       | (r, c') => (r, mk c' (client_capabilities n) (client_info n) (_result n))
       end.

(** [server_version not in SUPPORTED_VERSIONS] *)
Definition version_supported (v : pyval) : bool :=
  match v with
  | VStr s => bool_decide (s ∈ SUPPORTED_VERSIONS)
  | _ => false
  end.

Section Negotiate.

Variable float_str : Q → string.

(** [CapabilityNegotiator.negotiate].  The arguments after [timeout] are
    those of the [request] call and the outcome of the send made by
    [notify].  A [capabilities] value that is not a dictionary makes
    [ServerCapabilities.from_dict] raise [TypeError] or [AttributeError];
    the model answers [TypeError]. *)
Definition negotiate (timeout : Q) (request_id : string) (fut : nat)
    (outcome : MCPClient.send_outcome) (events : list MCPClient.wait_event)
    (ending : MCPClient.wait_end) (notify_outcome : MCPClient.send_outcome)
    : Py t NegotiationResult.t :=
  (self ←ₚ py_get;
   let init_params : pydict :=
     <["clientInfo" := VDict (ClientInfo.to_dict (client_info self))]>
     (<["capabilities" := VDict (ClientCapabilities.to_dict (client_capabilities self))]>
     {[ "protocolVersion" := VStr PROTOCOL_VERSION ]}) in
   response ←ₚ on_client
     (MCPClient.request float_str "initialize" (Some init_params) (Some timeout)
        request_id fut outcome events ending);
   response ←ₚ py_lift (match response with
                         | VDict d => Ok d
                         | _ => Raised AttributeError
                         end);
   let server_version := default (VStr "") (response !! "protocolVersion") in
   if negb (version_supported server_version)
   then py_raise (IncompatibleProtocolError server_version)
   else
     server_info ←ₚ py_lift (ServerInfo.from_dict
                               (default (VDict ∅) (response !! "serverInfo")));
     server_capabilities ←ₚ py_lift
       (match default (VDict ∅) (response !! "capabilities") with
        | VDict d => ServerCapabilities.from_dict d
        | _ => Raised TypeError
        end);
     on_client (MCPClient.notify "initialized" None notify_outcome) ;ₚ
     on_client MCPClient.mark_ready ;ₚ
     let res := NegotiationResult.mk server_version server_info
                  server_capabilities (client_capabilities self) in
     py_modify (λ n, mk (client n) (client_capabilities n) (client_info n)
                        (Some res)) ;ₚ
     py_ret res)%py.

End Negotiate.

End CapabilityNegotiator.

(* ===================================================================== *)
(** ** utilities/cancellation.py                                          *)
(* ===================================================================== *)

Module Cancellation.

(** [cancel_server_request] *)
Definition cancel_server_request (request_id : string)
    (reason : option string) (outcome : MCPClient.send_outcome)
    : Py MCPClient.t unit :=
  if String.eqb request_id "initialize"
  then py_raise (CancellationError "Cannot cancel initialize request")
  else
    let params : pydict := {[ "requestId" := VStr request_id ]} in
    let params :=
      match reason with
      | Some r => <["reason" := VStr r]> params
      | None => params
      end in
    MCPClient.notify "notifications/cancelled" (Some params) outcome.

End Cancellation.

(* ===================================================================== *)
(** ** The specification's tables                                         *)
(* ===================================================================== *)

(** The task state machine as the specification draws it:
    PENDING to RUNNING or CANCELLED; RUNNING to COMPLETED, FAILED or
    CANCELLED; COMPLETED, FAILED and CANCELLED terminal. *)
Inductive permitted_task_edge : TaskState → TaskState → Prop :=
  | pending_to_running : permitted_task_edge PENDING RUNNING
  | pending_to_cancelled : permitted_task_edge PENDING CANCELLED
  | running_to_completed : permitted_task_edge RUNNING COMPLETED
  | running_to_failed : permitted_task_edge RUNNING FAILED
  | running_to_cancelled : permitted_task_edge RUNNING CANCELLED.

(** The protocol state machine as the specification draws it. *)
Inductive permitted_protocol_edge : ProtocolState → ProtocolState → Prop :=
  | disconnected_to_connecting : permitted_protocol_edge DISCONNECTED CONNECTING
  | connecting_to_initializing : permitted_protocol_edge CONNECTING INITIALIZING
  | connecting_to_disconnected : permitted_protocol_edge CONNECTING DISCONNECTED
  | initializing_to_ready : permitted_protocol_edge INITIALIZING READY
  | initializing_to_disconnected : permitted_protocol_edge INITIALIZING DISCONNECTED
  | ready_to_closing : permitted_protocol_edge READY CLOSING
  | ready_to_disconnected : permitted_protocol_edge READY DISCONNECTED
  | closing_to_closed : permitted_protocol_edge CLOSING CLOSED
  | closing_to_disconnected : permitted_protocol_edge CLOSING DISCONNECTED.

(** The terminal task states of the specification. *)
Definition terminal (s : TaskState) : Prop :=
  s = COMPLETED ∨ s = FAILED ∨ s = CANCELLED.

(** A task as the dataclass defaults build it, used in the examples. *)
Definition example_task : Task.t :=
  Task.mk (VStr "7c9e6679") (VStr "tools/call") PENDING None VNone None
          1000 1000 None None ∅.

(* ===================================================================== *)
(** ** Examples                                                           *)
(* ===================================================================== *)

(** A state machine in its terminal state with one listener, and a
    completed task held by a manager that has a callback. *)
Definition example_closed_machine : ProtocolStateMachine.t :=
  ProtocolStateMachine.mk CLOSED [0%nat] [].

Definition example_completed_task : Task.t :=
  Task.mk (VStr "7c9e6679") (VStr "tools/call") COMPLETED None (VInt 1) None
          1000 3000 (Some 2000) (Some 3000) ∅.

Definition example_manager : TaskManager.t :=
  TaskManager.mk (TaskManager.mk_config 300 3600 100 60 false) true
    {[ "7c9e6679" := example_completed_task ]} ∅ [].



(** A streamed call that reports half of the work without a total and then
    all of it with a total. *)
Definition example_progress_history : list ProgressHandler.call :=
  [ ProgressHandler.on_progress (TokStr "t1");
    ProgressHandler.handle_progress
      (Some (ProgressInfo.mk (TokStr "t1") (1 # 2) None None));
    ProgressHandler.handle_progress
      (Some (ProgressInfo.mk (TokStr "t1") 1 (Some 1%Q) None)) ].

(** The URL policy as the specification words it: the scheme is https, or
    it is http and the host is a loopback host. *)
Definition spec_url_allowed (hostname : string → pyres (option string))
    (u : string) : Prop :=
  String.prefix "https://" u = true
  ∨ (String.prefix "http://" u = true
     ∧ ∃ h, hostname u = Ok (Some h) ∧ h ∈ ["localhost"; "127.0.0.1"; "::1"]).

(* ===================================================================== *)
(** ** The session identifier as seen on the wire                         *)
(* ===================================================================== *)

Module SessionWire.
Import StreamableHTTPTransport.

(** The session identifier a reader of the wire knows after an event: the
    value of the latest [Mcp-Session-Id] response header, forgotten at
    [disconnect]. *)
Definition observe (cur : option string) (e : wire_event) : option string :=
  match e with
  | SessionCleared => None
  | Posted _ _ (PostResponse r) =>
      match session_header r with
      | Some v => Some v
      | None => cur
      end
  | Posted _ _ _ => cur
  end.

Definition last_observed (log : list wire_event) : option string :=
  fold_left observe log None.

(** The header the transport sends for an observed value: the value itself,
    unless it is the empty string. *)
Definition echoed (observed : option string) : option string :=
  match observed with
  | Some v => if String.eqb v "" then None else Some v
  | None => None
  end.

(** Every POST of the log carries the header [echoed] prescribes for what
    was observed before it, starting from [cur]. *)
Fixpoint echo_ok (cur : option string) (log : list wire_event) : Prop :=
  match log with
  | [] => True
  | e :: rest =>
      match e with
      | Posted h _ _ => h !! MCP_SESSION_HEADER = echoed cur
      | SessionCleared => True
      end
      ∧ echo_ok (observe cur e) rest
  end.

(** The echo property as the specification words it: once a value has
    been observed, every later POST carries the header with the value
    observed last. *)
Definition spec_echo (log : list wire_event) : Prop :=
  ∀ pre post headers body server v,
    log = pre ++ Posted headers body server :: post →
    last_observed pre = Some v →
    headers !! MCP_SESSION_HEADER = Some v.

(** A server reply that carries a session header. *)
Definition reply_with_session (v : string) : post_outcome :=
  PostResponse (mk_response 200 (Some v) "application/json" (Ok (VDict ∅))).

Definition example_message (method : string) : pydict :=
  <["id" := VStr "1"]> (<["method" := VStr method]> {[ "jsonrpc" := VStr "2.0" ]}).

(** Two requests over a connected transport; the first reply sets the
    session to [v]. *)
Definition example_session (v : string) : list op :=
  [ op_connect;
    op_send (example_message "initialize") (reply_with_session v);
    op_send (example_message "tools/list") (reply_with_session v) ].

End SessionWire.







Definition example_str_of_exn (e : exn) : string := "error".

Definition example_float_str (q : Q) : string := "300.0".

(** A client that has connected and one that has finished the handshake,
    both over a transport that has carried nothing yet. *)
Definition example_initializing_client : MCPClient.t :=
  MCPClient.set_state (ProtocolStateMachine.mk INITIALIZING [] [])
    (MCPClient.init 60 100).

Definition example_ready_client : MCPClient.t :=
  MCPClient.set_state (ProtocolStateMachine.mk READY [] [])
    (MCPClient.init 60 100).

(** An initialize response with a supported protocol version, as the
    server sends it in answer to the request [request_id]. *)
Definition example_initialize_result : pydict :=
  <["capabilities" := VDict {[ "tools" := VDict ∅ ]}]>
  (<["serverInfo" := VDict (<["version" := VStr "1.0"]> {[ "name" := VStr "thoughtbox" ]})]>
  {[ "protocolVersion" := VStr "2025-11-25" ]}).

Definition example_initialize_response (request_id : string) : pyval :=
  VDict (<["result" := VDict example_initialize_result]>
        (<["id" := VStr request_id]> {[ "jsonrpc" := VStr "2.0" ]})).

(** [notification["method"]] of a message handed to the transport. *)
Definition method_of (message : pydict) : pyval := dict_get message "method".

(** The messages of [sent] that are notifications: those without an id. *)
Definition notifications_of (sent : list pydict) : list pydict :=
  List.filter (λ m, negb (dict_has m "id")) sent.


(** A request is accepted when it passes the two gates of [request]. *)
Definition accepted (c : MCPClient.t) : Prop :=
  MCPClient.is_connected c = true
  ∧ Z.of_nat (size (MCPClient._pending_requests c)) < MCPClient.max_pending_requests c.
















(* ===================================================================== *)
(** ** Further examples                                                   *)
(* ===================================================================== *)

(** [timedelta(seconds=q)] in whole microseconds. *)
Definition example_timedelta (q : Q) : Z :=
  (Qnum q * 1000000) / Z.pos (Qden q).

(** A manager that holds one PENDING task without a background handle, as
    after a restore, and one that holds a RUNNING task with its handle. *)
Definition example_restored_manager : TaskManager.t :=
  TaskManager.mk (TaskManager.mk_config 300 3600 100 60 false) false
    {[ "7c9e6679" := example_task ]} ∅ [].

Definition example_running_task : Task.t :=
  Task.mk (VStr "7c9e6679") (VStr "tools/call") RUNNING None VNone None
          1000 2000 (Some 2000) None ∅.

Definition example_busy_manager : TaskManager.t :=
  TaskManager.mk (TaskManager.mk_config 300 3600 100 60 false) false
    {[ "7c9e6679" := example_running_task ]} {[ "7c9e6679" ]} [].

(** A ready client with one request in flight under the id [r1], whose
    future lives at address 0, and the same client after the response has
    arrived. *)
Definition example_waiting_client : MCPClient.t :=
  MCPClient.set_futures {[ 0%nat := MCPClient.Pending ]}
    (MCPClient.set_pending {[ "r1" := 0%nat ]} example_ready_client).

Definition example_answered_client : MCPClient.t :=
  MCPClient.set_futures {[ 0%nat := MCPClient.Done (Ok (VInt 7)) ]}
    (MCPClient.set_pending {[ "r1" := 0%nat ]} example_ready_client).

(** A success response to the request [request_id]. *)
Definition example_response (request_id : string) (result : pyval) : pydict :=
  <["result" := result]>
    (<["id" := VStr request_id]> {[ "jsonrpc" := VStr "2.0" ]}).



(** A stand-in for [str(v)]: the text of a string is the string. *)
Definition example_str_of_value (v : pyval) : string :=
  match v with VStr s => s | _ => "?" end.

(** The handlers of a host that answers [ping] with an empty result. *)
Definition example_request_handlers : gmap string MCPClient.request_handler :=
  {[ "ping" := λ _ : pyval, Ok (VDict ∅) ]}.

(* ===================================================================== *)
(** ** tasks/handlers.py                                                  *)
(* ===================================================================== *)

Module TasksHandler.

(** What a handler raises: its own two exception classes, [ValueError],
    or whatever [cancel_task] lets through. *)
Inductive error :=
  | TaskNotFoundError (task_id : pyval)
  | TaskNotCancellableError (task_id : pyval) (state : TaskState)
  | ValueError (msg : string)
  | Propagated (e : exn).

Inductive outcome (A : Type) :=
  | Returned (a : A)
  | Failed (e : error).
Arguments Returned {A} a.
Arguments Failed {A} e.

(** [self.manager._tasks.get(task_id)] for a key that is any hashable
    value: the keys of [_tasks] are strings, so only a string finds
    something.  A list or a dictionary is not hashable. *)
Definition find_task (task_id : pyval) (m : TaskManager.t)
    : pyres (option (string * Task.t)) :=
  match task_id with
  | VStr s => Ok ((λ task, (s, task)) <$> TaskManager._tasks m !! s)
  | VList _ | VDict _ => Raised TypeError
  | _ => Ok None
  end.

(** [TasksHandler.handle_cancel].  [executor_end], [now_updated] and
    [now_stamp] are those of [cancel_task].  The [reason] of the request is
    a string or is absent; for another value the model answers
    [IllTyped]. *)
Definition handle_cancel (params : pydict) (executor_end : Py TaskManager.t unit)
    (now_updated now_stamp : datetime)
    (m : TaskManager.t) : outcome pydict * TaskManager.t :=
  let task_id := dict_get params "taskId" in
  if negb (py_truthy task_id) then (Failed (ValueError "taskId is required"), m)
  else
    match dict_get params "reason" with
    | VNone | VStr _ =>
        let reason := match dict_get params "reason" with
                      | VStr r => Some r
                      | _ => None
                      end in
        match task_id with
        | VStr tid =>
            match TaskManager.cancel_task tid reason executor_end
                    now_updated now_stamp m with
            | (Ok true, m') => (Returned {[ "cancelled" := VBool true ]}, m')
            | (Ok false, m') =>
                match TaskManager.get_task tid m' with
                | Some task =>
                    (Failed (TaskNotCancellableError task_id (Task.state task)), m')
                | None => (Failed (TaskNotFoundError task_id), m')
                end
            | (Raised e, m') => (Failed (Propagated e), m')
            end
        | VList _ | VDict _ => (Failed (Propagated TypeError), m)
        | _ => (Failed (TaskNotFoundError task_id), m)
        end
    | _ => (Failed (Propagated (IllTyped "reason")), m)
    end.

Section Wire.

Variable isoformat : datetime → string.

(** [TasksHandler.handle_get] *)
Definition handle_get (params : pydict) (m : TaskManager.t) : outcome pydict :=
  let task_id := dict_get params "taskId" in
  if negb (py_truthy task_id) then Failed (ValueError "taskId is required")
  else
    match find_task task_id m with
    | Ok (Some (_, task)) =>
        Returned {[ "task" := VDict (Task.to_dict isoformat task) ]}
    | Ok None => Failed (TaskNotFoundError task_id)
    | Raised e => Failed (Propagated e)
    end.

End Wire.

End TasksHandler.

(** An initialize response whose protocol version the client does not
    support. *)
Definition example_old_initialize_result : pydict :=
  {[ "protocolVersion" := VStr "2023-01-01" ]}.

Definition example_old_initialize_response (request_id : string) : pyval :=
  VDict (<["result" := VDict example_old_initialize_result]>
        (<["id" := VStr request_id]> {[ "jsonrpc" := VStr "2.0" ]})).

(* ===================================================================== *)
(** ** utilities/types.py, utilities/server_logging.py                    *)
(* ===================================================================== *)

Module LogLevel.

(** [class LogLevel(Enum)] *)
Inductive t :=
  DEBUG | INFO | NOTICE | WARNING | ERROR | CRITICAL | ALERT | EMERGENCY.

#[global] Instance eq_dec : EqDecision t.
Proof. solve_decision. Defined.

#[global] Instance countable : Countable t.
Proof.
  refine (inj_countable'
            (λ l, match l with
                  | DEBUG => 0 | INFO => 1 | NOTICE => 2 | WARNING => 3
                  | ERROR => 4 | CRITICAL => 5 | ALERT => 6 | EMERGENCY => 7
                  end%nat)
            (λ n, match n with
                  | 0 => DEBUG | 1 => INFO | 2 => NOTICE | 3 => WARNING
                  | 4 => ERROR | 5 => CRITICAL | 6 => ALERT | _ => EMERGENCY
                  end%nat) _).
  intros []; reflexivity.
Defined.

(** [list(LogLevel)]: the members in the order of their definition. *)
Definition members : list t :=
  [DEBUG; INFO; NOTICE; WARNING; ERROR; CRITICAL; ALERT; EMERGENCY].

Definition value (l : t) : string :=
  match l with
  | DEBUG => "debug"
  | INFO => "info"
  | NOTICE => "notice"
  | WARNING => "warning"
  | ERROR => "error"
  | CRITICAL => "critical"
  | ALERT => "alert"
  | EMERGENCY => "emergency"
  end.

(** The lookup [LogLevel(value)]; [None] where Python raises
    [ValueError]. *)
Definition of_value (s : string) : option t :=
  List.find (λ l, String.eqb (value l) s) members.

(** [LogLevel.from_string].  [value.lower()] needs a string; the level
    names are ASCII, and no other character becomes an ASCII letter when
    lowered to one of them. *)
Definition from_string (v : pyval) : pyres t :=
  match v with
  | VStr s =>
      match of_value (TransportConfig.lower s) with
      | Some l => Ok l
      | None => Raised (ValueError ("Invalid log level: " +:+ s))
      end
  | _ => Raised AttributeError
  end.

(** [order.index(x)]: the position of the first element equal to [x]. *)
Fixpoint index (x : t) (order : list t) : option nat :=
  match order with
  | [] => None
  | y :: rest => if decide (y = x) then Some 0%nat else S <$> index x rest
  end.

(** [LogLevel.__lt__] and [LogLevel.__le__] *)
Definition lt (self other : t) : bool :=
  match index self members, index other members with
  | Some i, Some j => (i <? j)%nat
  | _, _ => false
  end.

Definition le (self other : t) : bool :=
  bool_decide (self = other) || lt self other.

(** The levels of the Python [logging] module and [MCP_TO_PYTHON_LEVEL]. *)
Definition python_DEBUG : Z := 10.
Definition python_INFO : Z := 20.
Definition python_WARNING : Z := 30.
Definition python_ERROR : Z := 40.
Definition python_CRITICAL : Z := 50.

Definition MCP_TO_PYTHON_LEVEL (l : t) : Z :=
  match l with
  | DEBUG => python_DEBUG
  | INFO => python_INFO
  | NOTICE => python_INFO
  | WARNING => python_WARNING
  | ERROR => python_ERROR
  | CRITICAL => python_CRITICAL
  | ALERT => python_CRITICAL
  | EMERGENCY => python_CRITICAL
  end.

End LogLevel.

(* ===================================================================== *)
(** ** utilities/pagination.py                                            *)
(* ===================================================================== *)

Module PaginatedListHelper.

(** What [list_page] raises: its own two exception classes, or what
    passes through it. *)
Inductive error :=
  | PaginationError (msg : string)
  | InvalidCursorError (msg : string)
  | Propagated (e : exn).




Section Pages.

Variable str_of_exn : exn → string.
Variable str_of_value : pyval → string.

(** How [await self.client.request(method, params)] ends for the
    parameters of a page request. *)
Variable request : option pydict → pyres pyval.





End Pages.




End PaginatedListHelper.

(* ===================================================================== *)
(** * Verified properties                                                 *)
(* ===================================================================== *)

(** ** Task and protocol state machines *)

Lemma task_table_is_spec_table (s new : TaskState) :
  new ∈ Task.VALID_TRANSITIONS s ↔ permitted_task_edge s new.
Proof.
  split.
  - destruct s; simpl; rewrite ?elem_of_cons, ?elem_of_nil;
      intros H; repeat destruct H as [H|H]; subst; try constructor; done.
  - destruct 1; simpl; set_solver.
Qed.

Lemma protocol_table_is_spec_table (s new : ProtocolState) :
  new ∈ ProtocolStateMachine.VALID_TRANSITIONS s ↔ permitted_protocol_edge s new.
Proof.
  split.
  - destruct s; simpl; rewrite ?elem_of_cons, ?elem_of_nil;
      intros H; repeat destruct H as [H|H]; subst; try constructor; done.
  - destruct 1; simpl; set_solver.
Qed.

Lemma terminal_state_spec (s : TaskState) :
  Task.terminal_state s = true ↔ terminal s.
Proof.
  unfold terminal. destruct s; simpl; split; intros H; auto;
    try discriminate H; destruct H as [H|[H|H]]; discriminate H.
Qed.

(** [Task.transition], one equation per branch. *)
Lemma task_transition_rejected (t : Task.t) new now_updated now_stamp :
  ¬ permitted_task_edge (Task.state t) new →
  Task.transition new now_updated now_stamp t
  = (Raised (InvalidTaskTransition (Task.id t) (Task.state t) new), t).
Proof.
  intros Hno. unfold Task.transition, py_bind, py_get, py_raise.
  rewrite bool_decide_eq_false_2; [reflexivity|].
  by rewrite task_table_is_spec_table.
Qed.

Lemma task_transition_accepted (t : Task.t) new now_updated now_stamp :
  permitted_task_edge (Task.state t) new →
  Task.transition new now_updated now_stamp t
  = (Ok tt,
     let t1 := Task.set_updated_at now_updated (Task.set_state new t) in
     if bool_decide (new = RUNNING)
     then Task.set_started_at (Some now_stamp) t1
     else if Task.terminal_state new
     then Task.set_completed_at (Some now_stamp) t1
     else t1).
Proof.
  intros Hyes. unfold Task.transition, py_bind, py_get, py_raise, py_modify, py_ret.
  rewrite bool_decide_eq_true_2 by (by rewrite task_table_is_spec_table).
  simpl. destruct (bool_decide (new = RUNNING)); [reflexivity|].
  destruct (Task.terminal_state new); reflexivity.
Qed.

Lemma permitted_task_edge_dec (s new : TaskState) :
  {permitted_task_edge s new} + {¬ permitted_task_edge s new}.
Proof.
  destruct (decide (new ∈ Task.VALID_TRANSITIONS s)) as [H|H];
    [left|right]; by rewrite <- task_table_is_spec_table.
Defined.

(** C1.  A call [task.transition(new_state)] returns exactly when the edge
    from the current state to [new_state] is one of the permitted edges, and
    raises [InvalidTaskTransition] on the unchanged task otherwise.  When it
    returns, the state is [new_state]; [updated_at] holds the clock reading
    of the call, whatever the previous stamp was, so that it has increased
    strictly exactly when that reading is later than the previous stamp;
    [started_at] is stamped on entry to RUNNING; [completed_at] is stamped
    when the new state is terminal and left alone otherwise, so that on a
    task that was not completed before it is set if and only if the new
    state is terminal. *)
Theorem task_transition_edges_and_stamps
    (t : Task.t) (new_state : TaskState) (now_updated now_stamp : datetime) :
  ((∃ t', Task.transition new_state now_updated now_stamp t = (Ok tt, t'))
     ↔ permitted_task_edge (Task.state t) new_state)
  ∧ (¬ permitted_task_edge (Task.state t) new_state →
       Task.transition new_state now_updated now_stamp t
       = (Raised (InvalidTaskTransition (Task.id t) (Task.state t) new_state),
          t))
  ∧ ∀ r t', Task.transition new_state now_updated now_stamp t = (r, t') →
      r = Ok tt →
      permitted_task_edge (Task.state t) new_state
      ∧ Task.state t' = new_state
      ∧ Task.updated_at t' = now_updated
      ∧ (Task.updated_at t < Task.updated_at t'
           ↔ Task.updated_at t < now_updated)
      ∧ (new_state = RUNNING → Task.started_at t' = Some now_stamp)
      ∧ (new_state ≠ RUNNING → Task.started_at t' = Task.started_at t)
      ∧ (terminal new_state → Task.completed_at t' = Some now_stamp)
      ∧ (¬ terminal new_state → Task.completed_at t' = Task.completed_at t)
      ∧ (Task.completed_at t = None →
           (is_Some (Task.completed_at t') ↔ terminal new_state)).
Proof.
  destruct (permitted_task_edge_dec (Task.state t) new_state) as [Hyes|Hno].
  - rewrite (task_transition_accepted _ _ _ _ Hyes). split; [|split].
    + split; [done | eauto].
    + done.
    + intros r t' [= <- <-] _.
      split; [done|].
      destruct Hyes; simpl; unfold terminal, is_Some;
        repeat split; intros; try done; eauto;
        repeat match goal with
               | H : _ ∨ _ |- _ => destruct H
               | H : ∃ _, _ |- _ => destruct H
               | H : ¬ _ |- _ => exfalso; apply H; eauto
               end; try discriminate; congruence.
  - rewrite (task_transition_rejected _ _ _ _ Hno). split; [|split].
    + split; [intros [t' [=]] | done].
    + done.
    + intros r t' [= <- <-] [=].
Qed.

(** C1, the claim as it was stated: the clock can give the reading it gave
    before.  A task created at clock reading 1000 that starts to run while
    the clock still reads 1000 makes the transition, and its [updated_at] is
    what it was, not later. *)
Lemma task_updated_at_counterexample :
  ∃ t', Task.transition RUNNING 1000 1000 example_task = (Ok tt, t')
        ∧ Task.state t' = RUNNING
        ∧ ¬ (Task.updated_at example_task < Task.updated_at t').
Proof.
  eexists. split; [reflexivity|]. split; [reflexivity|].
  cbn. lia.
Qed.

Lemma protocol_transition_rejected (m : ProtocolStateMachine.t) new :
  ¬ permitted_protocol_edge (ProtocolStateMachine.state m) new →
  ProtocolStateMachine.transition new m
  = (Raised (InvalidStateTransition (ProtocolStateMachine.state m) new), m).
Proof.
  intros Hno.
  unfold ProtocolStateMachine.transition, ProtocolStateMachine.can_transition_to,
    py_bind, py_get, py_raise.
  rewrite bool_decide_eq_false_2; [reflexivity|].
  by rewrite protocol_table_is_spec_table.
Qed.

Lemma protocol_transition_accepted (m : ProtocolStateMachine.t) new :
  permitted_protocol_edge (ProtocolStateMachine.state m) new →
  ProtocolStateMachine.transition new m
  = (Ok tt,
     ProtocolStateMachine.mk new (ProtocolStateMachine._listeners m)
       (ProtocolStateMachine.calls m
        ++ map (λ l, ProtocolStateMachine.mk_call l (ProtocolStateMachine.state m) new)
               (ProtocolStateMachine._listeners m))).
Proof.
  intros Hyes.
  unfold ProtocolStateMachine.transition, ProtocolStateMachine.can_transition_to,
    py_bind, py_get, py_raise.
  rewrite bool_decide_eq_true_2 by (by rewrite protocol_table_is_spec_table).
  reflexivity.
Qed.

(** Storing a task object back under its own key changes nothing. *)
Lemma manager_store_same (mgr : TaskManager.t) tid task :
  TaskManager._tasks mgr !! tid = Some task →
  TaskManager.set_tasks (<[tid := task]> (TaskManager._tasks mgr)) mgr = mgr.
Proof.
  intros Hin. rewrite insert_id by done. by destruct mgr.
Qed.

Lemma manager_transition_rejected (mgr : TaskManager.t) tid task new
    now_updated now_stamp :
  TaskManager._tasks mgr !! tid = Some task →
  ¬ permitted_task_edge (Task.state task) new →
  TaskManager._transition_task tid new now_updated now_stamp mgr
  = (Raised (InvalidTaskTransition (Task.id task) (Task.state task) new), mgr).
Proof.
  intros Hin Hno.
  unfold TaskManager._transition_task, py_bind, TaskManager.on_task, py_get.
  rewrite Hin, (manager_store_same _ _ _ Hin), Hin.
  rewrite (task_transition_rejected _ _ _ _ Hno).
  by rewrite (manager_store_same _ _ _ Hin).
Qed.

(** C9.  When the target state is not permitted from the current state,
    [ProtocolStateMachine.transition] raises [InvalidStateTransition] and
    [Task.transition] raises [InvalidTaskTransition].  The object that the
    call leaves behind is the object it found: the state is unchanged, the
    stamps of the task are unchanged, and the record of listener calls is
    unchanged, so no listener was called.  The same holds one level up, in
    [TaskManager._transition_task], which would call the manager's
    state-change callback: the manager, with its record of callback calls,
    is left as it was. *)
Theorem invalid_transition_raises_and_changes_nothing
    (m : ProtocolStateMachine.t) (new_protocol : ProtocolState)
    (t : Task.t) (new_state : TaskState) (now_updated now_stamp : datetime)
    (mgr : TaskManager.t) (tid : string) :
  (¬ permitted_protocol_edge (ProtocolStateMachine.state m) new_protocol →
     ∃ m', ProtocolStateMachine.transition new_protocol m
           = (Raised (InvalidStateTransition (ProtocolStateMachine.state m)
                        new_protocol), m')
           ∧ m' = m
           ∧ ProtocolStateMachine.state m' = ProtocolStateMachine.state m
           ∧ ProtocolStateMachine.calls m' = ProtocolStateMachine.calls m)
  ∧ (¬ permitted_task_edge (Task.state t) new_state →
     (∃ t', Task.transition new_state now_updated now_stamp t
            = (Raised (InvalidTaskTransition (Task.id t) (Task.state t) new_state), t')
            ∧ t' = t
            ∧ Task.state t' = Task.state t
            ∧ Task.updated_at t' = Task.updated_at t
            ∧ Task.started_at t' = Task.started_at t
            ∧ Task.completed_at t' = Task.completed_at t)
     ∧ (TaskManager._tasks mgr !! tid = Some t →
        ∃ mgr', TaskManager._transition_task tid new_state now_updated now_stamp mgr
                = (Raised (InvalidTaskTransition (Task.id t) (Task.state t) new_state),
                   mgr')
                ∧ mgr' = mgr
                ∧ TaskManager.state_changes mgr' = TaskManager.state_changes mgr)).
Proof.
  split.
  - intros Hno. exists m. by rewrite (protocol_transition_rejected _ _ Hno).
  - intros Hno. split.
    + exists t. by rewrite (task_transition_rejected _ _ _ _ Hno).
    + intros Hin. exists mgr.
      by rewrite (manager_transition_rejected _ _ _ _ _ _ Hin Hno).
Qed.

(** C9, on a closed machine asked to become READY and on a completed task
    asked to run again. *)
Lemma invalid_transition_raises_and_changes_nothing_witness :
  ProtocolStateMachine.transition READY example_closed_machine
  = (Raised (InvalidStateTransition CLOSED READY), example_closed_machine)
  ∧ Task.transition RUNNING 4000 4001 example_completed_task
    = (Raised (InvalidTaskTransition (VStr "7c9e6679") COMPLETED RUNNING),
       example_completed_task)
  ∧ TaskManager._transition_task "7c9e6679" RUNNING 4000 4001 example_manager
    = (Raised (InvalidTaskTransition (VStr "7c9e6679") COMPLETED RUNNING),
       example_manager).
Proof.
  assert (Hp : ¬ permitted_protocol_edge
                 (ProtocolStateMachine.state example_closed_machine) READY)
    by (intros H; inversion H).
  assert (Ht : ¬ permitted_task_edge (Task.state example_completed_task) RUNNING)
    by (intros H; inversion H).
  destruct (invalid_transition_raises_and_changes_nothing
              example_closed_machine READY example_completed_task RUNNING
              4000 4001 example_manager "7c9e6679") as [Hprot Htask].
  destruct (Hprot Hp) as (m' & Hm & -> & _).
  destruct (Htask Ht) as [(t' & Htr & -> & _) Hmgr].
  destruct (Hmgr eq_refl) as (mgr' & Hmg & -> & _).
  split; [exact Hm|]. split; [exact Htr | exact Hmg].
Defined.

(** ** Wire formats *)



Lemma lookup_dict_set_if_ne c k v (d : pydict) k' :
  k ≠ k' → dict_set_if c k v d !! k' = d !! k'.
Proof.
  intros. unfold dict_set_if. destruct c; [by rewrite lookup_insert_ne|done].
Qed.

Lemma lookup_dict_set_if_eq c k v (d : pydict) :
  dict_set_if c k v d !! k = if c then Some v else d !! k.
Proof.
  unfold dict_set_if. destruct c; [by rewrite lookup_insert_eq|done].
Qed.

Lemma lookup_dict_set_opt_ne k o (d : pydict) k' :
  k ≠ k' → dict_set_opt k o d !! k' = d !! k'.
Proof.
  intros. unfold dict_set_opt. destruct o; [by rewrite lookup_insert_ne|done].
Qed.

Lemma lookup_dict_set_opt_eq k o (d : pydict) :
  dict_set_opt k o d !! k = match o with Some v => Some v | None => d !! k end.
Proof.
  unfold dict_set_opt. destruct o; [by rewrite lookup_insert_eq|done].
Qed.

(** Resolves the lookup of a literal key in a dictionary built by literal
    assignments. *)
Ltac lookup_literal :=
  repeat first
    [ rewrite lookup_insert_eq
    | rewrite lookup_insert_ne by discriminate
    | rewrite lookup_singleton_eq
    | rewrite lookup_singleton_ne by discriminate
    | rewrite lookup_dict_set_if_eq
    | rewrite lookup_dict_set_if_ne by discriminate
    | rewrite lookup_dict_set_opt_eq
    | rewrite lookup_dict_set_opt_ne by discriminate
    | rewrite lookup_empty ].




Section TaskWire.

Variable isoformat : datetime → string.
Variable fromisoformat : string → option datetime.
Hypothesis fromisoformat_isoformat : ∀ d, fromisoformat (isoformat d) = Some d.


End TaskWire.





(** ** Progress tracking *)

Lemma progress_update_completed (info : ProgressInfo.t) (tr : ProgressTracker.t)
    (tok : token) :
  tok ∈ ProgressTracker._completed (ProgressTracker.update info tr) →
  tok ∈ ProgressTracker._completed tr
  ∨ (ProgressInfo.progress_token info = tok
     ∧ ProgressInfo.is_complete info = true).
Proof.
  unfold ProgressTracker.update.
  destruct (ProgressInfo.is_complete info) eqn:E; simpl; [|by left].
  rewrite elem_of_union, elem_of_singleton. intros [->|H]; auto.
Qed.

Lemma progress_step_completed (c : ProgressHandler.call)
    (tr : ProgressTracker.t) (tok : token) :
  tok ∈ ProgressTracker._completed (ProgressHandler.step c tr) →
  tok ∈ ProgressTracker._completed tr
  ∨ ∃ info, info ∈ ProgressHandler.updates_of c
            ∧ ProgressInfo.progress_token info = tok
            ∧ ProgressInfo.is_complete info = true.
Proof.
  destruct c as [[info|]|tok'|tok'|info|tok'|]; simpl.
  - intros H. apply progress_update_completed in H as [H|[H1 H2]]; [by left|].
    right. exists info. by rewrite list_elem_of_singleton.
  - by left.
  - rewrite elem_of_difference. intros [H _]. by left.
  - rewrite elem_of_difference. intros [H _]. by left.
  - intros H. apply progress_update_completed in H as [H|[H1 H2]]; [by left|].
    right. exists info. by rewrite list_elem_of_singleton.
  - rewrite elem_of_difference. intros [H _]. by left.
  - intros H. by apply not_elem_of_empty in H.
Qed.

Lemma progress_run_snoc (history : list ProgressHandler.call) c :
  ProgressHandler.run (history ++ [c])
  = ProgressHandler.step c (ProgressHandler.run history).
Proof. unfold ProgressHandler.run. by rewrite fold_left_app. Qed.

Lemma progress_run_completed (history : list ProgressHandler.call) (tok : token) :
  tok ∈ ProgressTracker._completed (ProgressHandler.run history) →
  ∃ c info, c ∈ history
            ∧ info ∈ ProgressHandler.updates_of c
            ∧ ProgressInfo.progress_token info = tok
            ∧ ProgressInfo.is_complete info = true.
Proof.
  induction history as [|c history IH] using rev_ind.
  - intros H. by apply not_elem_of_empty in H.
  - rewrite progress_run_snoc. intros H.
    apply progress_step_completed in H as [H|(info & Hin & Htok & Hc)].
    + destruct (IH H) as (c' & info & Hc' & Hrest).
      exists c', info. split; [|done]. rewrite elem_of_app. by left.
    + exists c, info. split; [|done].
      rewrite elem_of_app, list_elem_of_singleton. by right.
Qed.

(** C10.  [ProgressInfo.is_complete] is false when [total] is [None].
    After any history of calls on a progress handler and its tracker,
    [tracker.is_complete(token)] is true only if the history holds a
    progress info for that token, handed to the tracker by
    [handle_progress] or by [update], that carried a total and a progress
    not below it.  A progress info without a total leaves the completed set
    as it was, whatever its progress value, so it marks no token
    complete. *)
Theorem progress_complete_needs_total
    (history : list ProgressHandler.call) (tok : token)
    (info : ProgressInfo.t) (tr : ProgressTracker.t) :
  (ProgressInfo.total info = None → ProgressInfo.is_complete info = false)
  ∧ (ProgressTracker.is_complete tok (ProgressHandler.run history) = true →
     ∃ c i tot, c ∈ history
                ∧ i ∈ ProgressHandler.updates_of c
                ∧ ProgressInfo.progress_token i = tok
                ∧ ProgressInfo.total i = Some tot
                ∧ (tot <= ProgressInfo.progress i)%Q)
  ∧ (ProgressInfo.total info = None →
     ProgressTracker._completed (ProgressTracker.update info tr)
     = ProgressTracker._completed tr
     ∧ ProgressTracker._completed
         (ProgressHandler.step (ProgressHandler.handle_progress (Some info)) tr)
       = ProgressTracker._completed tr
     ∧ ProgressTracker.is_complete tok (ProgressTracker.update info tr)
       = ProgressTracker.is_complete tok tr).
Proof.
  split; [|split].
  - unfold ProgressInfo.is_complete. by intros ->.
  - unfold ProgressTracker.is_complete. intros H.
    apply bool_decide_eq_true in H.
    destruct (progress_run_completed _ _ H) as (c & i & Hc & Hi & Htok & Hdone).
    unfold ProgressInfo.is_complete in Hdone.
    destruct (ProgressInfo.total i) as [tot|] eqn:Etot; [|discriminate].
    exists c, i, tot. repeat split; try done. by apply Qle_bool_iff.
  - intros Hnone.
    assert (Hupd : ProgressTracker._completed (ProgressTracker.update info tr)
                   = ProgressTracker._completed tr).
    { unfold ProgressTracker.update, ProgressInfo.is_complete.
      by rewrite Hnone. }
    split; [exact Hupd|]. split; [exact Hupd|].
    unfold ProgressTracker.is_complete. by rewrite Hupd.
Qed.

(** C10, on the streamed call: the token is complete, by the notification
    that carried a total; after the first notification alone it is not. *)
Lemma progress_complete_needs_total_witness :
  ProgressTracker.is_complete (TokStr "t1")
    (ProgressHandler.run example_progress_history) = true
  ∧ ProgressTracker.is_complete (TokStr "t1")
      (ProgressHandler.run (take 2 example_progress_history)) = false
  ∧ ∃ c i tot, c ∈ example_progress_history
               ∧ i ∈ ProgressHandler.updates_of c
               ∧ ProgressInfo.progress_token i = TokStr "t1"
               ∧ ProgressInfo.total i = Some tot
               ∧ (tot <= ProgressInfo.progress i)%Q.
Proof.
  assert (Hdone : ProgressTracker.is_complete (TokStr "t1")
                    (ProgressHandler.run example_progress_history) = true)
    by (vm_compute; reflexivity).
  split; [exact Hdone|]. split; [vm_compute; reflexivity|].
  destruct (progress_complete_needs_total example_progress_history (TokStr "t1")
              (ProgressInfo.mk (TokStr "t1") (1 # 2) None None)
              ProgressTracker.init) as (_ & Hneeds & _).
  exact (Hneeds Hdone).
Defined.

(** ** URL policy of the transport configuration *)

Lemma prefix_cons_inv (a b : ascii) (s1 s2 : string) :
  String.prefix (String a s1) (String b s2) = true →
  a = b ∧ String.prefix s1 s2 = true.
Proof.
  change (String.prefix (String a s1) (String b s2))
    with (if ascii_dec a b then String.prefix s1 s2 else false).
  destruct (ascii_dec a b); [auto | discriminate].
Qed.

Lemma https_is_not_http (u : string) :
  String.prefix "https://" u = true → String.prefix "http://" u = false.
Proof.
  intros H.
  do 5 (destruct u as [|? u]; [discriminate H|];
        apply prefix_cons_inv in H as [<- H]).
  reflexivity.
Qed.

Lemma https_is_not_empty (u : string) :
  String.prefix "https://" u = true → String.eqb u "" = false.
Proof. by destruct u. Qed.

Lemma http_is_not_empty (u : string) :
  String.prefix "http://" u = true → String.eqb u "" = false.
Proof. by destruct u. Qed.

(** C6.  What [__post_init__] checks of the url, for every reading
    [hostname] of [urlparse(url).hostname].  The empty url is refused.  A
    url that starts with [http://] is refused when its host is none of
    [localhost], [127.0.0.1], [::1] and [[::1]], is accepted (the numeric
    fields being valid) when its host is one of them, and makes the
    construction raise what [urlparse] raises.  A url that starts with
    [https://] is accepted.  And the check looks for the prefix [http://]
    in lower case only: every other non-empty url is accepted as well.  So
    the plain-http url [HTTP://example.com/mcp] of a remote host and the
    url [ftp://example.com/mcp] are accepted, although the policy of the
    specification allows neither. *)
Theorem url_check_misses_other_prefixes
    (hostname : string → pyres (option string)) :
  let valid_numbers c :=
    (0 < TransportConfig.timeout c)%Q
    ∧ (0 < TransportConfig.connect_timeout c)%Q
    ∧ 1 ≤ TransportConfig.max_concurrent_requests c in
  let loopback := ["localhost"; "127.0.0.1"; "::1"; "[::1]"] in
  (∀ c, TransportConfig.url c = "" →
     TransportConfig.__post_init__ hostname c
     = Raised (ValueError "url is required"))
  ∧ (∀ c host,
       String.prefix "http://" (TransportConfig.url c) = true →
       hostname (TransportConfig.url c) = Ok host →
       default "" host ∉ loopback →
       TransportConfig.__post_init__ hostname c
       = Raised (ValueError "Remote connections must use https://"))
  ∧ (∀ c host,
       String.prefix "http://" (TransportConfig.url c) = true →
       hostname (TransportConfig.url c) = Ok host →
       default "" host ∈ loopback →
       valid_numbers c →
       TransportConfig.__post_init__ hostname c = Ok tt)
  ∧ (∀ c e,
       String.prefix "http://" (TransportConfig.url c) = true →
       hostname (TransportConfig.url c) = Raised e →
       TransportConfig.__post_init__ hostname c = Raised e)
  ∧ (∀ c, String.prefix "https://" (TransportConfig.url c) = true →
       valid_numbers c →
       TransportConfig.__post_init__ hostname c = Ok tt)
  ∧ (∀ c, TransportConfig.url c ≠ "" →
       String.prefix "http://" (TransportConfig.url c) = false →
       valid_numbers c →
       TransportConfig.__post_init__ hostname c = Ok tt)
  ∧ TransportConfig.__post_init__ hostname
      (TransportConfig.with_url "HTTP://example.com/mcp") = Ok tt
  ∧ ¬ spec_url_allowed hostname "HTTP://example.com/mcp"
  ∧ TransportConfig.__post_init__ hostname
      (TransportConfig.with_url "ftp://example.com/mcp") = Ok tt
  ∧ ¬ spec_url_allowed hostname "ftp://example.com/mcp".
Proof.
  intros valid_numbers loopback.
  assert (Hnum : ∀ c, valid_numbers c →
            Qle_bool (TransportConfig.timeout c) 0 = false
            ∧ Qle_bool (TransportConfig.connect_timeout c) 0 = false
            ∧ (TransportConfig.max_concurrent_requests c <? 1) = false).
  { intros c (Ht & Hc & Hm). split; [|split].
    - apply not_true_iff_false. rewrite Qle_bool_iff. by apply Qlt_not_le.
    - apply not_true_iff_false. rewrite Qle_bool_iff. by apply Qlt_not_le.
    - apply Z.ltb_ge. lia. }
  assert (Hother : ∀ c, TransportConfig.url c ≠ "" →
            String.prefix "http://" (TransportConfig.url c) = false →
            valid_numbers c →
            TransportConfig.__post_init__ hostname c = Ok tt).
  { intros c Hne Hh Hv. destruct (Hnum c Hv) as (Et & Ec & Em).
    unfold TransportConfig.__post_init__, res_bind.
    apply String.eqb_neq in Hne. rewrite Hne, Hh. by rewrite Et, Ec, Em. }
  unfold TransportConfig.__post_init__, TransportConfig._is_localhost, res_bind.
  repeat split.
  - by intros c ->.
  - intros c host Hhttp Hhost Hno.
    rewrite (http_is_not_empty _ Hhttp), Hhttp, Hhost.
    by rewrite bool_decide_eq_false_2.
  - intros c host Hhttp Hhost Hyes Hv. destruct (Hnum c Hv) as (Et & Ec & Em).
    rewrite (http_is_not_empty _ Hhttp), Hhttp, Hhost.
    rewrite bool_decide_eq_true_2 by done. cbn [negb]. by rewrite Et, Ec, Em.
  - intros c e Hhttp Hhost.
    by rewrite (http_is_not_empty _ Hhttp), Hhttp, Hhost.
  - intros c Hs Hv. apply Hother; [|by apply https_is_not_http|done].
    intros E. rewrite E in Hs. discriminate Hs.
  - exact Hother.
  - intros [H|[H _]]; discriminate H.
  - intros [H|[H _]]; discriminate H.
Qed.

(** ** Session identifier of the HTTP transport *)

Section SessionEcho.

Import StreamableHTTPTransport SessionWire.

Lemma echo_ok_snoc (cur : option string) (log : list wire_event) e :
  echo_ok cur (log ++ [e])
  ↔ echo_ok cur log
    ∧ match e with
      | Posted h _ _ => h !! MCP_SESSION_HEADER = echoed (fold_left observe log cur)
      | SessionCleared => True
      end.
Proof.
  revert cur. induction log as [|e' log IH]; intros cur; simpl.
  - tauto.
  - rewrite IH. tauto.
Qed.

Lemma echo_ok_split (cur : option string) (pre post : list wire_event) h b srv :
  echo_ok cur (pre ++ Posted h b srv :: post) →
  h !! MCP_SESSION_HEADER = echoed (fold_left observe pre cur).
Proof.
  revert cur. induction pre as [|e pre IH]; intros cur; simpl.
  - by intros [H _].
  - intros [_ H]. by apply IH.
Qed.

Lemma request_headers_session (tr : t) :
  request_headers tr !! MCP_SESSION_HEADER = echoed (_session_id tr).
Proof.
  unfold request_headers, session_truthy, echoed, MCP_SESSION_HEADER.
  destruct (_session_id tr) as [s|].
  - destruct (String.eqb s ""); simpl.
    + by rewrite lookup_insert_ne, lookup_singleton_ne.
    + by rewrite lookup_insert_eq.
  - by rewrite lookup_insert_ne, lookup_singleton_ne.
Qed.

(** What one use of the transport does to the session identifier and to
    the wire. *)
Lemma step_effect (o : op) (tr : t) :
  (wire (step o tr) = wire tr ∧ _session_id (step o tr) = _session_id tr)
  ∨ (∃ e, wire (step o tr) = wire tr ++ [e]
          ∧ _session_id (step o tr) = observe (_session_id tr) e
          ∧ match e with
            | Posted h _ _ => h = request_headers tr
            | SessionCleared => True
            end).
Proof.
  destruct o as [| |message server]; simpl.
  - left. unfold connect, py_bind, py_get, py_ret, py_modify.
    by destruct (_connected tr).
  - unfold disconnect, py_bind, py_get, py_ret, py_modify, log_wire.
    destruct (negb (_connected tr) && negb (_client tr)); simpl; [by left|].
    right. by exists SessionCleared.
  - unfold send, py_bind, py_get, py_raise.
    destruct (negb (_client tr) || negb (_connected tr)); simpl; [by left|].
    destruct (_closing tr); simpl; [by left|].
    right. exists (Posted (request_headers tr) message server).
    unfold _send_internal, _start_sse_stream, py_bind, py_get, py_raise,
      py_modify, py_ret, log_wire, set_session_id; simpl.
    destruct server as [| |r]; simpl; [done|done|].
    destruct (session_header r) as [new|]; simpl;
      [destruct (bool_decide (_session_id tr = Some new)) eqn:E; simpl;
       [apply bool_decide_eq_true in E|]|];
      destruct (status_code r =? 202); simpl; try done;
      destruct (str_contains "text/event-stream" (content_type r)); simpl;
        try done;
      destruct (400 <=? status_code r); simpl; try done;
      destruct (str_contains "application/json" (content_type r)); simpl;
        try done;
      destruct (json r); simpl; done.
Qed.

Lemma run_snoc (ops : list op) (o : op) :
  run (ops ++ [o]) = step o (run ops).
Proof. unfold run. by rewrite fold_left_app. Qed.

Lemma run_invariant (ops : list op) :
  _session_id (run ops) = last_observed (wire (run ops))
  ∧ echo_ok None (wire (run ops)).
Proof.
  induction ops as [|o ops [IHs IHe]] using rev_ind; [done|].
  rewrite run_snoc.
  destruct (step_effect o (run ops)) as [[-> ->]|(e & -> & -> & He)]; [done|].
  split.
  - unfold last_observed. rewrite fold_left_app. simpl.
    by rewrite IHs.
  - rewrite echo_ok_snoc. split; [done|].
    destruct e as [h b srv|]; [|done]. subst h.
    rewrite request_headers_session. by rewrite IHs.
Qed.

(** C5, as amended.  After any sequence of uses of a new transport, every
    POST on the wire carries [Mcp-Session-Id] with the most recently
    observed value of that response header, counted since the last
    [disconnect], whenever that value is not the empty string; it carries no
    such header when no value was observed since then or when the value
    observed last is the empty string. *)
Theorem session_id_echoed (ops : list op)
    (pre post : list wire_event) (headers : gmap string string)
    (body : pydict) (server : post_outcome) :
  wire (run ops) = pre ++ Posted headers body server :: post →
  headers !! MCP_SESSION_HEADER = echoed (last_observed pre)
  ∧ (∀ v, last_observed pre = Some v → v ≠ "" →
          headers !! MCP_SESSION_HEADER = Some v)
  ∧ (last_observed pre = None → headers !! MCP_SESSION_HEADER = None).
Proof.
  intros Hlog.
  assert (H : headers !! MCP_SESSION_HEADER = echoed (last_observed pre)).
  { destruct (run_invariant ops) as [_ He]. rewrite Hlog in He.
    by apply echo_ok_split in He. }
  split; [exact H|]. split.
  - intros v Hv Hne. rewrite H, Hv. simpl.
    apply String.eqb_neq in Hne. by rewrite Hne.
  - intros Hv. by rewrite H, Hv.
Qed.

(** C5, on a session named [abc]: the second POST carries the header. *)
Lemma session_id_echoed_witness :
  ∃ first headers body server,
    wire (run (example_session "abc")) = [first; Posted headers body server]
    ∧ last_observed [first] = Some "abc"
    ∧ headers !! MCP_SESSION_HEADER = Some "abc".
Proof.
  eexists _, _, _, _. split; [reflexivity|]. split; [reflexivity|].
  refine (proj1 (proj2 (session_id_echoed (example_session "abc") [_] [] _ _ _ _))
            "abc" _ _).
  - reflexivity.
  - reflexivity.
  - discriminate.
Defined.

(** C5 as stated fails: a server that answers with an empty
    [Mcp-Session-Id] header has its value adopted as the session
    identifier, and the next POST carries no such header. *)
Lemma session_id_echo_counterexample :
  ¬ spec_echo (wire (run (example_session ""))).
Proof.
  intros H.
  specialize (H [Posted (request_headers (snd (connect init)))
                   (example_message "initialize") (reply_with_session "")]
                [] _ _ _ "" eq_refl eq_refl).
  vm_compute in H. discriminate H.
Qed.

End SessionEcho.

(** ** Task execution *)

Section TaskExecution.

Import TaskManager.

Variable str_of_exn : exn → string.
Variable float_str : Q → string.

Lemma on_task_eq {A} (mgr : t) (tid : string) (task : Task.t) (m : Py Task.t A) :
  _tasks mgr !! tid = Some task →
  on_task tid m mgr
  = ((m task).1, set_tasks (<[tid := (m task).2]> (_tasks mgr)) mgr).
Proof. intros H. unfold on_task. rewrite H. by destruct (m task). Qed.

Lemma manager_transition_accepted (mgr : t) tid task new now_updated now_stamp :
  _tasks mgr !! tid = Some task →
  permitted_task_edge (Task.state task) new →
  ∃ task' mgr',
    _transition_task tid new now_updated now_stamp mgr = (Ok tt, mgr')
    ∧ Task.transition new now_updated now_stamp task = (Ok tt, task')
    ∧ _tasks mgr' = <[tid := task']> (_tasks mgr)
    ∧ _executors mgr' = _executors mgr
    ∧ config mgr' = config mgr.
Proof.
  intros Hin Hyes.
  pose proof (task_transition_accepted task new now_updated now_stamp Hyes) as Htr.
  set (task' := (Task.transition new now_updated now_stamp task).2).
  set (stored := set_tasks (<[tid := task']> (_tasks mgr)) mgr).
  exists task',
    (if _on_state_change mgr
     then log_state_change (mk_change (Task.id task) (Task.state task) new) stored
     else stored).
  split; [|split].
  - unfold _transition_task, py_bind.
    rewrite (on_task_eq _ _ _ _ Hin). simpl.
    rewrite (manager_store_same _ _ _ Hin).
    rewrite (on_task_eq _ _ _ _ Hin). fold task' stored.
    rewrite Htr. simpl.
    unfold py_get, py_modify, py_ret. simpl.
    destruct (_on_state_change mgr); reflexivity.
  - subst task'. by rewrite Htr.
  - destruct (_on_state_change mgr); simpl; done.
Qed.



End TaskExecution.



(** ** Request and response correlation *)


(** ** Handshake and cancellation *)

(** [cancel_server_request] refuses the id [initialize] for every client:
    it raises [CancellationError] and hands nothing to the transport. *)
Lemma cancel_server_request_refuses_initialize
    (c : MCPClient.t) (reason : option string)
    (outcome : MCPClient.send_outcome) :
  Cancellation.cancel_server_request "initialize" reason outcome c
  = (Raised (CancellationError "Cannot cancel initialize request"), c).
Proof. reflexivity. Qed.

(** C4.  Of the two ways to cancel the id [initialize], only
    [cancel_server_request] refuses: it raises [CancellationError] and
    sends nothing.  [MCPClient.cancel_request] has no such guard: on a ready
    client it returns, and the transport has been handed a
    [notifications/cancelled] notification that names [initialize]. *)
Theorem cancel_request_initialize_is_sent :
  (∀ c reason outcome,
     Cancellation.cancel_server_request "initialize" reason outcome c
     = (Raised (CancellationError "Cannot cancel initialize request"), c))
  ∧ ∃ c', MCPClient.cancel_request "initialize" (Some "user") (Ok None)
            example_ready_client = (Ok tt, c')
          ∧ MCPClient.sent c'
            = [ JSONRPC.notification_to_dict "notifications/cancelled"
                  (Some (<["reason" := VStr "user"]>
                           {[ "requestId" := VStr "initialize" ]})) ].
Proof.
  split.
  - intros. apply cancel_server_request_refuses_initialize.
  - eexists. split; reflexivity.
Qed.

(** C3.  For the initialize response of the example, whose protocol
    version is supported, [negotiate] returns and leaves the client READY,
    having been INITIALIZING; the one notification it hands to the transport
    has the method [initialized], which is not [notifications/initialized]. *)
Theorem negotiate_sends_initialized :
  ∃ res n',
    CapabilityNegotiator.negotiate example_float_str 10 "req-1" 0%nat
      (Ok (Some (example_initialize_response "req-1"))) []
      MCPClient.DeadlinePassed (Ok None)
      (CapabilityNegotiator.init example_initializing_client)
    = (Ok res, n')
    ∧ NegotiationResult.protocol_version res = VStr "2025-11-25"
    ∧ MCPClient.state example_initializing_client = INITIALIZING
    ∧ MCPClient.state (CapabilityNegotiator.client n') = READY
    ∧ method_of <$> notifications_of (MCPClient.sent (CapabilityNegotiator.client n'))
      = [VStr "initialized"]
    ∧ VStr "initialized" ≠ VStr "notifications/initialized".
Proof.
  eexists _, _. split; [vm_compute; reflexivity|].
  split; [reflexivity|]. split; [reflexivity|]. split; [reflexivity|].
  split; [vm_compute; reflexivity | discriminate].
Qed.

(** [MCPClient.cancel_request] guards no request id: on a connected client
    it hands the cancellation notification to the transport whatever the id
    is, [initialize] included. *)
Lemma cancel_request_has_no_guard
    (c : MCPClient.t) (request_id : string) (reason : option string)
    (outcome : MCPClient.send_outcome) :
  MCPClient.is_connected c = true →
  MCPClient.sent (MCPClient.cancel_request request_id reason outcome c).2
  = MCPClient.sent c
    ++ [ JSONRPC.notification_to_dict "notifications/cancelled"
           (Some (<["reason" := MCPClient.reason_value reason]>
                    {[ "requestId" := VStr request_id ]})) ].
Proof.
  intros Hconn.
  unfold MCPClient.cancel_request, MCPClient.notify, MCPClient.transport_send,
    MCPClient.pop_pending, MCPClient.complete,
    py_bind, py_get, py_raise, py_modify, py_lift, py_ret.
  rewrite Hconn. cbn [negb]. cbv beta.
  destruct outcome as [x|e]; cbn [fst snd]; [|reflexivity].
  destruct (MCPClient._pending_requests _ !! request_id) as [fut|];
    [|reflexivity].
  destruct (MCPClient.future_done _ fut); reflexivity.
Qed.

(** The handshake after the initialize response: for every response
    dictionary with a supported protocol version whose [serverInfo] and
    [capabilities] decode, received by a client that is INITIALIZING,
    [negotiate] hands one more message to the transport, the notification
    with method [initialized], and leaves the client READY. *)
Lemma negotiate_handshake
    (float_str : Q → string) (n : CapabilityNegotiator.t) (timeout : Q)
    (request_id : string) (fut : nat)
    (outcome : MCPClient.send_outcome) (events : list MCPClient.wait_event)
    (ending : MCPClient.wait_end) (sent_reply : option pyval)
    (response : pydict) (c1 : MCPClient.t)
    (info : ServerInfo.t) (caps : ServerCapabilities.t) :
  MCPClient.request float_str "initialize"
    (Some (<["clientInfo" := VDict (ClientInfo.to_dict (CapabilityNegotiator.client_info n))]>
           (<["capabilities" := VDict (ClientCapabilities.to_dict
                                         (CapabilityNegotiator.client_capabilities n))]>
           {[ "protocolVersion" := VStr CapabilityNegotiator.PROTOCOL_VERSION ]})))
    (Some timeout) request_id fut outcome events ending
    (CapabilityNegotiator.client n) = (Ok (VDict response), c1) →
  CapabilityNegotiator.version_supported
    (default (VStr "") (response !! "protocolVersion")) = true →
  ServerInfo.from_dict (default (VDict ∅) (response !! "serverInfo")) = Ok info →
  match default (VDict ∅) (response !! "capabilities") with
  | VDict d => ServerCapabilities.from_dict d
  | _ => Raised TypeError
  end = Ok caps →
  MCPClient.state c1 = INITIALIZING →
  ∃ res n',
    CapabilityNegotiator.negotiate float_str timeout request_id fut outcome
      events ending (Ok sent_reply) n = (Ok res, n')
    ∧ NegotiationResult.protocol_version res
      = default (VStr "") (response !! "protocolVersion")
    ∧ MCPClient.sent (CapabilityNegotiator.client n')
      = MCPClient.sent c1 ++ [JSONRPC.notification_to_dict "initialized" None]
    ∧ MCPClient.state (CapabilityNegotiator.client n') = READY
    ∧ CapabilityNegotiator._result n' = Some res.
Proof.
  intros Hreq Hver Hinfo Hcaps Hstate.
  assert (Hconn : MCPClient.is_connected c1 = true).
  { unfold MCPClient.is_connected, ProtocolStateMachine.is_connected.
    unfold MCPClient.state, ProtocolStateMachine.state in Hstate.
    by rewrite Hstate. }
  unfold CapabilityNegotiator.negotiate.
  unfold py_bind at 1, py_get at 1.
  unfold py_bind at 1, CapabilityNegotiator.on_client at 1.
  rewrite Hreq.
  unfold py_bind at 1, py_lift at 1.
  rewrite Hver. cbn [negb].
  unfold py_bind at 1, py_lift at 1. rewrite Hinfo.
  unfold py_bind at 1, py_lift at 1. rewrite Hcaps.
  unfold py_bind at 1, CapabilityNegotiator.on_client at 1.
  cbn [CapabilityNegotiator.client].
  unfold MCPClient.notify, MCPClient.transport_send,
    py_bind, py_get, py_raise, py_modify, py_lift, py_ret.
  rewrite Hconn. cbn [negb]. cbv beta.
  unfold CapabilityNegotiator.on_client. cbn [CapabilityNegotiator.client].
  unfold MCPClient.mark_ready, py_bind, py_get, py_ret.
  assert (Hst2 : MCPClient.state (MCPClient.log_sent
                    (JSONRPC.notification_to_dict "initialized" None) c1)
                 = INITIALIZING) by exact Hstate.
  rewrite Hst2. rewrite bool_decide_eq_true_2 by done.
  unfold MCPClient.on_state. cbn [MCPClient._state MCPClient.log_sent].
  rewrite protocol_transition_accepted
    by (unfold MCPClient.state in Hstate; rewrite Hstate; constructor).
  eexists _, _. split; [reflexivity|].
  repeat split.
Qed.

(* ===================================================================== *)
(** ** The life of a task object                                          *)
(* ===================================================================== *)

Section TaskLifecycle.

Import Task.

Lemma run_calls_snoc (cs : list call) (c : call) (x : t) :
  run_calls (cs ++ [c]) x = snd (run_call c (run_calls cs x)).
Proof. unfold run_calls. by rewrite fold_left_app. Qed.

(** What one call does, as a case analysis free of the monad. *)
Lemma run_call_cases (c : call) (x : t) :
  match c with
  | call_transition new n1 n2 =>
      (¬ permitted_task_edge (state x) new ∧ run_call c x
         = (Raised (InvalidTaskTransition (id x) (state x) new), x))
      ∨ (permitted_task_edge (state x) new ∧ run_call c x
         = (Ok tt,
            let x1 := set_updated_at n1 (set_state new x) in
            if bool_decide (new = RUNNING) then set_started_at (Some n2) x1
            else if terminal_state new then set_completed_at (Some n2) x1
            else x1))
  | call_update_progress cur tot msg now =>
      run_call c x
      = (Ok tt, set_updated_at now (set_progress (Some (TaskProgress.mk cur tot msg)) x))
  end.
Proof.
  destruct c as [new n1 n2|cur tot msg now]; simpl.
  - destruct (permitted_task_edge_dec (state x) new) as [Hyes|Hno].
    + right. split; [done|]. by apply task_transition_accepted.
    + left. split; [done|]. by apply task_transition_rejected.
  - reflexivity.
Qed.

Lemma stamps_step (c : call) (x : t) :
  (is_Some (completed_at x) ↔ is_terminal x = true) →
  (state x = PENDING → started_at x = None) →
  (state x ≠ PENDING → state x ≠ CANCELLED → is_Some (started_at x)) →
  let y := snd (run_call c x) in
  (is_Some (completed_at y) ↔ is_terminal y = true)
  ∧ (state y = PENDING → started_at y = None)
  ∧ (state y ≠ PENDING → state y ≠ CANCELLED → is_Some (started_at y))
  ∧ id y = id x ∧ type y = type x ∧ created_at y = created_at x
  ∧ metadata y = metadata x ∧ result y = result x ∧ error y = error x.
Proof.
  intros Hc Hp Hs. pose proof (run_call_cases c x) as H.
  destruct c as [new n1 n2|cur tot msg now].
  - destruct H as [[_ ->]|[Hedge ->]]; [simpl; tauto|].
    unfold is_terminal in *.
    inversion Hedge as [E|E|E|E|E]; symmetry in E; rewrite E in *; simpl in *;
      (split; [split; [intros Hy; try done; try (apply Hc in Hy; done)
                      |intros Hy; try done; eauto]|]);
      (split; [intros Hy; try done|]);
      (split; [intros ? ?; try done; eauto|]); done.
  - rewrite H. simpl. unfold is_terminal in *. simpl. tauto.
Qed.

(** X1.  On a task object built by the dataclass defaults, after any
    sequence of [transition] and [update_progress] calls, refused ones
    included: [completed_at] is set exactly when the state is terminal;
    [started_at] is unset while the task is PENDING and set once it is
    RUNNING, COMPLETED or FAILED; and [id], [type], [created_at],
    [metadata], [result] and [error] are what the constructor stored. *)
Theorem task_stamps_follow_state (task_id task_type : pyval) (md : pydict)
    (now_created now_updated : datetime) (cs : list call) :
  let x := run_calls cs (init task_id task_type md now_created now_updated) in
  (is_Some (completed_at x) ↔ is_terminal x = true)
  ∧ (state x = PENDING → started_at x = None)
  ∧ (state x ≠ PENDING → state x ≠ CANCELLED → is_Some (started_at x))
  ∧ id x = task_id ∧ type x = task_type ∧ created_at x = now_created
  ∧ metadata x = md ∧ result x = VNone ∧ error x = None.
Proof.
  induction cs as [|c cs IH] using rev_ind.
  - simpl. unfold is_terminal. simpl. repeat split; try done.
    all: try (intros [? ?]; discriminate).
  - rewrite run_calls_snoc. cbv zeta in IH.
    destruct IH as (Hc & Hp & Hs & Hid & Hty & Hcr & Hmd & Hres & Herr).
    destruct (stamps_step c _ Hc Hp Hs) as (? & ? & ? & E1 & E2 & E3 & E4 & E5 & E6).
    cbv zeta. repeat (split; [first [assumption | congruence | tauto]|]).
    congruence.
Qed.

Lemma accepted_transitions_snoc (cs : list call) (c : call) (x : t) :
  accepted_transitions (cs ++ [c]) x
  = (accepted_transitions cs x
     + match c, run_call c (run_calls cs x) with
       | call_transition _ _ _, (Ok _, _) => 1
       | _, _ => 0
       end)%nat.
Proof.
  revert x. induction cs as [|c0 cs IH]; intros x.
  - unfold run_calls. cbn [app fold_left accepted_transitions].
    by destruct c, (run_call _ x) as [[?|?] ?].
  - change ((c0 :: cs) ++ [c]) with (c0 :: (cs ++ [c])).
    cbn [accepted_transitions].
    change (run_calls (c0 :: cs) x) with (run_calls cs (snd (run_call c0 x))).
    destruct c0, (run_call _ x) as [[?|?] x']; cbn [snd]; rewrite IH; done.
Qed.

(** X2.  Every [transition] call that returns uses up one of the at most
    two transitions a task has: along any sequence of calls the number of
    accepted transitions plus the number the final state still allows is
    at most the number the initial state allowed.  A task therefore makes
    at most two transitions in its life, and none once it is terminal. *)
Theorem task_transitions_are_used_up (cs : list call) (x : t) :
  (accepted_transitions cs x + transitions_left (state (run_calls cs x))
   ≤ transitions_left (state x))%nat.
Proof.
  induction cs as [|c cs IH] using rev_ind; [simpl; lia|].
  rewrite accepted_transitions_snoc, run_calls_snoc.
  pose proof (run_call_cases c (run_calls cs x)) as H.
  destruct c as [new n1 n2|cur tot msg now].
  - destruct H as [[_ ->]|[Hedge ->]]; [simpl; lia|].
    revert IH. generalize (accepted_transitions cs x).
    destruct Hedge; simpl; intros; lia.
  - rewrite H. simpl. lia.
Qed.

(** X3.  A terminal task stays as it ended: whatever calls follow, the
    state, [started_at], [completed_at], [result] and [error] are
    unchanged, and no [transition] call returns. *)
Theorem terminal_task_is_final (cs : list call) (x : t) :
  is_terminal x = true →
  let y := run_calls cs x in
  state y = state x ∧ started_at y = started_at x
  ∧ completed_at y = completed_at x ∧ result y = result x
  ∧ error y = error x ∧ accepted_transitions cs x = 0%nat.
Proof.
  intros Hterm. cbv zeta.
  induction cs as [|c cs IH] using rev_ind; [done|].
  rewrite accepted_transitions_snoc, run_calls_snoc.
  destruct IH as (Hs & Hst & Hc & Hr & He & Hn).
  pose proof (run_call_cases c (run_calls cs x)) as H.
  destruct c as [new n1 n2|cur tot msg now].
  - destruct H as [[_ ->]|[Hedge _]]; [simpl; rewrite Hn; done|].
    exfalso. rewrite Hs in Hedge. unfold is_terminal in Hterm.
    destruct Hedge; discriminate.
  - rewrite H. simpl. rewrite Hn. done.
Qed.

End TaskLifecycle.

Lemma terminal_task_is_final_witness :
  Task.state (Task.run_calls
                [Task.call_transition RUNNING 4000 4001;
                 Task.call_update_progress (VInt 1) VNone VNone 4002]
                example_completed_task) = COMPLETED.
Proof.
  exact (proj1 (terminal_task_is_final
                  [Task.call_transition RUNNING 4000 4001;
                   Task.call_update_progress (VInt 1) VNone VNone 4002]
                  example_completed_task eq_refl)).
Defined.

(* ===================================================================== *)
(** ** The protocol state machine under sequences of calls                *)
(* ===================================================================== *)

Section ProtocolMachine.

Import ProtocolStateMachine.

Lemma run_ops_snoc (os : list op) (o : op) (m : t) :
  run_ops (os ++ [o]) m = snd (run_op o (run_ops os m)).
Proof. unfold run_ops. by rewrite fold_left_app. Qed.

Lemma transition_cases (new : ProtocolState) (m : t) :
  (¬ permitted_protocol_edge (_state m) new
   ∧ transition new m = (Raised (InvalidStateTransition (_state m) new), m))
  ∨ (permitted_protocol_edge (_state m) new
     ∧ transition new m
       = (Ok tt, mk new (_listeners m)
                   (calls m ++ map (λ l, mk_call l (_state m) new) (_listeners m)))).
Proof.
  destruct (decide (new ∈ VALID_TRANSITIONS (_state m))) as [H|H];
    rewrite protocol_table_is_spec_table in H.
  - right. split; [done|]. by apply protocol_transition_accepted.
  - left. split; [done|]. by apply protocol_transition_rejected.
Qed.

Lemma notified_edges (old new : ProtocolState) (ls : list listener) :
  permitted_protocol_edge old new →
  Forall (λ c, permitted_protocol_edge (old_state c) (new_state c))
    (map (λ l, mk_call l old new) ls).
Proof. intros H. induction ls; simpl; constructor; done. Qed.

(** X4.  As long as the machine is driven through [transition] (listeners
    may be registered and removed in between, and refused transitions are
    caught), every call a listener has received reports an edge of the
    transition table, and the current state is reachable from the initial
    one along edges of the table. *)
Theorem listeners_see_table_edges (initial_state : ProtocolState) (os : list op) :
  let m := run_ops (List.filter validated os) (init initial_state) in
  Forall (λ c, permitted_protocol_edge (old_state c) (new_state c)) (calls m)
  ∧ rtc permitted_protocol_edge initial_state (_state m).
Proof.
  cbv zeta. induction os as [|o os IH] using rev_ind.
  - simpl. split; [constructor|]. apply rtc_refl.
  - rewrite List.filter_app. cbn [List.filter].
    destruct (validated o) eqn:Hv; [|by rewrite app_nil_r].
    rewrite run_ops_snoc. set (m := run_ops _ _) in *.
    destruct IH as (Hall & Hreach).
    destruct o as [new|new| |cb|cb]; try discriminate Hv; cbn [run_op].
    + destruct (transition_cases new m) as [[_ ->]|[Hedge ->]]; [done|].
      cbn [snd calls _state]. split.
      * apply Forall_app. split; [done|]. by apply notified_edges.
      * eapply rtc_r; done.
    + done.
    + unfold remove_listener, py_modify. cbn [snd].
      by destruct (list_remove cb (_listeners m)).
Qed.

(** X5.  CLOSED is final for [transition]: on a machine that is CLOSED,
    whatever sequence of [transition], [on_transition] and
    [remove_listener] calls follows, the state stays CLOSED and no listener
    is called. *)
Theorem closed_machine_stays_closed (m : t) (os : list op) :
  _state m = CLOSED →
  let m' := run_ops (List.filter validated os) m in
  _state m' = CLOSED ∧ calls m' = calls m.
Proof.
  intros Hclosed. cbv zeta. induction os as [|o os IH] using rev_ind; [done|].
  rewrite List.filter_app. cbn [List.filter].
  destruct (validated o) eqn:Hv; [|by rewrite app_nil_r].
  rewrite run_ops_snoc. set (m1 := run_ops _ _) in *.
  destruct IH as (Hs & Hc).
  destruct o as [new|new| |cb|cb]; try discriminate Hv; cbn [run_op].
  - destruct (transition_cases new m1) as [[_ ->]|[Hedge _]]; [done|].
    rewrite Hs in Hedge. inversion Hedge.
  - done.
  - unfold remove_listener, py_modify. cbn [snd].
    by destruct (list_remove cb (_listeners m1)).
Qed.

End ProtocolMachine.

Lemma closed_machine_stays_closed_witness :
  ProtocolStateMachine._state
    (ProtocolStateMachine.run_ops
       [ProtocolStateMachine.op_transition DISCONNECTED;
        ProtocolStateMachine.op_on_transition 1%nat;
        ProtocolStateMachine.op_transition CONNECTING]
       example_closed_machine) = CLOSED.
Proof.
  exact (proj1 (closed_machine_stays_closed example_closed_machine
                  [ProtocolStateMachine.op_transition DISCONNECTED;
                   ProtocolStateMachine.op_on_transition 1%nat;
                   ProtocolStateMachine.op_transition CONNECTING] eq_refl)).
Defined.

(* ===================================================================== *)
(** ** The task manager                                                   *)
(* ===================================================================== *)

Section ManagerLoad.

Import TaskManager.

Lemma active_length_perm (l1 l2 : list Task.t) :
  l1 ≡ₚ l2 →
  length (List.filter Task.is_active l1) = length (List.filter Task.is_active l2).
Proof.
  induction 1 as [|x l1 l2 _ IH|x y l|l1 l2 l3 _ IH1 _ IH2]; simpl.
  - done.
  - destruct (Task.is_active x); simpl; by rewrite IH.
  - by destruct (Task.is_active x), (Task.is_active y).
  - congruence.
Qed.

Lemma active_length_insert (tasks : gmap string Task.t) (k : string) (x : Task.t) :
  tasks !! k = None →
  length (List.filter Task.is_active (snd <$> map_to_list (<[k := x]> tasks)))
  = ((if Task.is_active x then 1 else 0)
     + length (List.filter Task.is_active (snd <$> map_to_list tasks)))%nat.
Proof.
  intros Hk.
  rewrite (active_length_perm _ (snd <$> ((k, x) :: map_to_list tasks))).
  - cbn [fmap list_fmap snd List.filter].
    destruct (Task.is_active x); cbn [length]; lia.
  - apply fmap_Permutation. by apply map_to_list_insert.
Qed.

Lemma active_count_insert_fresh (m : t) (k : string) (x : Task.t) :
  _tasks m !! k = None →
  active_task_count (set_tasks (<[k := x]> (_tasks m)) m)
  = active_task_count m + (if Task.is_active x then 1 else 0).
Proof.
  intros Hk. unfold active_task_count. cbn [set_tasks _tasks].
  rewrite (active_length_insert _ _ _ Hk). destruct (Task.is_active x); lia.
Qed.

Lemma active_count_insert (m : t) (k : string) (x old : Task.t) :
  _tasks m !! k = Some old →
  active_task_count (set_tasks (<[k := x]> (_tasks m)) m)
  = active_task_count m - (if Task.is_active old then 1 else 0)
    + (if Task.is_active x then 1 else 0).
Proof.
  intros Hk.
  pose proof (active_count_insert_fresh (set_tasks (delete k (_tasks m)) m) k x
                (lookup_delete_eq _ _)) as Hx.
  pose proof (active_count_insert_fresh (set_tasks (delete k (_tasks m)) m) k old
                (lookup_delete_eq _ _)) as Hold.
  cbn [set_tasks _tasks] in Hx, Hold.
  rewrite insert_delete_eq in Hx. rewrite insert_delete_eq, insert_id in Hold by done.
  unfold active_task_count in *. cbn [set_tasks _tasks] in *. lia.
Qed.

Lemma active_count_insert_any (m : t) (k : string) (x : Task.t) :
  active_task_count (set_tasks (<[k := x]> (_tasks m)) m)
  ≤ active_task_count m + 1.
Proof.
  destruct (_tasks m !! k) as [old|] eqn:Hk.
  - rewrite (active_count_insert _ _ _ _ Hk).
    destruct (Task.is_active old), (Task.is_active x); lia.
  - rewrite (active_count_insert_fresh _ _ _ Hk).
    destruct (Task.is_active x); lia.
Qed.

Lemma active_length_filter (tasks : gmap string Task.t)
    (P : string * Task.t → Prop) `{!∀ kv, Decision (P kv)} :
  (∀ kv, ¬ P kv → Task.is_active kv.2 = false) →
  length (List.filter Task.is_active (snd <$> map_to_list (filter P tasks)))
  = length (List.filter Task.is_active (snd <$> map_to_list tasks)).
Proof.
  intros HP. induction tasks as [|k x tasks Hk IH] using map_ind.
  - by rewrite map_filter_empty.
  - rewrite (active_length_insert _ _ _ Hk).
    destruct (decide (P (k, x))) as [Hyes|Hno].
    + rewrite map_filter_insert_True by done.
      rewrite active_length_insert, IH; [done|].
      apply map_lookup_filter_None. by left.
    + rewrite map_filter_insert_not';
        [|done|intros y Hy; rewrite Hk in Hy; discriminate Hy].
      pose proof (HP _ Hno) as Hx. cbn [snd] in Hx. by rewrite Hx, IH.
Qed.

Lemma active_count_filter (m : t) (P : string * Task.t → Prop)
    `{!∀ kv, Decision (P kv)} :
  (∀ kv, ¬ P kv → Task.is_active kv.2 = false) →
  active_task_count (set_tasks (filter P (_tasks m)) m) = active_task_count m.
Proof.
  intros HP. unfold active_task_count. cbn [set_tasks _tasks].
  by rewrite active_length_filter.
Qed.

Ltac same_load :=
  first [intros [? ? ? ? ?] | idtac];
  split; [reflexivity | cbn [snd]; first [apply Z.le_refl | lia]].

(** The building blocks keep the load. *)
Lemma keeps_ret {A} (a : A) : adds_no_active_task (py_ret (S := t) a).
Proof. same_load. Qed.

Lemma keeps_raise {A} (e : exn) : adds_no_active_task (py_raise (S := t) (A := A) e).
Proof. same_load. Qed.

Lemma keeps_bind {A B} (p : Py t A) (k : A → Py t B) :
  adds_no_active_task p → (∀ a, adds_no_active_task (k a)) →
  adds_no_active_task (py_bind p k).
Proof.
  intros Hp Hk m. unfold py_bind. specialize (Hp m).
  destruct (p m) as [[a|e] m1]; cbn [snd] in *; [|done].
  specialize (Hk a m1). destruct Hk as [-> ?], Hp as [-> ?]. split; [done|lia].
Qed.

Lemma keeps_try {A} (p : Py t A) (catches : exn → bool) (h : exn → Py t A) :
  adds_no_active_task p → (∀ e, adds_no_active_task (h e)) →
  adds_no_active_task (py_try p catches h).
Proof.
  intros Hp Hh m. unfold py_try. specialize (Hp m).
  destruct (p m) as [[a|e] m1]; cbn [snd] in *; [done|].
  destruct (catches e); [|done].
  specialize (Hh e m1). destruct Hh as [-> ?], Hp as [-> ?]. split; [done|lia].
Qed.

Lemma keeps_finally {A} (p : Py t A) (f : Py t unit) :
  adds_no_active_task p → adds_no_active_task f →
  adds_no_active_task (py_finally p f).
Proof.
  intros Hp Hf m. unfold py_finally. specialize (Hp m).
  destruct (p m) as [r m1]; cbn [snd] in *.
  specialize (Hf m1). destruct (f m1) as [[?|?] m2]; cbn [snd] in *;
    destruct Hf as [-> ?], Hp as [-> ?]; (split; [done|lia]).
Qed.

Lemma keeps_on_task {A} (tid : string) (p : Py Task.t A) :
  (∀ task, Task.is_active (p task).2 = true → Task.is_active task = true) →
  adds_no_active_task (on_task tid p).
Proof.
  intros Hp m. unfold on_task. destruct (_tasks m !! tid) as [task|] eqn:Hk;
    [|same_load].
  specialize (Hp task). destruct (p task) as [r task']. cbn [snd] in *.
  split; [done|]. rewrite (active_count_insert _ _ _ _ Hk).
  destruct (Task.is_active task'), (Task.is_active task); try lia.
  all: by specialize (Hp eq_refl).
Qed.

Lemma keeps_transition_task (tid : string) (new : TaskState) (n1 n2 : datetime) :
  adds_no_active_task (_transition_task tid new n1 n2).
Proof.
  unfold _transition_task. apply keeps_bind; [by apply keeps_on_task|].
  intros task. apply keeps_bind.
  - apply keeps_on_task. intros x.
    destruct (permitted_task_edge_dec (Task.state x) new) as [Hyes|Hno].
    + rewrite (task_transition_accepted _ _ _ _ Hyes). unfold Task.is_active.
      destruct Hyes; simpl; done.
    + by rewrite (task_transition_rejected _ _ _ _ Hno).
  - intros _. apply keeps_bind; [same_load|].
    intros self. destruct (_on_state_change self); [|apply keeps_ret].
    same_load.
Qed.

Lemma keeps_pop_executor (tid : string) :
  adds_no_active_task (py_modify (λ m, set_executors (_executors m ∖ {[tid]}) m)).
Proof. same_load. Qed.

(** [cancel_task] on a task that is not there or has ended. *)
Lemma cancel_task_refused (m : t) (tid : string) (reason : option string)
    (executor_end : Py t unit) (n1 n2 : datetime) :
  match _tasks m !! tid with
  | Some task => Task.is_terminal task = true
  | None => True
  end →
  cancel_task tid reason executor_end n1 n2 m = (Ok false, m).
Proof.
  intros H. unfold cancel_task, py_bind, py_get.
  destruct (_tasks m !! tid) as [task|]; [|done]. by rewrite H.
Qed.

Lemma not_terminal_to_cancelled (task : Task.t) :
  Task.is_terminal task = false →
  permitted_task_edge (Task.state task) CANCELLED
  ∧ Task.state task ≠ CANCELLED.
Proof.
  unfold Task.is_terminal. destruct (Task.state task); simpl; intros H;
    try discriminate H; split; (constructor || done).
Qed.

(** X8.  [cancel_task] on a task that is PENDING or RUNNING and has no
    background handle returns [True] and leaves the task CANCELLED, with
    [updated_at] and [completed_at] stamped by the call.  The reason is
    stored under [metadata["cancel_reason"]] when it is a non-empty string
    and nowhere otherwise; the rest of the metadata, every other task and
    the handles are untouched. *)
Theorem cancel_task_without_handle (m : t) (tid : string) (task : Task.t)
    (reason : option string) (executor_end : Py t unit) (n1 n2 : datetime) :
  _tasks m !! tid = Some task →
  Task.is_terminal task = false →
  tid ∉ _executors m →
  ∃ task' m',
    cancel_task tid reason executor_end n1 n2 m = (Ok true, m')
    ∧ _tasks m' !! tid = Some task'
    ∧ Task.state task' = CANCELLED
    ∧ Task.updated_at task' = n1
    ∧ Task.completed_at task' = Some n2
    ∧ Task.started_at task' = Task.started_at task
    ∧ Task.metadata task'
      = match reason with
        | Some r => if String.eqb r "" then Task.metadata task
                    else <["cancel_reason" := VStr r]> (Task.metadata task)
        | None => Task.metadata task
        end
    ∧ (∀ k, k ≠ tid → _tasks m' !! k = _tasks m !! k)
    ∧ _executors m' = _executors m.
Proof.
  intros Hin Hterm Hnoex.
  destruct (not_terminal_to_cancelled _ Hterm) as [Hedge Hnc].
  destruct (manager_transition_accepted m tid task CANCELLED n1 n2 Hin Hedge)
    as (task1 & m1 & Hm1 & Htr & Htasks & Hex & _).
  rewrite (task_transition_accepted _ _ _ _ Hedge) in Htr.
  injection Htr as <-. cbn [bool_decide decide_rel Task.terminal_state] in Htasks.
  set (task1 := Task.set_completed_at _ _) in *.
  assert (Hin1 : _tasks m1 !! tid = Some task1)
    by (rewrite Htasks; apply lookup_insert_eq).
  assert (Hstart : cancel_task tid reason executor_end n1 n2 m
    = (match reason with
       | Some r =>
           if String.eqb r "" then py_ret true
           else (on_task tid (py_modify (λ x,
                   Task.set_metadata
                     (<["cancel_reason" := VStr r]> (Task.metadata x)) x)) ;ₚ
                 py_ret true)%py
       | None => py_ret true
       end) m1).
  { unfold cancel_task. unfold py_bind at 1. unfold py_get at 1. rewrite Hin, Hterm.
    rewrite bool_decide_eq_false_2 by done.
    unfold py_bind at 1. unfold py_ret at 1.
    unfold py_bind at 1. rewrite (on_task_eq _ _ _ _ Hin).
    unfold py_get. cbn [fst snd]. rewrite (manager_store_same _ _ _ Hin).
    rewrite bool_decide_eq_false_2 by done.
    unfold py_try, py_bind at 1. rewrite Hm1.
    destruct reason as [r|]; [|done].
    destruct (String.eqb r ""); [done|].
    unfold py_bind. rewrite (on_task_eq _ _ _ _ Hin1). done. }
  rewrite Hstart.
  destruct reason as [r|]; [destruct (String.eqb r "")|].
  - exists task1, m1. split; [done|]. rewrite Hin1. repeat split; try done.
    intros k Hk. rewrite Htasks. by apply lookup_insert_ne.
  - unfold py_bind. rewrite (on_task_eq _ _ _ _ Hin1).
    eexists _, _. split; [reflexivity|]. cbn [set_tasks _tasks _executors].
    rewrite lookup_insert_eq. repeat split; try done.
    intros k Hk. rewrite lookup_insert_ne, Htasks by done. by apply lookup_insert_ne.
  - exists task1, m1. split; [done|]. rewrite Hin1. repeat split; try done.
    intros k Hk. rewrite Htasks. by apply lookup_insert_ne.
Qed.

(** X10.  [update_progress] answers [True] exactly when the task is there
    and RUNNING, and then stores the progress on it.  In every case the
    set of tasks, the state of each task and every other task are left as
    they were; when it answers [False] the manager is unchanged. *)
Theorem update_progress_only_when_running (m : t) (tid : string)
    (cur tot msg : pyval) (now : datetime) :
  let r := update_progress tid cur tot msg now m in
  r.1 = Ok (bool_decide (Task.state <$> _tasks m !! tid = Some RUNNING))
  ∧ (∀ k, Task.state <$> _tasks r.2 !! k = Task.state <$> _tasks m !! k)
  ∧ (∀ k, k ≠ tid → _tasks r.2 !! k = _tasks m !! k)
  ∧ (r.1 = Ok false → r.2 = m)
  ∧ (r.1 = Ok true →
     Task.progress <$> _tasks r.2 !! tid
     = Some (Some (TaskProgress.mk cur tot msg))).
Proof.
  cbv zeta. unfold update_progress, py_bind, py_get.
  destruct (_tasks m !! tid) as [task|] eqn:Hin; cbn [fmap option_fmap option_map].
  - destruct (decide (Task.state task = RUNNING)) as [Hrun|Hnot].
    + rewrite !bool_decide_eq_true_2 by congruence.
      rewrite (on_task_eq _ _ _ _ Hin).
      unfold Task.update_progress, py_bind, py_modify.
      cbn [fst snd py_ret set_tasks _tasks].
      split; [done|]. split; [|split; [|split]].
      * intros k. destruct (decide (k = tid)) as [->|Hk].
        -- by rewrite lookup_insert_eq, Hin.
        -- by rewrite lookup_insert_ne.
      * intros k Hk. by rewrite lookup_insert_ne.
      * intros H; discriminate H.
      * intros _. by rewrite lookup_insert_eq.
    + rewrite !bool_decide_eq_false_2 by congruence. cbn [fst snd py_ret].
      repeat split; try done.
  - rewrite bool_decide_eq_false_2 by done. cbn [fst snd py_ret].
    repeat split; try done.
Qed.

Section Interrupted.

Variable str_of_exn : exn → string.
Variable float_str : Q → string.

(** X9.  [cancel_task] on a RUNNING task whose background coroutine is
    interrupted returns [True]; the coroutine itself moves the task to
    CANCELLED and stamps it, and its handle is dropped.  The reason passed
    to [cancel_task] is then recorded nowhere: the metadata of the task is
    what it was. *)
Theorem cancel_task_running_drops_reason (m : t) (tid : string) (task : Task.t)
    (reason : option string) (timeout : Q)
    (executor_updated executor_stamp n1 n2 : datetime) :
  _tasks m !! tid = Some task →
  Task.state task = RUNNING →
  tid ∈ _executors m →
  ∃ task' m',
    cancel_task tid reason
      (interrupted_executor str_of_exn float_str tid timeout
         executor_updated executor_stamp) n1 n2 m = (Ok true, m')
    ∧ _tasks m' !! tid = Some task'
    ∧ Task.state task' = CANCELLED
    ∧ Task.updated_at task' = executor_updated
    ∧ Task.completed_at task' = Some executor_stamp
    ∧ Task.metadata task' = Task.metadata task
    ∧ (∀ k, k ≠ tid → _tasks m' !! k = _tasks m !! k)
    ∧ tid ∉ _executors m'.
Proof.
  intros Hin Hrun Hex.
  assert (Hedge : permitted_task_edge (Task.state task) CANCELLED)
    by (rewrite Hrun; constructor).
  destruct (manager_transition_accepted m tid task CANCELLED executor_updated
              executor_stamp Hin Hedge)
    as (task1 & m1 & Hm1 & Htr & Htasks & Hex1 & _).
  rewrite (task_transition_accepted _ _ _ _ Hedge) in Htr.
  injection Htr as <-. cbn [bool_decide decide_rel Task.terminal_state] in Htasks.
  set (task1 := Task.set_completed_at _ _) in *.
  set (m2 := set_executors (_executors m1 ∖ {[tid]}) m1).
  assert (Hin2 : _tasks m2 !! tid = Some task1)
    by (cbn [m2 set_executors _tasks]; rewrite Htasks; apply lookup_insert_eq).
  exists task1, m2. split.
  - unfold cancel_task. unfold py_bind at 1. unfold py_get at 1.
    rewrite Hin. unfold Task.is_terminal. rewrite Hrun. cbn [Task.terminal_state].
    rewrite bool_decide_eq_true_2 by done.
    unfold py_bind at 1.
    assert (Hint : interrupted_executor str_of_exn float_str tid timeout
                     executor_updated executor_stamp m
                   = (Raised AsyncioCancelledError, m2)).
    { unfold interrupted_executor, py_finally, _execute_task_handler.
      unfold py_bind at 1. unfold py_try. rewrite Hm1. done. }
    unfold py_try at 1. rewrite Hint. unfold py_ret at 1.
    unfold py_bind at 1. rewrite (on_task_eq _ _ _ _ Hin2).
    unfold py_get. cbn [fst snd]. rewrite (manager_store_same _ _ _ Hin2).
    by rewrite bool_decide_eq_true_2.
  - rewrite Hin2. repeat split; try done.
    + intros k Hk. cbn [m2 set_executors _tasks]. rewrite Htasks.
      by apply lookup_insert_ne.
    + cbn [m2 set_executors _executors].
      rewrite elem_of_difference, elem_of_singleton. tauto.
Qed.

End Interrupted.

Section WithText.

Variable timedelta : Q → Z.
Variable str_of_exn : exn → string.
Variable float_str : Q → string.

Lemma keeps_interrupted_executor (tid : string) (timeout : Q) (n1 n2 : datetime) :
  adds_no_active_task (interrupted_executor str_of_exn float_str tid timeout n1 n2).
Proof.
  unfold interrupted_executor, _execute_task_handler.
  apply keeps_finally; [|apply keeps_pop_executor].
  apply keeps_bind; [|intros; apply keeps_raise].
  apply keeps_try; [apply keeps_transition_task|intros; apply keeps_ret].
Qed.

Lemma keeps_cancel_task (tid : string) (reason : option string)
    (executor_end : Py t unit) (n1 n2 : datetime) :
  adds_no_active_task executor_end →
  adds_no_active_task (cancel_task tid reason executor_end n1 n2).
Proof.
  intros He. unfold cancel_task.
  apply keeps_bind; [same_load|]. intros self.
  destruct (_tasks self !! tid) as [task|]; [|apply keeps_ret].
  destruct (Task.is_terminal task); [apply keeps_ret|].
  apply keeps_bind.
  { destruct (bool_decide _); [|apply keeps_ret].
    apply keeps_try; [done|intros; apply keeps_ret]. }
  intros _. apply keeps_bind; [by apply keeps_on_task|]. intros task'.
  destruct (bool_decide _); [apply keeps_ret|].
  apply keeps_try; [|intros; apply keeps_ret].
  apply keeps_bind; [apply keeps_transition_task|]. intros _.
  apply keeps_bind; [|intros; apply keeps_ret].
  destruct reason as [r|]; [|apply keeps_ret].
  destruct (String.eqb r ""); [apply keeps_ret|].
  by apply keeps_on_task.
Qed.

Lemma keeps_update_progress (tid : string) (cur tot msg : pyval) (now : datetime) :
  adds_no_active_task (update_progress tid cur tot msg now).
Proof.
  unfold update_progress.
  apply keeps_bind; [same_load|]. intros self.
  destruct (_tasks self !! tid) as [task|]; [|apply keeps_ret].
  destruct (bool_decide _); [|apply keeps_ret].
  apply keeps_bind; [by apply keeps_on_task|intros; apply keeps_ret].
Qed.

Lemma expired_is_not_active (now : datetime) (ttl : Z) (task : Task.t) :
  expired now ttl task ≠ false → Task.is_active task = false.
Proof.
  unfold expired, Task.is_terminal, Task.is_active.
  destruct (Task.state task); simpl; done.
Qed.

Lemma keeps_cleanup_completed (now : datetime) :
  adds_no_active_task (_cleanup_completed timedelta now).
Proof.
  intros m. unfold _cleanup_completed, py_modify. cbn [snd]. split; [done|].
  rewrite active_count_filter; [lia|].
  intros kv. apply expired_is_not_active.
Qed.

(** X7.  The capacity bound is an invariant of the manager: if no more
    than [max_concurrent] tasks are active, this is still so after any
    sequence of [create_task], [_transition_task], [cancel_task] (of a
    task whose background coroutine is running or has not started),
    [update_progress] and [_cleanup_completed] calls, whichever of them
    raise, and even if a drawn task id is already in use.  The
    configuration is never changed. *)
Theorem active_tasks_stay_within_capacity (m : t)
    (os : list op) :
  active_task_count m ≤ max_concurrent (config m) →
  let m' := run_ops timedelta str_of_exn float_str os m in
  config m' = config m
  ∧ active_task_count m' ≤ max_concurrent (config m').
Proof.
  intros Hm. cbv zeta. induction os as [|o os IH] using rev_ind; [done|].
  unfold run_ops in *. rewrite fold_left_app. cbn [fold_left].
  set (m1 := fold_left _ os m) in *. destruct IH as [Hcfg Hcap].
  assert (Hkeep : ∀ A (p : Py t A), adds_no_active_task p →
            config (p m1).2 = config m
            ∧ active_task_count (p m1).2 ≤ max_concurrent (config (p m1).2)).
  { intros A p Hp. destruct (Hp m1) as [E Hle]. rewrite E. split; [done|lia]. }
  destruct o as [new_id ty md n1 n2|tid new n1 n2
                |tid reason started timeout eu es n1 n2
                |tid cur tot msg now|now]; cbn [run_op].
  - unfold create_task, py_bind, py_get, py_raise, py_modify, py_ret.
    destruct (max_concurrent (config m1) <=? active_task_count m1) eqn:Hfull;
      cbn [snd]; [done|].
    apply Z.leb_gt in Hfull. split; [by destruct m1|].
    match goal with |- active_task_count ?x ≤ _ =>
      replace (active_task_count x) with
        (active_task_count (set_tasks (<[new_id :=
           Task.mk (VStr new_id) ty PENDING None VNone None n1 n2 None None
             match md with Some d => if dict_is_empty d then ∅ else d | None => ∅ end]>
           (_tasks m1)) m1)) by (by destruct m1)
    end.
    etrans; [apply active_count_insert_any|]. destruct m1; simpl in *; lia.
  - apply Hkeep, keeps_transition_task.
  - apply Hkeep, keeps_cancel_task.
    destruct started; [apply keeps_interrupted_executor|apply keeps_raise].
  - apply Hkeep, keeps_update_progress.
  - apply Hkeep, keeps_cleanup_completed.
Qed.

(** X11.  [_cleanup_completed] removes exactly the tasks that are terminal
    and whose [completed_at] lies more than the configured TTL before the
    clock reading; every other task is kept as it is.  In particular no
    active task is removed, and neither is a terminal task without a
    [completed_at] stamp. *)
Theorem cleanup_removes_only_expired (m : t) (now : datetime) (k : string) :
  let m' := snd (_cleanup_completed timedelta now m) in
  _tasks m' !! k
  = match _tasks m !! k with
    | Some task =>
        if Task.is_terminal task
        then match Task.completed_at task with
             | Some c => if timedelta (completed_ttl (config m)) <? now - c
                         then None else Some task
             | None => Some task
             end
        else Some task
    | None => None
    end.
Proof.
  cbv zeta. unfold _cleanup_completed, py_modify. cbn [snd set_tasks _tasks].
  destruct (_tasks m !! k) as [task|] eqn:Hin.
  - destruct (expired now (timedelta (completed_ttl (config m))) task) eqn:He.
    + rewrite (proj2 (map_lookup_filter_None _ _ _)).
      * unfold expired in He. destruct (Task.is_terminal task); [|done].
        destruct (Task.completed_at task); [|done]. cbn [andb] in He. by rewrite He.
      * right. intros x Hx. cbn [snd]. congruence.
    + rewrite (proj2 (map_lookup_filter_Some _ _ _ task)) by done.
      unfold expired in He. destruct (Task.is_terminal task); [|done].
      destruct (Task.completed_at task); [|done]. cbn [andb] in He. by rewrite He.
  - apply map_lookup_filter_None. by left.
Qed.

End WithText.

End ManagerLoad.

Lemma active_tasks_stay_within_capacity_witness :
  let m' :=
    TaskManager.run_ops example_timedelta example_str_of_exn example_float_str
      [TaskManager.op_create_task "1f0e" (VStr "tools/call") None 5000 5000;
       TaskManager.op_cancel_task "7c9e6679" (Some "stop") true 300 6000 6000
         6001 6001]
      example_busy_manager in
  TaskManager.config m' = TaskManager.config example_busy_manager
  ∧ TaskManager.active_task_count m'
    ≤ TaskManager.max_concurrent (TaskManager.config m').
Proof.
  apply (active_tasks_stay_within_capacity example_timedelta example_str_of_exn
           example_float_str example_busy_manager).
  vm_compute. discriminate.
Defined.

Lemma cancel_task_without_handle_witness :
  ∃ task' m',
    TaskManager.cancel_task "7c9e6679" (Some "user request") (py_ret tt) 5000 5001
      example_restored_manager = (Ok true, m')
    ∧ TaskManager._tasks m' !! "7c9e6679" = Some task'
    ∧ Task.state task' = CANCELLED
    ∧ Task.metadata task' !! "cancel_reason" = Some (VStr "user request").
Proof.
  destruct (cancel_task_without_handle example_restored_manager "7c9e6679"
              example_task (Some "user request") (py_ret tt) 5000 5001
              eq_refl eq_refl (not_elem_of_empty _))
    as (task' & m' & H1 & H2 & H3 & _ & _ & _ & H4 & _).
  exists task', m'. split; [exact H1|]. split; [exact H2|]. split; [exact H3|].
  rewrite H4. reflexivity.
Defined.

Lemma cancel_task_running_drops_reason_witness :
  ∃ task' m',
    TaskManager.cancel_task "7c9e6679" (Some "user request")
      (TaskManager.interrupted_executor example_str_of_exn example_float_str
         "7c9e6679" 300 5000 5001) 5002 5003
      example_busy_manager = (Ok true, m')
    ∧ TaskManager._tasks m' !! "7c9e6679" = Some task'
    ∧ Task.state task' = CANCELLED
    ∧ Task.metadata task' = ∅.
Proof.
  destruct (cancel_task_running_drops_reason example_str_of_exn example_float_str
              example_busy_manager "7c9e6679" example_running_task
              (Some "user request") 300 5000 5001 5002 5003
              eq_refl eq_refl (proj2 (elem_of_singleton _ _) eq_refl))
    as (task' & m' & H1 & H2 & H3 & _ & _ & H4 & _).
  exists task', m'. split; [exact H1|]. split; [exact H2|]. split; [exact H3|].
  exact H4.
Defined.

(* ===================================================================== *)
(** ** JSON-RPC messages                                                  *)
(* ===================================================================== *)

Section Messages.

Import JSONRPC.

Lemma error_object_round_trip (e : error) :
  error_from_dict (VDict (error_to_dict e)) = Ok e.
Proof.
  destruct e as [c m d]. unfold error_from_dict, error_to_dict, dict_get.
  cbn [code message data]. lookup_literal.
  by destruct d.
Qed.

(** X12.  Decoding an encoded response gives the response back, except
    that the result of an error response is lost: [to_dict] writes the
    error object and no ["result"] key when there is an error, so
    [from_dict] reads the result as [None].  The id, the error with its
    code, message and data, and the result of a success response (also a
    [None] result) survive; so does an [MCPError] written as an error
    object. *)
Theorem response_round_trip (r : response) (c m d : pyval) :
  response_from_dict (VDict (response_to_dict r))
  = Ok (mk_response (id r)
          (match error_of r with Some _ => VNone | None => result r end)
          (error_of r))
  ∧ is_response (response_to_dict r) = true
  ∧ MCPError_from_dict (MCPError_to_dict c m d) = MCPError c m d.
Proof.
  split; [|split].
  - destruct r as [i res [e|]];
      unfold response_from_dict, response_to_dict, res_bind, py_contains,
        dict_has, dict_get; cbn [id result error_of]; lookup_literal.
    + rewrite bool_decide_eq_true_2 by eauto. cbn [default].
      unfold Datatypes.id. by rewrite error_object_round_trip.
    + by rewrite bool_decide_eq_false_2 by (intros [? ?]; discriminate).
  - destruct r as [i res [e|]];
      unfold is_response, response_to_dict, dict_has; cbn [id result error_of];
      lookup_literal.
    + rewrite bool_decide_eq_true_2 by eauto.
      by rewrite bool_decide_eq_false_2 by (intros [? ?]; discriminate).
    + rewrite bool_decide_eq_true_2 by eauto.
      by rewrite bool_decide_eq_false_2 by (intros [? ?]; discriminate).
  - unfold MCPError_from_dict, MCPError_to_dict, dict_get. lookup_literal.
    by destruct d.
Qed.

Lemma dict_has_lookup (d : pydict) (k : string) :
  dict_has d k = match d !! k with Some _ => true | None => false end.
Proof.
  unfold dict_has. destruct (d !! k).
  - by rewrite bool_decide_eq_true_2 by eauto.
  - by rewrite bool_decide_eq_false_2 by (intros [? ?]; discriminate).
Qed.

(** X13.  The three classifiers are mutually exclusive, and a message is
    of none of the three kinds exactly when it has neither an id nor a
    method.  Whenever [parse_message] returns, the kind of what it returns
    is the kind the classifiers give; it is stricter than they are, since
    it raises [ValueError] unless ["jsonrpc"] is the string 2.0, and for a
    message with an id, no method, no result and no error. *)
Theorem message_kinds_are_exclusive (new_id : string) (d : pydict) :
  (is_request d && is_notification d = false)
  ∧ (is_request d && is_response d = false)
  ∧ (is_notification d && is_response d = false)
  ∧ (is_request d || is_notification d || is_response d = false
     ↔ d !! "id" = None ∧ d !! "method" = None)
  ∧ match parse_message new_id d with
    | Ok (Request _) => is_request d = true
    | Ok (Notification _) => is_notification d = true
    | Ok (Response _) =>
        is_response d = true
        ∧ (is_Some (d !! "result") ∨ is_Some (d !! "error"))
    | Raised _ => True
    end
  ∧ (dict_get d "jsonrpc" ≠ VStr "2.0" →
     parse_message new_id d = Raised (ValueError "Invalid JSON-RPC version")).
Proof.
  unfold is_request, is_notification, is_response, parse_message,
    request_from_dict, notification_from_dict, res_bind, dict_item.
  rewrite !dict_has_lookup. unfold dict_get.
  destruct (d !! "id") as [i|], (d !! "method") as [m|];
    cbn [andb orb negb default]; unfold Datatypes.id.
  all: split; [reflexivity|]; split; [reflexivity|]; split; [reflexivity|].
  all: split; [split; [intros H; discriminate H || done
                      |intros [H1 H2]; discriminate H1 || discriminate H2 || done]|].
  all: destruct (d !! "jsonrpc") as [[| | | |v| |]|]; cbn [negb default];
    unfold Datatypes.id; cbn [negb];
    try (split; [exact I|intros _; reflexivity]).
  all: destruct (String.eqb v "2.0") eqn:Hver; cbn [negb];
    [apply String.eqb_eq in Hver; subst v|split; [exact I|intros _; reflexivity]].
  all: try (split; [reflexivity|intros H; by destruct H]).
  - destruct (d !! "result") as [r|], (d !! "error") as [e|]; cbn [orb andb].
    all: split; [|intros H; by destruct H].
    all: try exact I.
    all: destruct (response_from_dict (VDict d)); [|exact I].
    all: split; [reflexivity|]; eauto.
  - destruct (match d !! "result" with Some _ => true | None => false end
              || match d !! "error" with Some _ => true | None => false end);
      cbn [andb]; (split; [exact I|intros H; by destruct H]).
Qed.

End Messages.

(* ===================================================================== *)
(** ** The client: futures, close, connect and server requests            *)
(* ===================================================================== *)

Section ClientFutures.

Import MCPClient.

Lemma future_done_true (c : t) (a : nat) (r : pyres pyval) :
  futures c !! a = Some (Done r) → future_done c a = true.
Proof. unfold future_done. by intros ->. Qed.

Lemma complete_other (a fut : nat) (r : pyres pyval) (c : t) :
  fut ≠ a → futures (complete fut r c).2 !! a = futures c !! a.
Proof. intros Hne. unfold complete, py_modify; simpl. by rewrite lookup_insert_ne. Qed.

Lemma handle_response_done (a : nat) (r : pyres pyval) (m : pyval) (c : t) :
  futures c !! a = Some (Done r) →
  futures (_handle_response m c).2 !! a = Some (Done r).
Proof.
  intros Hdone. unfold _handle_response, py_bind, py_lift, py_get, py_ret.
  destruct (JSONRPC.response_from_dict m) as [resp|e]; [|done].
  destruct (is_None (JSONRPC.id resp)); [done|].
  destruct (id_text (JSONRPC.id resp) ≫= _) as [fut|]; [|done].
  destruct (future_done c fut) eqn:Hfd; [done|].
  assert (fut ≠ a) by (intros ->; by rewrite (future_done_true _ _ _ Hdone) in Hfd).
  destruct (JSONRPC.error_of resp) as [err|]; by rewrite complete_other.
Qed.

Lemma handle_message_done (a : nat) (r : pyres pyval) (m : pyval) (c : t) :
  futures c !! a = Some (Done r) →
  futures (_handle_message m c).2 !! a = Some (Done r).
Proof.
  intros Hdone. unfold _handle_message.
  destruct m as [| | | | | |d]; try done.
  destruct (JSONRPC.is_response d); [|done].
  unfold py_try. pose proof (handle_response_done a r (VDict d) c Hdone) as H.
  destruct (_handle_response (VDict d) c) as [[|e] c1]; [done|].
  by destruct (is_Exception e).
Qed.

(** [cancel_request], free of the monad. *)
Lemma cancel_request_result (request_id : string) (reason : option string)
    (outcome : send_outcome) (c : t) :
  let sent_message :=
    JSONRPC.notification_to_dict "notifications/cancelled"
      (Some (<["reason" := reason_value reason]>
               {[ "requestId" := VStr request_id ]})) in
  let c1 := log_sent sent_message c in
  let c2 := set_pending (delete request_id (_pending_requests c)) c1 in
  cancel_request request_id reason outcome c
  = if negb (is_connected c)
    then (Raised (MCPError (VInt INTERNAL_ERROR) (VStr "Client not connected") VNone), c)
    else match outcome with
         | Raised e => (Raised e, c1)
         | Ok _ =>
             (Ok tt,
              match _pending_requests c !! request_id with
              | Some fut =>
                  if future_done c fut then c2
                  else set_futures
                         (<[fut := Done (Raised (MCPError_cancelled reason))]>
                            (futures c)) c2
              | None => c2
              end)
         end.
Proof.
  cbv zeta. unfold cancel_request, notify, transport_send, pop_pending, complete,
    py_bind, py_get, py_raise, py_modify, py_lift, py_ret, MCPError_cancelled.
  destruct (negb (is_connected c)); [done|].
  destruct outcome as [o|e]; [|done]. cbn [_pending_requests log_sent].
  destruct (_pending_requests c !! request_id) as [fut|]; [|done].
  unfold future_done. cbn [futures set_pending log_sent]. 
  by destruct (futures c !! fut) as [[|?]|].
Qed.

Lemma cancel_request_done (a : nat) (r : pyres pyval) request_id reason outcome
    (c : t) :
  futures c !! a = Some (Done r) →
  futures (cancel_request request_id reason outcome c).2 !! a = Some (Done r).
Proof.
  intros Hdone. rewrite cancel_request_result.
  destruct (negb (is_connected c)); [done|].
  destruct outcome as [o|e]; [|done]. cbn [snd].
  destruct (_pending_requests c !! request_id) as [fut|]; [|done].
  destruct (future_done c fut) eqn:Hfd; [done|].
  assert (fut ≠ a) by (intros ->; by rewrite (future_done_true _ _ _ Hdone) in Hfd).
  cbn [futures set_futures]. by rewrite lookup_insert_ne.
Qed.

(** The loop of [close] over the pending futures, address by address. *)
Lemma fail_pending_spec (e : exn) (c : t) (a : nat) :
  match futures c !! a with
  | Some Pending =>
      (futures (fail_pending e c) !! a = Some (Done (Raised e))
       ∧ ∃ rid, _pending_requests c !! rid = Some a)
      ∨ (futures (fail_pending e c) !! a = Some Pending
         ∧ ∀ rid, _pending_requests c !! rid ≠ Some a)
  | other => futures (fail_pending e c) !! a = other
  end.
Proof.
  unfold fail_pending. cbn [futures set_futures].
  apply (map_fold_weak_ind
    (λ (fs : gmap nat future) (pend : gmap string nat),
       match futures c !! a with
       | Some Pending =>
           (fs !! a = Some (Done (Raised e)) ∧ ∃ rid, pend !! rid = Some a)
           ∨ (fs !! a = Some Pending ∧ ∀ rid, pend !! rid ≠ Some a)
       | other => fs !! a = other
       end)).
  - destruct (futures c !! a) as [[|r]|]; try done.
    right. split; [done|]. intros rid. by rewrite lookup_empty.
  - intros rid fut pend fs Hfresh IH.
    assert (Hkeep : ∀ rid', pend !! rid' = Some a → <[rid := fut]> pend !! rid' = Some a).
    { intros rid' H. rewrite lookup_insert_ne; [done|]. intros ->. congruence. }
    destruct (decide (fut = a)) as [->|Hne].
    + destruct (futures c !! a) as [[|r]|].
      * destruct IH as [[Hd [rid' Hr]]|[Hp Hn]].
        -- rewrite Hd. left. eauto.
        -- rewrite Hp. left. rewrite lookup_insert_eq. split; [done|].
           exists rid. by rewrite lookup_insert_eq.
      * by rewrite IH.
      * by rewrite IH.
    + assert (Hsame : match fs !! fut with
                      | Some Pending => <[fut := Done (Raised e)]> fs
                      | _ => fs
                      end !! a = fs !! a).
      { destruct (fs !! fut) as [[|?]|]; [|done|done]. by rewrite lookup_insert_ne. }
      rewrite Hsame. destruct (futures c !! a) as [[|r]|]; [|done|done].
      destruct IH as [[Hd [rid' Hr]]|[Hp Hn]]; [left; eauto|].
      right. split; [done|]. intros rid'.
      destruct (decide (rid' = rid)) as [->|Hr].
      * rewrite lookup_insert_eq. congruence.
      * rewrite lookup_insert_ne by done. apply Hn.
Qed.

Lemma fail_pending_done (e : exn) (c : t) (a : nat) (r : pyres pyval) :
  futures c !! a = Some (Done r) →
  futures (fail_pending e c) !! a = Some (Done r).
Proof. intros H. pose proof (fail_pending_spec e c a) as Hs. by rewrite H in Hs. Qed.

(** [close] on a client that is not closing yet, free of the monad: the
    machine ends CLOSED, the table is emptied, the futures are those of
    [fail_pending]. *)
Lemma close_result (c : t) :
  _closing c = false →
  ∃ machine,
    close c
    = (Ok tt,
       mk (request_timeout c) (max_pending_requests c) machine ∅
          (futures (fail_pending (MCPError_cancelled (Some "Client closing")) c))
          false true (sent c))
    ∧ ProtocolStateMachine._state machine = CLOSED
    ∧ ProtocolStateMachine._listeners machine
      = ProtocolStateMachine._listeners (_state c).
Proof.
  intros Hcl. destruct c as [rt mp [st ls calls] pend futs rtask cl snt].
  cbn [_closing] in Hcl. subst cl.
  unfold close, py_bind, py_get, py_modify, py_try, py_ret, on_state, state,
    ProtocolStateMachine.state.
  cbn [_closing _state ProtocolStateMachine._state].
  destruct st; eexists; (split; [reflexivity|split; reflexivity]).
Qed.

Lemma close_done (a : nat) (r : pyres pyval) (c : t) :
  futures c !! a = Some (Done r) →
  futures (close c).2 !! a = Some (Done r).
Proof.
  intros Hdone. destruct (_closing c) eqn:Hcl.
  - unfold close, py_bind, py_get, py_ret. by rewrite Hcl.
  - destruct (close_result c Hcl) as (machine & -> & _). cbn [snd futures].
    by apply fail_pending_done.
Qed.

Lemma apply_event_done (a : nat) (r : pyres pyval) (ev : wait_event) (c : t) :
  futures c !! a = Some (Done r) →
  futures (apply_event ev c) !! a = Some (Done r).
Proof.
  destruct ev; simpl.
  - apply handle_message_done.
  - apply cancel_request_done.
  - apply close_done.
Qed.

(** X14.  A future that is done is never overwritten: whatever messages
    the receive loop handles afterwards (a second response with the same id
    included), whatever requests are cancelled and even when the client is
    closed, the future keeps the result or the exception it was completed
    with. *)
Theorem completed_future_is_never_overwritten
    (c : t) (a : nat) (r : pyres pyval) (events : list wait_event) :
  futures c !! a = Some (Done r) →
  futures (fold_left (λ c ev, apply_event ev c) events c) !! a = Some (Done r).
Proof.
  revert c. induction events as [|ev events IH]; intros c Hdone; [done|].
  cbn [fold_left]. apply IH. by apply apply_event_done.
Qed.

(** X15.  [close] on a client that is not closing yet returns, and leaves
    the client CLOSED and marked as closing, with an empty pending table
    and nothing sent.  Every future of the table that was pending is failed
    with the REQUEST_CANCELLED error of message [Client closing]; a future
    that was done, and a future the table does not hold, are left as they
    were.  A second [close] does nothing. *)
Theorem close_fails_pending_and_ends_closed (c : t) :
  _closing c = false →
  ∃ c',
    close c = (Ok tt, c')
    ∧ state c' = CLOSED
    ∧ _closing c' = true
    ∧ _pending_requests c' = ∅
    ∧ sent c' = sent c
    ∧ (∀ rid a, _pending_requests c !! rid = Some a →
         futures c !! a = Some Pending →
         futures c' !! a
         = Some (Done (Raised (MCPError (VInt REQUEST_CANCELLED)
                                 (VStr "Client closing") VNone))))
    ∧ (∀ a r, futures c !! a = Some (Done r) → futures c' !! a = Some (Done r))
    ∧ (∀ a, (∀ rid, _pending_requests c !! rid ≠ Some a) →
         futures c' !! a = futures c !! a)
    ∧ close c' = (Ok tt, c').
Proof.
  intros Hcl. destruct (close_result c Hcl) as (machine & Hclose & Hst & _).
  eexists. split; [exact Hclose|].
  cbn [state ProtocolStateMachine.state _state _closing _pending_requests sent
       futures].
  repeat split; try done.
  - intros rid a Hin Hp.
    pose proof (fail_pending_spec (MCPError_cancelled (Some "Client closing")) c a) as Hs.
    rewrite Hp in Hs. destruct Hs as [[Hd _]|[_ Hn]]; [exact Hd|].
    by destruct (Hn rid).
  - intros a r. apply fail_pending_done.
  - intros a Hn.
    pose proof (fail_pending_spec (MCPError_cancelled (Some "Client closing")) c a) as Hs.
    destruct (futures c !! a) as [[|r]|]; [|done|done].
    destruct Hs as [[_ [rid Hr]]|[Hp _]]; [by destruct (Hn rid)|done].
Qed.

(** X16.  [cancel_request] cancels locally only after the notification has
    been handed to the transport.  When it raises, because the client is
    not connected or because the send raised, the pending table and every
    future are as before: the request is still in flight.  When it
    returns, one [notifications/cancelled] message with the request id and
    the reason has been sent, the entry of the request is gone from the
    table, and its future, unless it was done, is failed with
    REQUEST_CANCELLED and the reason (with [Request cancelled] for a
    missing or empty reason); every other future is untouched.  The
    notification is sent also for an id that is not pending. *)
Theorem cancel_request_needs_sent_notification
    (c : t) (request_id : string) (reason : option string)
    (outcome : send_outcome) :
  let r := cancel_request request_id reason outcome c in
  match r.1 with
  | Raised e =>
      (is_connected c = false ∨ outcome = Raised e)
      ∧ _pending_requests r.2 = _pending_requests c
      ∧ futures r.2 = futures c
  | Ok _ =>
      is_connected c = true
      ∧ sent r.2
        = sent c ++ [JSONRPC.notification_to_dict "notifications/cancelled"
                       (Some (<["reason" := reason_value reason]>
                                {[ "requestId" := VStr request_id ]}))]
      ∧ _pending_requests r.2 = delete request_id (_pending_requests c)
      ∧ (∀ a, _pending_requests c !! request_id = Some a →
           futures r.2 !! a
           = match futures c !! a with
             | Some (Done x) => Some (Done x)
             | _ => Some (Done (Raised (MCPError_cancelled reason)))
             end)
      ∧ (∀ a, _pending_requests c !! request_id ≠ Some a →
           futures r.2 !! a = futures c !! a)
  end.
Proof.
  cbv zeta. rewrite cancel_request_result.
  destruct (is_connected c) eqn:Hconn; cbn [negb]; [|cbn [fst snd]; auto].
  destruct outcome as [o|e]; cbn [fst snd]; [|auto].
  split; [done|].
  destruct (_pending_requests c !! request_id) as [fut|] eqn:Hin.
  - unfold future_done.
    destruct (futures c !! fut) as [[|x]|] eqn:Hf;
      cbn [sent _pending_requests futures set_futures set_pending log_sent].
    all: split; [done|]; split; [done|]; split.
    all: try (intros a [= <-]; rewrite ?lookup_insert_eq, ?Hf; done).
    all: try (intros a Hne; rewrite ?lookup_insert_ne by congruence; done).
  - cbn [sent _pending_requests futures set_futures set_pending log_sent].
    split; [done|]. split; [done|]. split; [intros a H; discriminate H|done].
Qed.

Lemma wait_for_done (fut : nat) (r : pyres pyval) (events : list wait_event)
    (ending : wait_end) (c : t) :
  futures c !! fut = Some (Done r) →
  wait_for fut events ending c = (r, c).
Proof. intros H. destruct events; cbn [wait_for]; by rewrite H. Qed.

Lemma wait_for_step (fut : nat) (ev : wait_event) (events : list wait_event)
    (ending : wait_end) (c : t) :
  futures c !! fut = Some Pending →
  wait_for fut (ev :: events) ending c
  = wait_for fut events ending (apply_event ev c).
Proof. intros H. cbn [wait_for]. by rewrite H. Qed.


Section Requests.

Variable float_str : Q → string.

(** An accepted [request] up to the wait, with the exception handling
    still to run. *)
Lemma request_accepted (c : t) (method : string) (params : option pydict)
    (timeout : option Q) (request_id : string) (fut : nat)
    (outcome : send_outcome) (events : list wait_event) (ending : wait_end) :
  accepted c →
  let c1 := set_pending (<[request_id := fut]> (_pending_requests c))
              (set_futures (<[fut := Pending]> (futures c)) c) in
  let body :=
    (immediate_response ←ₚ
       transport_send (JSONRPC.request_to_dict method params request_id) outcome;
     match immediate_response with
     | Some m => _handle_response m
     | None => py_ret tt
     end ;ₚ
     wait_for fut events ending)%py in
  ∀ res c2,
    body c1 = (res, c2) →
    (∀ e, res = Raised e → e ≠ AsyncioTimeoutError ∧ e ≠ AsyncioCancelledError) →
    request float_str method params timeout request_id fut outcome events ending c
    = (res, set_pending (delete request_id (_pending_requests c2)) c2).
Proof.
  intros [Hconn Hroom] c1 body res c2 Hbody Hres. unfold request.
  unfold py_bind at 1, py_get at 1. rewrite Hconn. cbn [negb].
  rewrite (proj2 (Z.leb_gt _ _) Hroom).
  unfold py_bind at 1, py_modify at 1. unfold py_bind at 1, py_modify at 1.
  unfold py_finally, py_try. cbv beta.
  change (set_pending _ (set_futures _ c)) with c1. fold body. rewrite Hbody.
  destruct res as [v|e].
  - reflexivity.
  - destruct (Hres e eq_refl) as [H1 H2].
    destruct e; try done.
Qed.



(** X18.  A request in flight is ended by [cancel_request] on its id and
    by [close].  When the next thing that happens during the wait is a
    [cancel_request] for the request whose notification is sent, the call
    raises the REQUEST_CANCELLED error with the given reason; when it is a
    [close], the call raises the REQUEST_CANCELLED error of message
    [Client closing] and leaves the client CLOSED with an empty pending
    table. *)
Theorem request_ended_by_cancel_or_close
    (c : t) (method : string) (params : option pydict) (timeout : option Q)
    (request_id : string) (fut : nat) (reason : option string)
    (sent_reply : option pyval)
    (events : list wait_event) (ending : wait_end) :
  accepted c →
  _closing c = false →
  let cancelled :=
    request float_str method params timeout request_id fut (Ok None)
      (CancelRequest request_id reason (Ok sent_reply) :: events) ending c in
  let closed :=
    request float_str method params timeout request_id fut (Ok None)
      (Close :: events) ending c in
  cancelled.1 = Raised (MCPError_cancelled reason)
  ∧ _pending_requests cancelled.2 !! request_id = None
  ∧ closed.1 = Raised (MCPError_cancelled (Some "Client closing"))
  ∧ state closed.2 = CLOSED
  ∧ _pending_requests closed.2 = ∅.
Proof.
  intros Hacc Hcl. cbv zeta.
  set (c1 := set_pending (<[request_id := fut]> (_pending_requests c))
               (set_futures (<[fut := Pending]> (futures c)) c)).
  set (c2 := log_sent (JSONRPC.request_to_dict method params request_id) c1).
  assert (Hin : _pending_requests c2 !! request_id = Some fut)
    by apply lookup_insert_eq.
  assert (Hp : futures c2 !! fut = Some Pending) by apply lookup_insert_eq.
  assert (Hconn : is_connected c2 = true) by apply Hacc.
  (* cancel_request *)
  pose proof (cancel_request_result request_id reason (Ok sent_reply) c2) as Hc.
  cbv zeta in Hc. rewrite Hconn, Hin in Hc. unfold future_done in Hc.
  rewrite Hp in Hc. cbn [negb] in Hc.
  set (c3 := set_futures _ _) in Hc.
  assert (Hd3 : futures c3 !! fut = Some (Done (Raised (MCPError_cancelled reason))))
    by apply lookup_insert_eq.
  rewrite (request_accepted c method params timeout request_id fut
             (Ok None) (CancelRequest request_id reason (Ok sent_reply) :: events)
             ending Hacc (Raised (MCPError_cancelled reason)) c3).
  2: { unfold transport_send, py_bind, py_modify, py_lift, py_ret. fold c1 c2.
       rewrite (wait_for_step _ _ _ _ _ Hp). cbn [apply_event].
       rewrite Hc. cbn [snd]. by apply wait_for_done. }
  2: { intros e [= <-]. done. }
  (* close *)
  destruct (close_result c2 Hcl) as (machine & Hclose & Hst & _).
  set (c4 := mk _ _ machine _ _ _ _ _) in Hclose.
  assert (Hd4 : futures c4 !! fut
                = Some (Done (Raised (MCPError_cancelled (Some "Client closing"))))).
  { pose proof (fail_pending_spec (MCPError_cancelled (Some "Client closing")) c2 fut) as Hs.
    rewrite Hp in Hs. destruct Hs as [[Hd _]|[_ Hn]]; [exact Hd|].
    by destruct (Hn request_id). }
  rewrite (request_accepted c method params timeout request_id fut
             (Ok None) (Close :: events) ending Hacc
             (Raised (MCPError_cancelled (Some "Client closing"))) c4).
  2: { unfold transport_send, py_bind, py_modify, py_lift, py_ret. fold c1 c2.
       rewrite (wait_for_step _ _ _ _ _ Hp). cbn [apply_event].
       rewrite Hclose. cbn [snd]. by apply wait_for_done. }
  2: { intros e [= <-]. done. }
  cbn [fst snd set_pending _pending_requests state _state c4].
  rewrite lookup_delete_eq, delete_empty. done.
Qed.

End Requests.

End ClientFutures.

(** ** The outcomes of a request *)

Section RequestEnds.

Import MCPClient.

Variable float_str : Q → string.






Variables (request_id : string) (fut : nat).











End RequestEnds.


Lemma completed_future_is_never_overwritten_witness :
  MCPClient.futures
    (fold_left (λ c ev, MCPClient.apply_event ev c)
       [MCPClient.Incoming (VDict (example_response "r1" (VInt 8)));
        MCPClient.CancelRequest "r1" (Some "late") (Ok None);
        MCPClient.Close]
       example_answered_client) !! 0%nat
  = Some (MCPClient.Done (Ok (VInt 7))).
Proof.
  apply (completed_future_is_never_overwritten example_answered_client 0%nat
           (Ok (VInt 7))).
  reflexivity.
Defined.

Lemma close_fails_pending_and_ends_closed_witness :
  ∃ c',
    MCPClient.close example_waiting_client = (Ok tt, c')
    ∧ MCPClient.state c' = CLOSED
    ∧ MCPClient.futures c' !! 0%nat
      = Some (MCPClient.Done (Raised (MCPError (VInt REQUEST_CANCELLED)
                                        (VStr "Client closing") VNone))).
Proof.
  destruct (close_fails_pending_and_ends_closed example_waiting_client eq_refl)
    as (c' & H1 & H2 & _ & _ & _ & H3 & _).
  exists c'. split; [exact H1|]. split; [exact H2|].
  exact (H3 "r1" 0%nat eq_refl eq_refl).
Defined.


Lemma request_ended_by_cancel_or_close_witness :
  (MCPClient.request example_float_str "tools/list" None None "r1" 0%nat
     (Ok None) [MCPClient.CancelRequest "r1" (Some "user") (Ok None)]
     MCPClient.DeadlinePassed example_ready_client).1
  = Raised (MCPError (VInt REQUEST_CANCELLED) (VStr "user") VNone).
Proof.
  exact (proj1 (request_ended_by_cancel_or_close example_float_str
                  example_ready_client "tools/list" None None "r1" 0%nat
                  (Some "user") None [] MCPClient.DeadlinePassed
                  (conj eq_refl eq_refl) eq_refl)).
Defined.

Section ClientLifecycle.

Import MCPClient.

Variable str_of_exn : exn → string.
Variable str_of_value : pyval → string.

(** X19.  [connect] starts only from DISCONNECTED: in any other state it
    raises the INTERNAL_ERROR [Client already connected] and changes
    nothing.  From DISCONNECTED, when the transport connects the client
    ends INITIALIZING with its receive loop started; when the transport
    raises an [Exception] the client is back in DISCONNECTED, so that
    [connect] can be tried again, and the call raises the INTERNAL_ERROR
    [Connection failed: ...]; when the call is cancelled while the
    transport connects, the cancellation passes through and the client is
    left CONNECTING.  The closing mark is cleared, and the pending table,
    the futures and the sent messages are untouched. *)
Theorem connect_outcomes (c : t) (transport_connect : pyres unit) :
  let r := connect str_of_exn transport_connect c in
  if bool_decide (state c = DISCONNECTED)
  then
    match transport_connect with
    | Ok _ =>
        r.1 = Ok tt ∧ state r.2 = INITIALIZING ∧ _receive_task r.2 = true
    | Raised e =>
        if is_Exception e
        then r.1 = Raised (MCPError (VInt INTERNAL_ERROR)
                             (VStr ("Connection failed: " +:+ str_of_exn e)) VNone)
             ∧ state r.2 = DISCONNECTED
             ∧ _receive_task r.2 = _receive_task c
        else r.1 = Raised e ∧ state r.2 = CONNECTING
             ∧ _receive_task r.2 = _receive_task c
    end
    ∧ _closing r.2 = false
    ∧ _pending_requests r.2 = _pending_requests c
    ∧ futures r.2 = futures c
    ∧ sent r.2 = sent c
  else
    r = (Raised (MCPError (VInt INTERNAL_ERROR) (VStr "Client already connected")
                   VNone), c).
Proof.
  cbv zeta. destruct c as [rt mp [st ls calls] pend futs rtask cl snt].
  unfold connect, py_bind, py_get, py_modify, py_try, py_raise, py_lift, py_ret,
    on_state, state, ProtocolStateMachine.state.
  cbn [_state ProtocolStateMachine._state].
  destruct st; cbn [bool_decide decide_rel negb]; try reflexivity.
  destruct transport_connect as [[]|e].
  - repeat split.
  - destruct e; repeat split.
Qed.

(** X20.  A client that has been closed cannot be connected again:
    [close] leaves it CLOSED, and [connect] on it raises the
    INTERNAL_ERROR [Client already connected] and changes nothing,
    however the transport would answer. *)
Theorem closed_client_cannot_reconnect (c : t) (transport_connect : pyres unit) :
  _closing c = false →
  connect str_of_exn transport_connect (close c).2
  = (Raised (MCPError (VInt INTERNAL_ERROR) (VStr "Client already connected")
               VNone), (close c).2).
Proof.
  intros Hcl. destruct (close_result c Hcl) as (machine & -> & Hst & _).
  cbn [snd]. unfold connect, py_bind, py_get, py_raise, state,
    ProtocolStateMachine.state. cbn [_state]. by rewrite Hst.
Qed.

(** X21.  A server request whose method can be hashed gets exactly one
    answer.  When the method of the request is a list or a dictionary, the
    lookup of the handler raises [TypeError]: nothing is sent and the
    client is as it was.  Otherwise the handler is the entry of
    [_request_handlers] for the method when the method is a string that has
    one, and there is none for any other method; and, unless the handler is
    cancelled, [_handle_server_request] hands one message to the transport:
    a response (it has the id of the request and no method) with the result
    of the handler, or with an error object: METHOD_NOT_FOUND when there is
    no handler, the code, message and data of the [MCPError] the handler
    raised, INTERNAL_ERROR with the text of any other exception.  The
    pending table and the futures of the client are untouched, and the call
    ends as the send ends.  A cancelled handler passes its cancellation on
    and nothing is sent. *)
Theorem server_request_gets_one_response
    (c : t) (handlers : gmap string request_handler) (d : pydict)
    (new_id : string) (outcome : send_outcome) (method : pyval) :
  d !! "method" = Some method →
  let r := _handle_server_request str_of_exn str_of_value handlers d new_id
             outcome c in
  let rid := default (VStr new_id) (d !! "id") in
  let answer (member : string) (v : pyval) :=
    ∃ resp,
      sent r.2 = sent c ++ [resp]
      ∧ resp = <[member := v]> (<["id" := rid]> {[ "jsonrpc" := VStr "2.0" ]})
      ∧ JSONRPC.is_response resp = true
      ∧ r.1 = match outcome with Ok _ => Ok tt | Raised e => Raised e end in
  let answered (handler : option request_handler) :=
    match handler with
    | None =>
        answer "error"
          (VDict (JSONRPC.MCPError_to_dict (VInt METHOD_NOT_FOUND)
                    (VStr ("Method not found: " +:+ str_of_value method)) VNone))
    | Some h =>
        match h (dict_get d "params") with
        | Ok result => answer "result" result
        | Raised (MCPError code message data) =>
            answer "error" (VDict (JSONRPC.MCPError_to_dict code message data))
        | Raised e =>
            if is_Exception e
            then answer "error"
                   (VDict (JSONRPC.MCPError_to_dict (VInt INTERNAL_ERROR)
                             (VStr (str_of_exn e)) VNone))
            else r = (Raised e, c)
        end
    end in
  match method with
  | VList _ | VDict _ => r = (Raised TypeError, c)
  | VStr s => answered (handlers !! s)
  | _ => answered None
  end
  ∧ _pending_requests r.2 = _pending_requests c
  ∧ futures r.2 = futures c.
Proof.
  intros Hm. cbv zeta.
  unfold _handle_server_request, JSONRPC.request_from_dict, res_bind, dict_item,
    py_bind, py_lift. rewrite Hm.
  cbn [JSONRPC.request_id JSONRPC.request_method JSONRPC.request_params].
  assert (Hresp : ∀ member v,
    member = "result" ∨ member = "error" →
    JSONRPC.is_response
      (<[member := v]> (<["id" := default (VStr new_id) (d !! "id")]>
                          {[ "jsonrpc" := VStr "2.0" ]})) = true).
  { intros member v Hmem. unfold JSONRPC.is_response. rewrite !dict_has_lookup.
    destruct Hmem as [-> | ->]; by lookup_literal. }
  assert (Hsend : ∀ (resp : pydict) (P : pyres unit * t → Prop),
    P (match outcome with Ok _ => Ok tt | Raised e => Raised e end, log_sent resp c) →
    P (match transport_send resp outcome c with
       | (Ok _, s') => py_ret tt s'
       | (Raised e, s') => (Raised e, s')
       end)).
  { intros resp P HP. unfold transport_send, py_bind, py_modify, py_lift, py_ret.
    by destruct outcome. }
  assert (Hanswer : ∀ member v,
    member = "result" ∨ member = "error" →
    let resp := <[member := v]> (<["id" := default (VStr new_id) (d !! "id")]>
                                   {[ "jsonrpc" := VStr "2.0" ]}) in
    let r := match transport_send resp outcome c with
             | (Ok _, s') => py_ret tt s'
             | (Raised e, s') => (Raised e, s')
             end in
    (∃ resp',
       sent r.2 = sent c ++ [resp'] ∧ resp' = resp
       ∧ JSONRPC.is_response resp' = true
       ∧ r.1 = match outcome with Ok _ => Ok tt | Raised e => Raised e end)
    ∧ _pending_requests r.2 = _pending_requests c
    ∧ futures r.2 = futures c).
  { intros member v Hmem. cbv zeta. apply Hsend.
    cbn [fst snd sent log_sent _pending_requests futures]. split; [|done].
    eexists. split; [reflexivity|]. split; [reflexivity|].
    split; [by apply Hresp|done]. }
  destruct method as [| | | |s|l|dm]; cbn [get_request_handler]; cbv beta iota;
    try done.
  all: try (apply (Hanswer "error"); auto).
  destruct (handlers !! s) as [h|]; cbv beta iota.
  - destruct (h (dict_get d "params")) as [result|e].
    + apply (Hanswer "result"). auto.
    + destruct e; cbn [is_Exception]; try (apply (Hanswer "error"); auto).
      unfold py_raise. done.
  - apply (Hanswer "error"). auto.
Qed.

End ClientLifecycle.

Lemma closed_client_cannot_reconnect_witness :
  (MCPClient.connect example_str_of_exn (Ok tt)
     (MCPClient.close example_ready_client).2).1
  = Raised (MCPError (VInt INTERNAL_ERROR) (VStr "Client already connected") VNone).
Proof.
  exact (f_equal fst (closed_client_cannot_reconnect example_str_of_exn
                        example_ready_client (Ok tt) eq_refl)).
Defined.

Lemma server_request_gets_one_response_witness :
  ∃ resp,
    MCPClient.sent
      (MCPClient._handle_server_request example_str_of_exn example_str_of_value
         example_request_handlers (SessionWire.example_message "ping") "f00d"
         (Ok None) example_ready_client).2 = [resp]
    ∧ resp !! "id" = Some (VStr "1")
    ∧ resp !! "result" = Some (VDict ∅).
Proof.
  destruct (server_request_gets_one_response example_str_of_exn
              example_str_of_value example_ready_client
              example_request_handlers
              (SessionWire.example_message "ping") "f00d" (Ok None)
              (VStr "ping") eq_refl) as [(resp & H1 & H2 & _) _].
  exists resp. split; [exact H1|]. rewrite H2. split; reflexivity.
Defined.

(* ===================================================================== *)
(** ** The HTTP transport in sequential use                               *)
(* ===================================================================== *)

Section TransportUse.

Import StreamableHTTPTransport.

Lemma send_internal_flags (message : pydict) (server : post_outcome) (tr : t) :
  let tr' := (_send_internal message server tr).2 in
  _client tr' = _client tr ∧ _connected tr' = _connected tr
  ∧ _closing tr' = _closing tr.
Proof.
  unfold _send_internal, _start_sse_stream, py_bind, py_get, py_raise,
    py_modify, py_ret, log_wire, set_session_id; simpl.
  destruct server as [| |r]; simpl; [done|done|].
  destruct (session_header r) as [new|]; simpl;
    [destruct (bool_decide (_session_id tr = Some new)); simpl|];
    destruct (status_code r =? 202); simpl; try done;
    destruct (str_contains "text/event-stream" (content_type r)); simpl;
      try done;
    destruct (400 <=? status_code r); simpl; try done;
    destruct (str_contains "application/json" (content_type r)); simpl;
      try done;
    destruct (json r); simpl; done.
Qed.

Lemma transport_step_invariant (o : op) (tr : t) :
  _client tr = _connected tr →
  (_closing tr = true → _connected tr = false) →
  (_connected tr = false → _session_id tr = None ∧ _sse_task tr = false) →
  let tr' := step o tr in
  _client tr' = _connected tr'
  ∧ (_closing tr' = true → _connected tr' = false)
  ∧ (_connected tr' = false → _session_id tr' = None ∧ _sse_task tr' = false).
Proof.
  intros Hc Hcl Hs. destruct o as [| |message server]; cbn [step].
  - unfold connect, py_bind, py_get, py_ret, py_modify.
    destruct (_connected tr) eqn:E; cbn [snd]; [by rewrite E|done].
  - unfold disconnect, py_bind, py_get, py_ret, py_modify, log_wire.
    destruct (negb (_connected tr) && negb (_client tr)); cbn [snd]; done.
  - unfold send, py_bind, py_get, py_raise.
    destruct (negb (_client tr) || negb (_connected tr)) eqn:E; cbn [snd]; [done|].
    destruct (_closing tr) eqn:E'; cbn [snd]; [by rewrite E'|].
    destruct (send_internal_flags message server tr) as (H1 & H2 & H3).
    cbv zeta in *. rewrite H1, H2, H3.
    apply orb_false_elim in E as [_ E]. apply negb_false_iff in E.
    rewrite E, E'. repeat split; try done. by rewrite <- E.
Qed.

(** X22.  In sequential use of a transport, from its creation on: the
    HTTP client object exists exactly while the transport is connected; a
    transport that is not connected holds no session identifier and no
    stream, and [send] on it raises [SessionError] without a POST; on a
    connected transport [send] always reaches the POST, the answer
    [Transport is closing] being reserved to a [send] that overlaps a
    [disconnect].  [connect] and [disconnect] are idempotent. *)
Theorem transport_sequential_use (ops : list op) (message : pydict)
    (server : post_outcome) :
  let tr := run ops in
  _client tr = _connected tr
  ∧ (if _connected tr
     then send message server tr = _send_internal message server tr
     else _session_id tr = None ∧ _sse_task tr = false
          ∧ send message server tr
            = (Raised (TransportError SessionError "Transport not connected"), tr))
  ∧ step op_connect (step op_connect tr) = step op_connect tr
  ∧ step op_disconnect (step op_disconnect tr) = step op_disconnect tr.
Proof.
  cbv zeta.
  assert (Hinv : _client (run ops) = _connected (run ops)
                 ∧ (_closing (run ops) = true → _connected (run ops) = false)
                 ∧ (_connected (run ops) = false →
                    _session_id (run ops) = None ∧ _sse_task (run ops) = false)).
  { induction ops as [|o ops IH] using rev_ind; [done|].
    rewrite run_snoc. destruct IH as (H1 & H2 & H3).
    by apply transport_step_invariant. }
  destruct Hinv as (Hc & Hcl & Hs). split; [exact Hc|].
  split; [|split].
  - unfold send, py_bind, py_get, py_raise. rewrite Hc.
    destruct (_connected (run ops)) eqn:E; cbn [negb orb].
    + destruct (_closing (run ops)) eqn:E'; [|done]. by specialize (Hcl eq_refl).
    + destruct (Hs eq_refl) as [-> ->]. done.
  - cbn [step]. unfold connect, py_bind, py_get, py_ret, py_modify.
    destruct (_connected (run ops)) eqn:E; cbn [snd]; [by rewrite E|done].
  - cbn [step]. unfold disconnect, py_bind, py_get, py_ret, py_modify, log_wire.
    destruct (negb (_connected (run ops)) && negb (_client (run ops))) eqn:E;
      cbn [snd]; [by rewrite E|done].
Qed.

End TransportUse.

(* ===================================================================== *)
(** ** Server capabilities and the refusal of a protocol version          *)
(* ===================================================================== *)

(** X23.  Decoding the encoded server capabilities gives them back, except
    for one field: a [requests] value of the tasks capability that is
    falsy (an empty dictionary, for one) is not written by [to_dict] and
    is read back as [None].  Everything else survives, the flags as they
    were stored. *)
Theorem server_capabilities_round_trip (x : ServerCapabilities.t) :
  ServerCapabilities.from_dict (ServerCapabilities.to_dict x)
  = Ok (ServerCapabilities.mk
          (ServerCapabilities.tools x) (ServerCapabilities.resources x)
          (ServerCapabilities.prompts x)
          (ServerCapabilities.written_tasks <$> ServerCapabilities.tasks x)
          (ServerCapabilities.logging x) (ServerCapabilities.completions x)
          (ServerCapabilities.experimental x)).
Proof.
  destruct x as [tl rs pr tk lg cp ex].
  unfold ServerCapabilities.from_dict, ServerCapabilities.to_dict,
    ServerCapabilities.written_tasks, res_bind, dict_get;
    cbn [ServerCapabilities.tools ServerCapabilities.resources
         ServerCapabilities.prompts ServerCapabilities.tasks
         ServerCapabilities.logging ServerCapabilities.completions
         ServerCapabilities.experimental].
  rewrite !dict_has_lookup. lookup_literal.
  destruct tl as [f|], rs as [[s l]|], pr as [p|], tk as [[tl' tc rq]|];
    cbn [fmap option_fmap option_map ServerCapabilities.flag_of py_contains
         ServerCapabilities.list ServerCapabilities.cancel
         ServerCapabilities.requests fst snd];
    rewrite ?dict_has_lookup; lookup_literal; cbn [default]; unfold Datatypes.id.
  all: destruct lg, cp; cbn [default]; unfold Datatypes.id.
  all: try (destruct tl', tc, (py_truthy rq); cbn [default]; unfold Datatypes.id).
  all: try (destruct ex; reflexivity).
Qed.

(** X24.  [negotiate] refuses a server whose protocol version is not one
    of the supported ones (a missing version, read as the empty string,
    and a version that is not a string included): once the initialize
    request has returned such a response, [negotiate] raises
    [IncompatibleProtocolError] with the version it read, and does nothing
    else.  The client is as the request left it, so no [initialized]
    notification is sent and the client is not marked READY, and no
    result is stored. *)
Theorem negotiate_refuses_unsupported_version
    (float_str : Q → string) (n : CapabilityNegotiator.t) (timeout : Q)
    (request_id : string) (fut : nat)
    (outcome : MCPClient.send_outcome) (events : list MCPClient.wait_event)
    (ending : MCPClient.wait_end) (notify_outcome : MCPClient.send_outcome)
    (response : pydict) (c1 : MCPClient.t) :
  MCPClient.request float_str "initialize"
    (Some (<["clientInfo" := VDict (ClientInfo.to_dict (CapabilityNegotiator.client_info n))]>
           (<["capabilities" := VDict (ClientCapabilities.to_dict
                                         (CapabilityNegotiator.client_capabilities n))]>
           {[ "protocolVersion" := VStr CapabilityNegotiator.PROTOCOL_VERSION ]})))
    (Some timeout) request_id fut outcome events ending
    (CapabilityNegotiator.client n) = (Ok (VDict response), c1) →
  CapabilityNegotiator.version_supported
    (default (VStr "") (response !! "protocolVersion")) = false →
  ∃ n',
    CapabilityNegotiator.negotiate float_str timeout request_id fut outcome
      events ending notify_outcome n
    = (Raised (IncompatibleProtocolError
                 (default (VStr "") (response !! "protocolVersion"))), n')
    ∧ CapabilityNegotiator.client n' = c1
    ∧ CapabilityNegotiator._result n' = CapabilityNegotiator._result n
    ∧ MCPClient.sent (CapabilityNegotiator.client n') = MCPClient.sent c1
    ∧ MCPClient.state (CapabilityNegotiator.client n') = MCPClient.state c1.
Proof.
  intros Hreq Hver. eexists. split.
  - unfold CapabilityNegotiator.negotiate.
    unfold py_bind at 1, py_get at 1.
    unfold py_bind at 1, CapabilityNegotiator.on_client at 1.
    rewrite Hreq.
    unfold py_bind at 1, py_lift at 1.
    rewrite Hver. cbn [negb]. unfold py_raise. reflexivity.
  - done.
Qed.

Lemma negotiate_refuses_unsupported_version_witness :
  ∃ n',
    CapabilityNegotiator.negotiate example_float_str 10 "req-1" 0%nat
      (Ok (Some (example_old_initialize_response "req-1"))) []
      MCPClient.DeadlinePassed (Ok None)
      (CapabilityNegotiator.init example_initializing_client)
    = (Raised (IncompatibleProtocolError (VStr "2023-01-01")), n')
    ∧ MCPClient.state (CapabilityNegotiator.client n') = INITIALIZING
    ∧ CapabilityNegotiator._result n' = None.
Proof.
  pose (n := CapabilityNegotiator.init example_initializing_client).
  pose (req :=
    MCPClient.request example_float_str "initialize"
      (Some (<["clientInfo" := VDict (ClientInfo.to_dict (CapabilityNegotiator.client_info n))]>
             (<["capabilities" := VDict (ClientCapabilities.to_dict
                                           (CapabilityNegotiator.client_capabilities n))]>
             {[ "protocolVersion" := VStr CapabilityNegotiator.PROTOCOL_VERSION ]})))
      (Some 10%Q) "req-1" 0%nat
      (Ok (Some (example_old_initialize_response "req-1"))) []
      MCPClient.DeadlinePassed (CapabilityNegotiator.client n)).
  assert (Hreq : req = (Ok (VDict example_old_initialize_result), req.2))
    by (vm_compute; reflexivity).
  destruct (negotiate_refuses_unsupported_version example_float_str n 10 "req-1"
              0%nat (Ok (Some (example_old_initialize_response "req-1"))) []
              MCPClient.DeadlinePassed (Ok None)
              example_old_initialize_result req.2 Hreq eq_refl)
    as (n' & H1 & H2 & H3 & _ & H4).
  exists n'. split; [exact H1|]. split; [|exact H3].
  rewrite H4. vm_compute. reflexivity.
Defined.

(* ===================================================================== *)
(** ** The tasks/cancel handler                                           *)
(* ===================================================================== *)

Section CancelHandler.

Import TaskManager.

Lemma refused_edge_to_cancelled (s : TaskState) :
  ¬ permitted_task_edge s CANCELLED → s ≠ CANCELLED →
  Task.terminal_state s = true.
Proof.
  intros Hno Hne. destruct s; try done; destruct Hno; constructor.
Qed.

(** What the answer of [cancel_task] says about the task, whatever the
    background coroutine does while it is awaited. *)
Lemma cancel_task_answer (m : t) (tid : string) (reason : option string)
    (executor_end : Py t unit) (n1 n2 : datetime) (res : pyres bool) (m' : t) :
  cancel_task tid reason executor_end n1 n2 m = (res, m') →
  match res with
  | Ok true =>
      ∃ task, _tasks m' !! tid = Some task ∧ Task.state task = CANCELLED
  | Ok false =>
      (_tasks m !! tid = None ∧ m' = m)
      ∨ ∃ task, _tasks m' !! tid = Some task ∧ Task.is_terminal task = true
  | Raised _ => True
  end.
Proof.
  unfold cancel_task. unfold py_bind at 1, py_get at 1. cbv beta iota.
  destruct (_tasks m !! tid) as [task|] eqn:Hin;
    [|intros [= <- <-]; left; done].
  destruct (Task.is_terminal task) eqn:Hterm;
    [intros [= <- <-]; right; eauto|].
  unfold py_bind at 1.
  set (awaited := if bool_decide (tid ∈ _executors m) then _ else _).
  destruct (awaited m) as [[[]|e] m1]; [|by intros [= <- <-]]. clear awaited.
  unfold py_bind at 1. unfold on_task at 1.
  destruct (_tasks m1 !! tid) as [task1|] eqn:Hin1; [|by intros [= <- <-]].
  unfold py_get at 1. rewrite (manager_store_same _ _ _ Hin1).
  destruct (decide (Task.state task1 = CANCELLED)) as [Hc|Hnc].
  - rewrite bool_decide_eq_true_2 by done. intros [= <- <-]. eauto.
  - rewrite bool_decide_eq_false_2 by done. unfold py_try, py_bind at 1.
    destruct (permitted_task_edge_dec (Task.state task1) CANCELLED) as [Hyes|Hno].
    + destruct (manager_transition_accepted m1 tid task1 CANCELLED n1 n2 Hin1 Hyes)
        as (task2 & m2 & -> & Htr & Htasks & _).
      rewrite (task_transition_accepted _ _ _ _ Hyes) in Htr.
      injection Htr as <-. cbn [bool_decide decide_rel Task.terminal_state] in Htasks.
      assert (Hin2 : _tasks m2 !! tid
                     = Some (Task.set_completed_at (Some n2)
                               (Task.set_updated_at n1
                                  (Task.set_state CANCELLED task1))))
        by (rewrite Htasks; apply lookup_insert_eq).
      unfold py_bind.
      destruct reason as [r|]; [destruct (String.eqb r "")|].
      * intros [= <- <-]. eauto.
      * rewrite (on_task_eq _ _ _ _ Hin2). cbn [fst snd py_modify py_ret].
        intros [= <- <-]. eexists. cbn [set_tasks _tasks].
        by rewrite lookup_insert_eq.
      * intros [= <- <-]. eauto.
    + rewrite (manager_transition_rejected _ _ _ _ _ _ Hin1 Hno).
      cbn [fst snd py_ret]. intros [= <- <-]. right. exists task1.
      split; [done|]. by apply refused_edge_to_cancelled.
Qed.

(** X25.  What the answers of [handle_cancel] mean.  It returns
    [{"cancelled": True}] only when the task named by [taskId] is in the
    manager and CANCELLED afterwards.  It raises [ValueError] exactly for
    a missing or falsy [taskId], leaving the manager alone;
    [TaskNotFoundError] only when the manager holds no task of that id;
    and [TaskNotCancellableError] only with the state the task is in,
    which is then a terminal one. *)
Theorem handle_cancel_outcomes (params : pydict) (executor_end : Py t unit)
    (n1 n2 : datetime) (m : t) :
  let r := TasksHandler.handle_cancel params executor_end n1 n2 m in
  let task_id := dict_get params "taskId" in
  match r.1 with
  | TasksHandler.Returned d =>
      d = {[ "cancelled" := VBool true ]}
      ∧ ∃ tid task, task_id = VStr tid ∧ _tasks r.2 !! tid = Some task
                    ∧ Task.state task = CANCELLED
  | TasksHandler.Failed (TasksHandler.ValueError _) =>
      py_truthy task_id = false ∧ r.2 = m
  | TasksHandler.Failed (TasksHandler.TaskNotFoundError v) =>
      v = task_id ∧ py_truthy task_id = true
      ∧ ∀ tid, task_id = VStr tid → _tasks r.2 !! tid = None
  | TasksHandler.Failed (TasksHandler.TaskNotCancellableError v st) =>
      v = task_id
      ∧ ∃ tid task, task_id = VStr tid ∧ _tasks r.2 !! tid = Some task
                    ∧ Task.state task = st ∧ Task.terminal_state st = true
  | TasksHandler.Failed (TasksHandler.Propagated _) =>
      py_truthy task_id = true
  end.
Proof.
  cbv zeta. unfold TasksHandler.handle_cancel.
  destruct (py_truthy (dict_get params "taskId")) eqn:Htruthy; cbn [negb fst snd];
    [|done].
  assert (Hmain : ∀ reason,
    let r := match dict_get params "taskId" with
             | VStr tid =>
                 match cancel_task tid reason executor_end n1 n2 m with
                 | (Ok true, m') =>
                     (TasksHandler.Returned ({[ "cancelled" := VBool true ]} : pydict), m')
                 | (Ok false, m') =>
                     match get_task tid m' with
                     | Some task =>
                         (TasksHandler.Failed
                            (TasksHandler.TaskNotCancellableError
                               (dict_get params "taskId") (Task.state task)), m')
                     | None =>
                         (TasksHandler.Failed
                            (TasksHandler.TaskNotFoundError (dict_get params "taskId")), m')
                     end
                 | (Raised e, m') => (TasksHandler.Failed (TasksHandler.Propagated e), m')
                 end
             | VList _ | VDict _ =>
                 (TasksHandler.Failed (TasksHandler.Propagated TypeError), m)
             | _ => (TasksHandler.Failed
                       (TasksHandler.TaskNotFoundError (dict_get params "taskId")), m)
             end in
    match r.1 with
    | TasksHandler.Returned d =>
        d = {[ "cancelled" := VBool true ]}
        ∧ ∃ tid task, dict_get params "taskId" = VStr tid
                      ∧ _tasks r.2 !! tid = Some task ∧ Task.state task = CANCELLED
    | TasksHandler.Failed (TasksHandler.ValueError _) => true = false ∧ r.2 = m
    | TasksHandler.Failed (TasksHandler.TaskNotFoundError v) =>
        v = dict_get params "taskId" ∧ true = true
        ∧ ∀ tid, dict_get params "taskId" = VStr tid → _tasks r.2 !! tid = None
    | TasksHandler.Failed (TasksHandler.TaskNotCancellableError v st) =>
        v = dict_get params "taskId"
        ∧ ∃ tid task, dict_get params "taskId" = VStr tid
                      ∧ _tasks r.2 !! tid = Some task
                      ∧ Task.state task = st ∧ Task.terminal_state st = true
    | TasksHandler.Failed (TasksHandler.Propagated _) => true = true
    end).
  { intros reason. cbv zeta.
    destruct (dict_get params "taskId") as [| | | |tid| |] eqn:Hid; cbn [fst snd];
      try done.
    pose proof (cancel_task_answer m tid reason executor_end n1 n2) as Hans.
    destruct (cancel_task tid reason executor_end n1 n2 m) as [[[|]|e] m'];
      specialize (Hans _ _ eq_refl); cbn [fst snd] in *; [|..|done].
    - split; [done|]. destruct Hans as (task & H1 & H2). eauto.
    - unfold get_task.
      destruct Hans as [[Hnone ->]|(task & Hin & Hterm)].
      + rewrite Hnone. cbn [fst snd]. split; [done|]. split; [done|].
        by intros ? [= <-].
      + rewrite Hin. cbn [fst snd]. split; [done|]. eauto 10. }
  destruct (dict_get params "reason"); try exact (Hmain _); cbn [fst snd]; done.
Qed.

End CancelHandler.

(* ===================================================================== *)
(** ** Log levels                                                        *)
(* ===================================================================== *)

Section Logging.

Import LogLevel.

Lemma of_value_lower (s : string) (l : t) :
  of_value s = Some l → s = value l.
Proof.
  unfold of_value, members. cbn [List.find].
  repeat match goal with
  | |- context [String.eqb ?a s] =>
      destruct (String.eqb_spec a s) as [<-|_]; [by intros [= <-]|]
  end.
  done.
Qed.

(** X27.  The comparison of log levels is a strict total order, the one
    in which the levels are defined, from DEBUG up to EMERGENCY: [<] is
    irreflexive and transitive, two different levels are comparable, and
    [a <= b] holds exactly when [b < a] does not.  The translation to the
    levels of Python logging never inverts it.  [from_string] reads the
    name of every level back, in any case of the letters, and accepts
    nothing else. *)
Theorem log_levels_are_totally_ordered (a b c : t) (s : string) :
  lt a a = false
  ∧ (lt a b = true → lt b c = true → lt a c = true)
  ∧ (lt a b = true ∨ a = b ∨ lt b a = true)
  ∧ le a b = negb (lt b a)
  ∧ (le a b = true → MCP_TO_PYTHON_LEVEL a ≤ MCP_TO_PYTHON_LEVEL b)
  ∧ from_string (VStr (value a)) = Ok a
  ∧ (from_string (VStr s) = Ok a ↔ TransportConfig.lower s = value a).
Proof.
  split; [by destruct a|].
  split; [destruct a, b; try (intros H; discriminate H); destruct c;
          (intros _ H; discriminate H) || done|].
  split; [destruct a, b; auto|].
  split; [by destruct a, b|].
  split; [destruct a, b; (intros H; discriminate H) || (intros _; done)|].
  split; [by destruct a|].
  unfold from_string.
  destruct (of_value (TransportConfig.lower s)) as [l|] eqn:Hl.
  - apply of_value_lower in Hl. rewrite Hl. split.
    + by intros [= ->].
    + intros H. f_equal. by destruct l, a.
  - split; [intros H; discriminate H|].
    intros H. rewrite H in Hl. by destruct a.
Qed.

End Logging.

(* ===================================================================== *)
(** ** Pagination                                                         *)
(* ===================================================================== *)

Section Pagination.

Import PaginatedListHelper.

Variable str_of_exn : exn → string.
Variable str_of_value : pyval → string.






End Pagination.


